(** * SCRIP grid descriptors of MPAS-Analysis

    A shallow embedding of [mpas_analysis/shared/grid/grid.py] and the
    properties of its three descriptors ([MpasMeshDescriptor],
    [LatLonGridDescriptor], [ProjectionGridDescriptor]) and of the helpers
    [_create_scrip], [_interp_extrap_corner] and [_unwrap_corners].

    Modelling choices.
    - A numpy [float64] is a primitive binary64 float ([PrimFloat.float]); a
      1D array is a [list], a 2D array a list of rows.
    - Integer arrays read from a mesh file ([nEdgesOnCell], [verticesOnCell])
      are lists of [Z]: the file fixes their width, the code does not, and the
      only arithmetic on them is [- 1].
    - The variables read from a mesh file are masked arrays ([numpy.ma])
      without a masked entry; a division masks entries of its result.
    - Python's float power [**] is the [pow] of the C library, a parameter.
    - A Python exception is a value of [exn]; code that may raise returns a
      [result].
    - The netCDF file written by [to_scrip] is a record of finite maps
      (dimensions, variables, global attributes).
    - [sys.argv] is an explicit argument [argv]. *)

From Stdlib Require Import ZArith Floats Ascii Lia.
From stdpp Require Import gmap strings list.

Local Open Scope string_scope.
Local Open Scope Z_scope.
Local Open Scope nat_scope.
Local Open Scope list_scope.

(** ** Exceptions *)

Inductive exn : Type :=
| IndexError (index : Z) (size : nat)   (* index out of bounds for an axis *)
| IndexError_shape (msg : string)       (* index arrays that do not broadcast *)
| ValueError (msg : string)             (* shapes that do not broadcast *)
| KeyError (key : string)
| AttributeError (name : string)
| RuntimeError (msg : string).

Inductive result (A : Type) : Type :=
| Ok (a : A)
| Raise (e : exn).
Arguments Ok {A} a.
Arguments Raise {A} e.

Definition bind {A B} (m : result A) (k : A -> result B) : result B :=
  match m with
  | Ok a => k a
  | Raise e => Raise e
  end.

Notation "'let*' x ':=' m 'in' k" := (bind m (fun x => k))
  (at level 10, x pattern, m at level 200, k at level 200, only parsing).

Definition is_Ok {A} (r : result A) : bool :=
  match r with Ok _ => true | Raise _ => false end.

Fixpoint mapM {A B} (f : A -> result B) (l : list A) : result (list B) :=
  match l with
  | [] => Ok []
  | x :: l' => let* y := f x in let* ys := mapM f l' in Ok (y :: ys)
  end.

(** A [for] loop over a list with the loop state threaded through. *)
Fixpoint foldM {A S} (body : S -> A -> result S) (s : S) (l : list A) : result S :=
  match l with
  | [] => Ok s
  | x :: l' => let* s' := body s x in foldM body s' l'
  end.

(** ** The numpy operations used by the module *)

(** The zero of an array's element type, what [numpy.zeros] fills with. *)
Class Zero (A : Type) := zero : A.
#[export] Instance float_zero : Zero float := 0%float.
#[export] Instance Z_zero : Zero Z := 0%Z.

(** A 2D array: its rows, and the length of its second axis (which an array
    without rows still has). Its shape is [(length rows, ncols)]. *)
Record ndarray2 (A : Type) : Type := Array2 { ncols : nat; rows : list (list A) }.
Arguments Array2 {A} ncols rows.
Arguments ncols {A} _.
Arguments rows {A} _.

Definition shape0 {A} (a : ndarray2 A) : nat := length (rows a).
Definition shape1 {A} (a : ndarray2 A) : nat := ncols a.

(** Every row has the length the shape announces. *)
Definition rectangular {A} (a : ndarray2 A) : Prop :=
  Forall (fun row => length row = ncols a) (rows a).

(** [a[r, c]] for indices within the shape. *)
Definition at2 {A} (a : ndarray2 A) (r c : nat) : option A :=
  match rows a !! r with
  | Some row => row !! c
  | None => None
  end.

Module numpy.

Definition zeros {A} `{Zero A} (n : nat) : list A := replicate n zero.

(** [numpy.zeros((r, c))]; a negative dimension is refused. *)
Definition zeros2 {A} `{Zero A} (r c : Z) : result (ndarray2 A) :=
  if ((r <? 0) || (c <? 0))%Z
  then Raise (ValueError "negative dimensions are not allowed")
  else Ok (Array2 (Z.to_nat c) (replicate (Z.to_nat r) (zeros (Z.to_nat c)))).

Definition arange (n : nat) : list nat := seq 0 n.

(** [a[i]] with an integer [i]: a negative index counts from the end. *)
Definition getitem {A} (a : list A) (i : Z) : result A :=
  let n := Z.of_nat (length a) in
  let j := if (i <? 0)%Z then (i + n)%Z else i in
  if ((0 <=? j) && (j <? n))%Z
  then match a !! Z.to_nat j with
       | Some x => Ok x
       | None => Raise (IndexError i (length a))
       end
  else Raise (IndexError i (length a)).

(** [a[i] = x]. *)
Definition setitem {A} (a : list A) (i : Z) (x : A) : result (list A) :=
  let n := Z.of_nat (length a) in
  let j := if (i <? 0)%Z then (i + n)%Z else i in
  if ((0 <=? j) && (j <? n))%Z
  then Ok (<[Z.to_nat j := x]> a)
  else Raise (IndexError i (length a)).

(** A slice bound, clipped to the array as Python does. *)
Definition bound (n : nat) (i : Z) : nat :=
  let j := if (i <? 0)%Z then (i + Z.of_nat n)%Z else i in
  Z.to_nat (Z.max 0 (Z.min (Z.of_nat n) j)).

Definition stop_bound (n : nat) (stop : option Z) : nat :=
  match stop with
  | Some j => bound n j
  | None => n
  end.

(** [a[start:stop]]; [stop = None] is an omitted bound. *)
Definition slice {A} (start : Z) (stop : option Z) (a : list A) : list A :=
  let n := length a in
  let lo := bound n start in
  let hi := stop_bound n stop in
  take (hi - lo) (drop lo a).

(** Element-wise binary operation with the broadcasting of 1D arrays:
    equal lengths, or one operand of length one. *)
Definition broadcast2 {A B C} (op : A -> B -> C) (a : list A) (b : list B)
  : result (list C) :=
  if decide (length a = length b) then Ok (zip_with op a b)
  else match a, b with
       | [x], _ => Ok (map (op x) b)
       | _, [y] => Ok (map (fun x => op x y) a)
       | _, _ => Raise (ValueError "operands could not be broadcast together")
       end.

Definition add (a b : list float) : result (list float) :=
  broadcast2 PrimFloat.add a b.

(** [c * a] for a Python float [c]. *)
Definition scale (c : float) (a : list float) : list float :=
  map (PrimFloat.mul c) a.

(** [a[start:stop] = rhs]: [rhs] has the length of the slice, or length
    one and is repeated. *)
Definition setslice {A} (start : Z) (stop : option Z) (rhs : list A) (a : list A)
  : result (list A) :=
  let n := length a in
  let lo := bound n start in
  let hi := stop_bound n stop in
  let k := hi - lo in
  if decide (length rhs = k) then Ok (take lo a ++ rhs ++ drop (lo + k) a)
  else match rhs with
       | [x] => Ok (take lo a ++ replicate k x ++ drop (lo + k) a)
       | _ => Raise (ValueError "could not broadcast input array")
       end.

(** [numpy.minimum(a, p)] for an integer array [a] and an integer [p]. *)
Definition minimum (a : list Z) (p : Z) : list Z := map (fun k => Z.min k p) a.

(** [a - 1] for an integer array. *)
Definition sub_scalar (a : list Z) (c : Z) : list Z := map (fun k => (k - c)%Z) a.

(** [a[idx]] for an integer index array [idx]. *)
Definition take_indices {A} (a : list A) (idx : list Z) : result (list A) :=
  mapM (getitem a) idx.

(** [a[rows, cols]] for two index arrays: the element [a[rows[i], cols[i]]]
    for each [i]. The index arrays broadcast: they have one length, or one
    of them has length one. *)
Definition take_pairs {A} (a : list (list A)) (rows : list nat) (cols : list Z)
  : result (list A) :=
  let pick := fun rc : nat * Z =>
    let* row := getitem a (Z.of_nat (fst rc)) in getitem row (snd rc) in
  if decide (length rows = length cols) then mapM pick (zip rows cols)
  else match rows, cols with
       | [r], _ => mapM pick (map (fun c => (r, c)) cols)
       | _, [c] => mapM pick (map (fun r => (r, c)) rows)
       | _, _ =>
           Raise (IndexError_shape
                    "shape mismatch: indexing arrays could not be broadcast together")
       end.

(** [a[idx, col] = vals] for an index array [idx]: [a[idx[i], col] = vals[i]]
    for each [i], in order. [vals] has the length of [idx], or length one
    and is repeated. *)
Definition put_column {A} (a : ndarray2 A) (idx : list nat) (col : nat)
    (vals : list A) : result (ndarray2 A) :=
  let put := fun (rs : list (list A)) (rv : nat * A) =>
    let* row := getitem rs (Z.of_nat (fst rv)) in
    let* row' := setitem row (Z.of_nat col) (snd rv) in
    setitem rs (Z.of_nat (fst rv)) row' in
  if decide (length idx = length vals)
  then
    let* rs := foldM put (rows a) (zip idx vals) in
    Ok (Array2 (ncols a) rs)
  else match vals with
       | [v] =>
           let* rs := foldM put (rows a) (map (fun i => (i, v)) idx) in
           Ok (Array2 (ncols a) rs)
       | _ => Raise (ValueError "shape mismatch: value array could not be broadcast")
       end.

(** [numpy.meshgrid(x, y)] with the default ['xy'] indexing: two arrays of
    shape [(len(y), len(x))]. *)
Definition meshgrid {A} (x y : list A) : ndarray2 A * ndarray2 A :=
  (Array2 (length x) (map (fun _ => x) y),
   Array2 (length x) (map (fun yi => replicate (length x) yi) y)).

(** [a.flat] of a 2D array, in row-major order. *)
Definition flat {A} (a : ndarray2 A) : list A := concat (rows a).

(** [a[r0:r1, c0:c1]]. *)
Definition slice2 {A} (r0 : Z) (r1 : option Z) (c0 : Z) (c1 : option Z)
    (a : ndarray2 A) : ndarray2 A :=
  Array2 (stop_bound (ncols a) c1 - bound (ncols a) c0)
         (map (slice c0 c1) (slice r0 r1 (rows a))).

(** [a[:, col] = vals]: [vals] has one value per row, or a single value
    that is repeated. *)
Definition setcolumn {A} (a : ndarray2 A) (col : Z) (vals : list A)
  : result (ndarray2 A) :=
  let j := if (col <? 0)%Z then (col + Z.of_nat (ncols a))%Z else col in
  if ((0 <=? j) && (j <? Z.of_nat (ncols a)))%Z
  then
    if decide (length vals = length (rows a))
    then Ok (Array2 (ncols a)
               (zip_with (fun row v => <[Z.to_nat j := v]> row) (rows a) vals))
    else match vals with
         | [v] => Ok (Array2 (ncols a) (map (fun row => <[Z.to_nat j := v]> row) (rows a)))
         | _ => Raise (ValueError "could not broadcast input array")
         end
  else Raise (IndexError col (ncols a)).

(** [numpy.ma]: masked arrays. An entry is a value, or masked ([None]). *)
Module ma.

(** [numpy.finfo(float).tiny], the smallest positive normal float. *)
Definition tiny : float := 0x1p-1022%float.

(** The domain of a masked division ([_DomainSafeDivide]): [True] where the
    divisor is negligible against the dividend,
    [absolute(a) * tiny >= absolute(b)]. *)
Definition domain_safe_divide (a b : float) : bool :=
  PrimFloat.leb (PrimFloat.abs b) (PrimFloat.mul (PrimFloat.abs a) tiny).

(** One entry of [a / c]: the quotient, masked when it is not finite or
    outside the domain. *)
Definition masked_quotient (x c : float) : option float :=
  let q := PrimFloat.div x c in
  if negb (PrimFloat.is_finite q) || domain_safe_divide x c then None else Some q.

(** [a / c] for a masked array [a] without masked entry and a Python float
    [c]. *)
Definition divide_scalar (a : list float) (c : float) : list (option float) :=
  map (fun x => masked_quotient x c) a.

(** [a.filled(fill_value)]. *)
Definition filled (fill_value : float) (a : list (option float)) : list float :=
  map (fun x => default fill_value x) a.

End ma.

End numpy.

(** ** [_interp_extrap_corner] *)

Local Open Scope float_scope.

Definition _interp_extrap_corner (inField : list float) : result (list float) :=
  let outField : list float := numpy.zeros (length inField + 1) in
  let* mid := numpy.add (numpy.slice 0 (Some (-1)%Z) inField) (numpy.slice 1 None inField) in
  let* outField := numpy.setslice 1 (Some (-1)%Z) (numpy.scale 0.5 mid) outField in
  (* extrapolate the ends *)
  let* c0 := numpy.getitem inField 0 in
  let* c1 := numpy.getitem inField 1 in
  let* outField := numpy.setitem outField 0 (1.5 * c0 - 0.5 * c1) in
  let* cm1 := numpy.getitem inField (-1) in
  let* cm2 := numpy.getitem inField (-2) in
  let* outField := numpy.setitem outField (-1) (1.5 * cm1 - 0.5 * cm2) in
  Ok outField.

Local Close Scope float_scope.

(** ** [_unwrap_corners]

    Written for any element type: the function moves values and computes
    none. The module applies it to [float64] arrays. *)

Definition _unwrap_corners {A} `{Zero A} (inField : ndarray2 A) : result (ndarray2 A) :=
  let* outField :=
    numpy.zeros2 ((Z.of_nat (shape0 inField) - 1) * (Z.of_nat (shape1 inField) - 1))%Z 4 in
  (* corners are counterclockwise *)
  let* outField := numpy.setcolumn outField 0
      (numpy.flat (numpy.slice2 0 (Some (-1)%Z) 0 (Some (-1)%Z) inField)) in
  let* outField := numpy.setcolumn outField 1
      (numpy.flat (numpy.slice2 0 (Some (-1)%Z) 1 None inField)) in
  let* outField := numpy.setcolumn outField 2
      (numpy.flat (numpy.slice2 1 None 1 None inField)) in
  let* outField := numpy.setcolumn outField 3
      (numpy.flat (numpy.slice2 1 None 0 (Some (-1)%Z) inField)) in
  Ok outField.

(** The four shifted views of a lattice that [_unwrap_corners] flattens:
    [dr], [dc] in {0, 1} are the row and column offsets. *)
Definition view {A} (lattice : ndarray2 A) (dr dc : bool) : ndarray2 A :=
  numpy.slice2 (if dr then 1 else 0) (if dr then None else Some (-1)%Z)
               (if dc then 1 else 0) (if dc then None else Some (-1)%Z) lattice.

(** ** The netCDF file being written *)

Inductive dtype : Type := f8 | i4.

(** What a variable holds. The module writes float arrays to ['f8']
    variables and integers to ['i4'] variables only, so no cast is modelled. *)
Inductive ncdata : Type :=
| Unwritten
| Floats (a : list float)
| Floats2 (a : ndarray2 float)
| Ints (a : list Z).

Record ncvar : Type := NcVar {
  var_dtype : dtype;
  var_dims : list string;
  var_units : option string;
  var_data : ncdata
}.

(** The value handed to [setattr] for the [history] attribute: a string, or
    a list of strings. (Of a list netCDF4 writes an array of strings or,
    depending on version and file format, the strings run together; it puts
    no space between them.) *)
Inductive attr : Type :=
| AttrStr (s : string)
| AttrList (l : list string).

Record Dataset : Type := MkDataset {
  dimensions : gmap string nat;
  variables : gmap string ncvar;
  ncattrs : gmap string attr
}.

(** What is assigned to [var[:]]. *)
Inductive rhs : Type :=
| IntScalar (z : Z)
| IntList (l : list Z)
| FloatArray (a : list float)
| MaskedFloatArray (a : list (option float))
| FloatArray2 (a : ndarray2 float).

Module netCDF4.

(** [netCDF4.Dataset(name, 'w')]: a new, empty file. *)
Definition new_file : Dataset := MkDataset ∅ ∅ ∅.

(** [createDimension(name, size)] for a dimension of fixed size. (netCDF4
    reads a size of 0 as an unlimited dimension, which grows with what is
    written along it; such files are not described by this record, and the
    statements about exports are made for grids with at least one cell.) *)
Definition createDimension (name : string) (size : nat) (ds : Dataset) : result Dataset :=
  match dimensions ds !! name with
  | Some _ => Raise (RuntimeError "NetCDF: String match to name in use")
  | None => Ok (MkDataset (<[name := size]> (dimensions ds)) (variables ds) (ncattrs ds))
  end.

(** The shape a tuple of dimension names stands for. *)
Definition shape_of (ds : Dataset) (dims : list string) : result (list nat) :=
  mapM (fun d => match dimensions ds !! d with
                 | Some n => Ok n
                 | None => Raise (KeyError d)
                 end) dims.

Definition createVariable (name : string) (t : dtype) (dims : list string)
    (ds : Dataset) : result Dataset :=
  match variables ds !! name with
  | Some _ => Raise (RuntimeError "NetCDF: String match to name in use")
  | None =>
      let* _ := shape_of ds dims in
      Ok (MkDataset (dimensions ds)
            (<[name := NcVar t dims None Unwritten]> (variables ds)) (ncattrs ds))
  end.

(** [outFile.variables[name]]. *)
Definition getvar (ds : Dataset) (name : string) : result ncvar :=
  match variables ds !! name with
  | Some v => Ok v
  | None => Raise (KeyError name)
  end.

(** [var.units = units]. *)
Definition set_units (name units : string) (ds : Dataset) : result Dataset :=
  let* v := getvar ds name in
  Ok (MkDataset (dimensions ds)
        (<[name := NcVar (var_dtype v) (var_dims v) (Some units) (var_data v)]> (variables ds))
        (ncattrs ds)).

(** [netCDF4.default_fillvals['f8']], 9.969209968386869e+36: what is written
    for a masked entry in an ['f8'] variable that has no [_FillValue]. *)
Definition default_fillval_f8 : float := 0x1.ep+122%float.

(** The array stored by [var[:] = value] in a variable of the given shape:
    a scalar fills the variable, an array must have the variable's shape;
    the masked entries of a masked array are written as the fill value. *)
Definition fit (shape : list nat) (value : rhs) : result ncdata :=
  match value, shape with
  | IntScalar z, [n] => Ok (Ints (replicate n z))
  | IntList l, [n] =>
      if decide (length l = n) then Ok (Ints l)
      else Raise (ValueError "shape mismatch")
  | FloatArray a, [n] =>
      if decide (length a = n) then Ok (Floats a)
      else Raise (ValueError "shape mismatch")
  | MaskedFloatArray a, [n] =>
      if decide (length a = n) then Ok (Floats (numpy.ma.filled default_fillval_f8 a))
      else Raise (ValueError "shape mismatch")
  | FloatArray2 a, [n; k] =>
      if decide (shape0 a = n /\ shape1 a = k) then Ok (Floats2 a)
      else Raise (ValueError "shape mismatch")
  | _, _ => Raise (ValueError "shape mismatch")
  end.

(** [outFile.variables[name][:] = value]. *)
Definition assign (name : string) (value : rhs) (ds : Dataset) : result Dataset :=
  let* v := getvar ds name in
  let* shape := shape_of ds (var_dims v) in
  let* data := fit shape value in
  Ok (MkDataset (dimensions ds)
        (<[name := NcVar (var_dtype v) (var_dims v) (var_units v) data]> (variables ds))
        (ncattrs ds)).

(** [setattr(outFile, name, value)]. *)
Definition setncattr (name : string) (value : attr) (ds : Dataset) : Dataset :=
  MkDataset (dimensions ds) (variables ds) (<[name := value]> (ncattrs ds)).

End netCDF4.

(** ** [_create_scrip] *)

Definition _create_scrip (outFile : Dataset) (grid_size grid_corners grid_rank : nat)
    (units : string) : result Dataset :=
  (* Dimensions *)
  let* outFile := netCDF4.createDimension "grid_size" grid_size outFile in
  let* outFile := netCDF4.createDimension "grid_corners" grid_corners outFile in
  let* outFile := netCDF4.createDimension "grid_rank" grid_rank outFile in
  (* Variables *)
  let* outFile := netCDF4.createVariable "grid_center_lat" f8 ["grid_size"] outFile in
  let* outFile := netCDF4.set_units "grid_center_lat" units outFile in
  let* outFile := netCDF4.createVariable "grid_center_lon" f8 ["grid_size"] outFile in
  let* outFile := netCDF4.set_units "grid_center_lon" units outFile in
  let* outFile :=
    netCDF4.createVariable "grid_corner_lat" f8 ["grid_size"; "grid_corners"] outFile in
  let* outFile := netCDF4.set_units "grid_corner_lat" units outFile in
  let* outFile :=
    netCDF4.createVariable "grid_corner_lon" f8 ["grid_size"; "grid_corners"] outFile in
  let* outFile := netCDF4.set_units "grid_corner_lon" units outFile in
  let* outFile := netCDF4.createVariable "grid_imask" i4 ["grid_size"] outFile in
  let* outFile := netCDF4.set_units "grid_imask" "unitless" outFile in
  netCDF4.createVariable "grid_dims" i4 ["grid_rank"] outFile.

(** What [createVariable] and the [units] assignment fix for a variable, as
    opposed to the data written to it later. *)
Definition var_schema (v : ncvar) : dtype * list string * option string :=
  (var_dtype v, var_dims v, var_units v).

(** [ds] has the dimensions of [ds0] and the variables of [ds0], with the same
    type, dimensions and units: only data were written since. *)
Definition same_schema (ds0 ds : Dataset) : Prop :=
  dimensions ds = dimensions ds0 /\
  forall x, var_schema <$> variables ds !! x = var_schema <$> variables ds0 !! x.

(** ** Strings *)

(** [p in s] for two Python strings. *)
Fixpoint contains (p s : string) : bool :=
  if String.prefix p s then true
  else match s with
       | EmptyString => false
       | String _ s' => contains p s'
       end.

Definition newline : string := String "010"%char EmptyString.

(** [sep.join(l)]. *)
Definition join (sep : string) (l : list string) : string := String.concat sep l.

(** ** The [coords] dictionary of a descriptor *)

Inductive coord_data : Type :=
| Data1 (a : list float)
| Data2 (a : ndarray2 float).

Record coord : Type := Coord {
  coord_dims : list string;
  coord_values : coord_data;
  coord_units : string
}.

(** ** [MpasMeshDescriptor] *)

Module MpasMeshDescriptor.

(** The MPAS mesh file: its dimensions, the variables [to_scrip] reads and
    the global attributes [sphere_radius] and [history]. *)
Record MeshFile : Type := {
  nCells : nat;
  maxEdges : nat;
  nVertices : nat;
  latCell : list float;
  lonCell : list float;
  latVertex : list float;
  lonVertex : list float;
  verticesOnCell : list (list Z);
  nEdgesOnCell : list Z;
  areaCell : list float;
  sphere_radius : float;
  history : option string
}.

(** The shapes netCDF guarantees for the variables of a mesh file. *)
Definition shapes_ok (inFile : MeshFile) : bool :=
  (length (latCell inFile) =? nCells inFile) &&
  (length (lonCell inFile) =? nCells inFile) &&
  (length (areaCell inFile) =? nCells inFile) &&
  (length (nEdgesOnCell inFile) =? nCells inFile) &&
  (length (verticesOnCell inFile) =? nCells inFile) &&
  forallb (fun row => length row =? maxEdges inFile) (verticesOnCell inFile) &&
  (length (latVertex inFile) =? nVertices inFile) &&
  (length (lonVertex inFile) =? nVertices inFile).

(** Every cell has an edge. *)
Definition cells_ok (inFile : MeshFile) : bool :=
  forallb (fun k => (1 <=? k)%Z) (nEdgesOnCell inFile).

(** The vertex id a cell with [k] edges and vertex list [row] shows at output
    position [p]: the one at local index [min(k - 1, p)]. *)
Definition effective_id (k : Z) (row : list Z) (p : nat) : option Z :=
  row !! Z.to_nat (Z.min (k - 1) (Z.of_nat p)).

(** The ids a cell shows at the output positions lie between [lo] and [hi]. *)
Definition cell_ids_within (lo hi : Z) (maxEdges : nat) (k : Z) (row : list Z) : bool :=
  forallb (fun p => match effective_id k row p with
                    | Some v => (lo <=? v)%Z && (v <=? hi)%Z
                    | None => false
                    end)
          (seq 0 maxEdges).

Definition ids_within (lo hi : Z) (inFile : MeshFile) : bool :=
  forallb (fun kr => cell_ids_within lo hi (maxEdges inFile) (fst kr) (snd kr))
          (zip (nEdgesOnCell inFile) (verticesOnCell inFile)).


(** The ids numpy accepts: taken down by one they index the vertex arrays,
    from the front or, when negative, from the end. *)
Definition indexable (inFile : MeshFile) : bool :=
  shapes_ok inFile && cells_ok inFile &&
  ids_within (1 - Z.of_nat (nVertices inFile)) (Z.of_nat (nVertices inFile)) inFile.

(** The corner of cell [c] at output position [p], entry by entry: the
    coordinate, in [coordinate] ([latVertex] or [lonVertex]), of the vertex
    whose id stands at local index [min(nEdgesOnCell[c] - 1, p)] of the
    cell's vertex list, the id taken down by one. This follows the words of
    the specification; [grid_corners] is what the code computes. *)
Definition corner_value (inFile : MeshFile) (coordinate : list float) (c p : nat)
  : result float :=
  let* k := numpy.getitem (nEdgesOnCell inFile) (Z.of_nat c) in
  let* row := numpy.getitem (verticesOnCell inFile) (Z.of_nat c) in
  let* v := numpy.getitem row (Z.min (k - 1) (Z.of_nat p)) in
  numpy.getitem coordinate (v - 1)%Z.

(** One pass of the loop over [iVertex]. *)
Definition corner_pass (inFile : MeshFile)
    (grid : ndarray2 float * ndarray2 float) (iVertex : nat)
  : result (ndarray2 float * ndarray2 float) :=
  let '(grid_corner_lat, grid_corner_lon) := grid in
  let cellIndices := numpy.arange (nCells inFile) in
  (* repeat the last vertex wherever iVertex > nEdgesOnCell *)
  let localVertexIndices :=
    numpy.minimum (numpy.sub_scalar (nEdgesOnCell inFile) 1) (Z.of_nat iVertex) in
  let* ids := numpy.take_pairs (verticesOnCell inFile) cellIndices localVertexIndices in
  let vertexIndices := numpy.sub_scalar ids 1 in
  let* lats := numpy.take_indices (latVertex inFile) vertexIndices in
  let* grid_corner_lat := numpy.put_column grid_corner_lat cellIndices iVertex lats in
  let* lons := numpy.take_indices (lonVertex inFile) vertexIndices in
  let* grid_corner_lon := numpy.put_column grid_corner_lon cellIndices iVertex lons in
  Ok (grid_corner_lat, grid_corner_lon).

(** The grid corners: the two arrays the loop fills. *)
Definition grid_corners (inFile : MeshFile) : result (ndarray2 float * ndarray2 float) :=
  let nCells := Z.of_nat (nCells inFile) in
  let maxVertices := Z.of_nat (maxEdges inFile) in
  let* grid_corner_lon := numpy.zeros2 nCells maxVertices in
  let* grid_corner_lat := numpy.zeros2 nCells maxVertices in
  foldM (corner_pass inFile) (grid_corner_lat, grid_corner_lon)
        (seq 0 (maxEdges inFile)).

Section WithLibm.

(** [sphereRadius**2] is Python's float power, which calls [pow] of the C
    mathematical library: a function of the platform, not of the language,
    and not the rounded product on every radius. (Python raises
    OverflowError where [pow] overflows, beyond a radius of about 1e154; the
    export is described for the radii below.) *)
Variable pow : float -> float -> float.

Definition to_scrip (inFile : MeshFile) (argv : list string) : result Dataset :=
  let outFile := netCDF4.new_file in
  let nCells := nCells inFile in
  let maxVertices := maxEdges inFile in
  let sphereRadius := sphere_radius inFile in
  let* outFile := _create_scrip outFile nCells maxVertices 1 "radians" in
  let* outFile := netCDF4.createVariable "grid_area" f8 ["grid_size"] outFile in
  let* outFile := netCDF4.set_units "grid_area" "radian^2" outFile in
  (* SCRIP uses square radians *)
  let* outFile := netCDF4.assign "grid_area"
      (MaskedFloatArray (numpy.ma.divide_scalar (areaCell inFile) (pow sphereRadius 2)))
      outFile in
  let* outFile := netCDF4.assign "grid_center_lat" (FloatArray (latCell inFile)) outFile in
  let* outFile := netCDF4.assign "grid_center_lon" (FloatArray (lonCell inFile)) outFile in
  let* outFile := netCDF4.assign "grid_dims" (IntScalar (Z.of_nat nCells)) outFile in
  let* outFile := netCDF4.assign "grid_imask" (IntScalar 1) outFile in
  (* grid corners: *)
  let* (grid_corner_lat, grid_corner_lon) := grid_corners inFile in
  let* outFile := netCDF4.assign "grid_corner_lat" (FloatArray2 grid_corner_lat) outFile in
  let* outFile := netCDF4.assign "grid_corner_lon" (FloatArray2 grid_corner_lon) outFile in
  (* Update history attribute of netCDF file *)
  let newhist :=
    match history inFile with
    | Some history => AttrStr (join newline [history; join " " argv])
    | None => AttrList argv
    end in
  Ok (netCDF4.setncattr "history" newhist outFile).

End WithLibm.

End MpasMeshDescriptor.

(** ** The dataset a grid is read from ([xarray.open_dataset]) *)

Module xarray.

(** A variable of the dataset. [values] is the array of a variable of one
    dimension, the kind of variable a grid axis is; the array of arrays of a
    variable of several dimensions is not described by this record. *)
Record DataArray : Type := {
  values : list float;
  dims : list string;
  units : option string     (* the [units] attribute, when the variable has one *)
}.

Record Dataset : Type := {
  data_vars : gmap string DataArray;
  attrs_history : option string   (* [ds.attrs['history']], when present *)
}.

(** [ds[name]]. *)
Definition getitem (ds : Dataset) (name : string) : result DataArray :=
  match data_vars ds !! name with
  | Some v => Ok v
  | None => Raise (KeyError name)
  end.

(** [var.units]. *)
Definition get_units (v : DataArray) : result string :=
  match units v with
  | Some u => Ok u
  | None => Raise (AttributeError "units")
  end.

End xarray.

(** ** [LatLonGridDescriptor] *)

Module LatLonGridDescriptor.

(** The attributes of [self] once [read] or [create] has run. *)
Record t : Type := {
  regional : bool;
  lat : list float;
  lon : list float;
  units : string;
  latVarName : string;
  lonVarName : string;
  coords : gmap string coord;
  dims : list string;
  latCorner : list float;
  lonCorner : list float;
  history : attr
}.

(** [_set_coords]: the [coords] dictionary and [dims]. *)
Definition _set_coords (lat lon : list float) (units : string)
    (latVarName lonVarName latDimName lonDimName : string)
  : gmap string coord * list string :=
  (<[lonVarName := Coord [lonDimName] (Data1 lon) units]>
     (<[latVarName := Coord [latDimName] (Data1 lat) units]> ∅),
   [latDimName; lonDimName]).

Definition read (ds : xarray.Dataset) (latVarName lonVarName : string)
    (argv : list string) : result t :=
  (* Get info from input file *)
  let* latVar := xarray.getitem ds latVarName in
  let lat := xarray.values latVar in
  let* lonVar := xarray.getitem ds lonVarName in
  let lon := xarray.values lonVar in
  let* latUnits := xarray.get_units latVar in
  let units := if contains "degree" latUnits then "degrees" else "radians" in
  let* latDimName := numpy.getitem (xarray.dims latVar) 0 in
  let* lonDimName := numpy.getitem (xarray.dims lonVar) 0 in
  let (coords, dims) :=
    _set_coords lat lon units latVarName lonVarName latDimName lonDimName in
  (* interp/extrap corners *)
  let* lonCorner := _interp_extrap_corner lon in
  let* latCorner := _interp_extrap_corner lat in
  let history :=
    match xarray.attrs_history ds with
    | Some history => AttrStr (join newline [history; join " " argv])
    | None => AttrList argv
    end in
  Ok {| regional := false; lat := lat; lon := lon; units := units;
        latVarName := latVarName; lonVarName := lonVarName;
        coords := coords; dims := dims;
        latCorner := latCorner; lonCorner := lonCorner; history := history |}.

(** [0.5*(corner[0:-1] + corner[1:])]. *)
Definition centers (corner : list float) : result (list float) :=
  let* s := numpy.add (numpy.slice 0 (Some (-1)%Z) corner) (numpy.slice 1 None corner) in
  Ok (numpy.scale 0.5 s).

Definition create (latCorner lonCorner : list float) (units : string)
    (argv : list string) : result t :=
  let* lon := centers lonCorner in
  let* lat := centers latCorner in
  let history := AttrList argv in
  let (coords, dims) := _set_coords lat lon units "lat" "lon" "lat" "lon" in
  Ok {| regional := false; lat := lat; lon := lon; units := units;
        latVarName := "lat"; lonVarName := "lon";
        coords := coords; dims := dims;
        latCorner := latCorner; lonCorner := lonCorner; history := history |}.

Definition to_scrip (self : t) : result Dataset :=
  let outFile := netCDF4.new_file in
  let nLat := length (lat self) in
  let nLon := length (lon self) in
  let grid_size := nLat * nLon in
  let* outFile := _create_scrip outFile grid_size 4 2 (units self) in
  let (Lon, Lat) := numpy.meshgrid (lon self) (lat self) in
  let (LonCorner, LatCorner) := numpy.meshgrid (lonCorner self) (latCorner self) in
  let* outFile := netCDF4.assign "grid_center_lat" (FloatArray (numpy.flat Lat)) outFile in
  let* outFile := netCDF4.assign "grid_center_lon" (FloatArray (numpy.flat Lon)) outFile in
  let* outFile :=
    netCDF4.assign "grid_dims" (IntList [Z.of_nat nLon; Z.of_nat nLat]) outFile in
  let* outFile := netCDF4.assign "grid_imask" (IntScalar 1) outFile in
  let* corner_lat := _unwrap_corners LatCorner in
  let* outFile := netCDF4.assign "grid_corner_lat" (FloatArray2 corner_lat) outFile in
  let* corner_lon := _unwrap_corners LonCorner in
  let* outFile := netCDF4.assign "grid_corner_lon" (FloatArray2 corner_lon) outFile in
  Ok (netCDF4.setncattr "history" (history self) outFile).

End LatLonGridDescriptor.

(** ** [ProjectionGridDescriptor]

    [pyproj] is an external library: its projections are an abstract type
    and [pyproj.transform] an abstract operation on two arrays of one shape
    that may raise. *)

Module ProjectionGridDescriptor.
Section WithPyproj.

Variable Proj : Type.

(** [pyproj.transform(p1, p2, X, Y, radians=False)]: the pair [(Lon, Lat)]. *)
Variable transform :
  Proj -> Proj -> ndarray2 float -> ndarray2 float ->
  result (ndarray2 float * ndarray2 float).

(** [pyproj.Proj(proj='latlong', datum='WGS84')]. *)
Variable latlong_WGS84 : Proj.

Record t : Type := {
  projection : Proj;
  latLonProjection : Proj;
  regional : bool;
  x : list float;
  y : list float;
  coords : gmap string coord;
  dims : list string;
  xCorner : list float;
  yCorner : list float;
  history : attr
}.

Definition _project_to_lat_lon (projection latLonProjection : Proj)
    (X Y : ndarray2 float) : result (ndarray2 float * ndarray2 float) :=
  let* (Lon, Lat) := transform projection latLonProjection X Y in
  Ok (Lat, Lon).

(** [_set_coords]: the [coords] dictionary and [dims]. *)
Definition _set_coords (projection latLonProjection : Proj) (x y : list float)
    (xVarName yVarName xDimName yDimName : string)
  : result (gmap string coord * list string) :=
  let (X, Y) := numpy.meshgrid x y in
  let* (Lat, Lon) := _project_to_lat_lon projection latLonProjection X Y in
  Ok (<["lon" := Coord [xDimName; yDimName] (Data2 Lon) "degrees"]>
        (<["lat" := Coord [xDimName; yDimName] (Data2 Lat) "degrees"]>
           (<[yVarName := Coord [yDimName] (Data1 y) "meters"]>
              (<[xVarName := Coord [xDimName] (Data1 x) "meters"]> ∅))),
      [xDimName; yDimName]).

Definition read (projection : Proj) (ds : xarray.Dataset) (xVarName yVarName : string)
    (argv : list string) : result t :=
  (* Get info from input file *)
  let* xVar := xarray.getitem ds xVarName in
  let x := xarray.values xVar in
  let* yVar := xarray.getitem ds yVarName in
  let y := xarray.values yVar in
  let* xDimName := numpy.getitem (xarray.dims xVar) 0 in
  let* yDimName := numpy.getitem (xarray.dims yVar) 0 in
  let* (coords, dims) :=
    _set_coords projection latlong_WGS84 x y xVarName yVarName xDimName yDimName in
  (* interp/extrap corners *)
  let* xCorner := _interp_extrap_corner x in
  let* yCorner := _interp_extrap_corner y in
  (* Update history attribute of netCDF file *)
  let history :=
    match xarray.attrs_history ds with
    | Some history => AttrStr (join newline [history; join " " argv])
    | None => AttrList argv
    end in
  Ok {| projection := projection; latLonProjection := latlong_WGS84;
        regional := true; x := x; y := y; coords := coords; dims := dims;
        xCorner := xCorner; yCorner := yCorner; history := history |}.

Definition create (projection : Proj) (x y : list float) (argv : list string)
  : result t :=
  let* (coords, dims) :=
    _set_coords projection latlong_WGS84 x y "x" "y" "x" "y" in
  (* interp/extrap corners *)
  let* xCorner := _interp_extrap_corner x in
  let* yCorner := _interp_extrap_corner y in
  Ok {| projection := projection; latLonProjection := latlong_WGS84;
        regional := true; x := x; y := y; coords := coords; dims := dims;
        xCorner := xCorner; yCorner := yCorner; history := AttrList argv |}.

Definition to_scrip (self : t) : result Dataset :=
  let outFile := netCDF4.new_file in
  let nx := length (x self) in
  let ny := length (y self) in
  let grid_size := nx * ny in
  let* outFile := _create_scrip outFile grid_size 4 2 "degrees" in
  let (X, Y) := numpy.meshgrid (x self) (y self) in
  let (XCorner, YCorner) := numpy.meshgrid (xCorner self) (yCorner self) in
  let* (Lat, Lon) :=
    _project_to_lat_lon (projection self) (latLonProjection self) X Y in
  let* (LatCorner, LonCorner) :=
    _project_to_lat_lon (projection self) (latLonProjection self) XCorner YCorner in
  let* outFile := netCDF4.assign "grid_center_lat" (FloatArray (numpy.flat Lat)) outFile in
  let* outFile := netCDF4.assign "grid_center_lon" (FloatArray (numpy.flat Lon)) outFile in
  let* outFile :=
    netCDF4.assign "grid_dims" (IntList [Z.of_nat nx; Z.of_nat ny]) outFile in
  let* outFile := netCDF4.assign "grid_imask" (IntScalar 1) outFile in
  let* corner_lat := _unwrap_corners LatCorner in
  let* outFile := netCDF4.assign "grid_corner_lat" (FloatArray2 corner_lat) outFile in
  let* corner_lon := _unwrap_corners LonCorner in
  let* outFile := netCDF4.assign "grid_corner_lon" (FloatArray2 corner_lon) outFile in
  Ok (netCDF4.setncattr "history" (history self) outFile).

End WithPyproj.
End ProjectionGridDescriptor.

(** ** The three descriptors as one type *)

Inductive descriptor (Proj : Type) : Type :=
| Mesh (inFile : MpasMeshDescriptor.MeshFile)
| LatLon (self : LatLonGridDescriptor.t)
| Projection (self : ProjectionGridDescriptor.t Proj).
Arguments Mesh {Proj} inFile.
Arguments LatLon {Proj} self.
Arguments Projection {Proj} self.

(** [descriptor.to_scrip(scripFileName)], whichever the class. *)
Definition export {Proj : Type}
    (pow : float -> float -> float)
    (transform : Proj -> Proj -> ndarray2 float -> ndarray2 float ->
                 result (ndarray2 float * ndarray2 float))
    (argv : list string) (d : descriptor Proj) : result Dataset :=
  match d with
  | Mesh inFile => MpasMeshDescriptor.to_scrip pow inFile argv
  | LatLon self => LatLonGridDescriptor.to_scrip self
  | Projection self => ProjectionGridDescriptor.to_scrip Proj transform self
  end.

(** The unit a descriptor's coordinates are in: what its [coords] announce
    for latitude and longitude. *)
Definition native_units {Proj : Type} (d : descriptor Proj) : string :=
  match d with
  | Mesh _ => "radians"
  | LatLon self => LatLonGridDescriptor.units self
  | Projection _ => "degrees"
  end.

(** The number of cells of a descriptor's grid. *)
Definition cell_count {Proj : Type} (d : descriptor Proj) : nat :=
  match d with
  | Mesh inFile => MpasMeshDescriptor.nCells inFile
  | LatLon self =>
      length (LatLonGridDescriptor.lat self) * length (LatLonGridDescriptor.lon self)
  | Projection self =>
      length (ProjectionGridDescriptor.x Proj self) * length (ProjectionGridDescriptor.y Proj self)
  end.

(** The mask and the units a file has once the variables made by
    [_create_scrip] have been written. *)
Definition mask_and_units (grid_size : nat) (units : string) (outFile : Dataset) : Prop :=
  var_data <$> variables outFile !! "grid_imask" = Some (Ints (replicate grid_size 1%Z)) /\
  var_units <$> variables outFile !! "grid_center_lat" = Some (Some units) /\
  var_units <$> variables outFile !! "grid_center_lon" = Some (Some units) /\
  var_units <$> variables outFile !! "grid_corner_lat" = Some (Some units) /\
  var_units <$> variables outFile !! "grid_corner_lon" = Some (Some units).

(** The file [_create_scrip] makes of a new one: three dimensions and six
    variables, no data yet. *)
Definition scrip_header (grid_size grid_corners grid_rank : nat) (units : string) : Dataset :=
  MkDataset
    (<["grid_rank" := grid_rank]>
       (<["grid_corners" := grid_corners]> (<["grid_size" := grid_size]> ∅)))
    (<["grid_dims" := NcVar i4 ["grid_rank"] None Unwritten]>
       (<["grid_imask" := NcVar i4 ["grid_size"] (Some "unitless") Unwritten]>
          (<["grid_corner_lon" :=
               NcVar f8 ["grid_size"; "grid_corners"] (Some units) Unwritten]>
             (<["grid_corner_lat" :=
                  NcVar f8 ["grid_size"; "grid_corners"] (Some units) Unwritten]>
                (<["grid_center_lon" := NcVar f8 ["grid_size"] (Some units) Unwritten]>
                   (<["grid_center_lat" := NcVar f8 ["grid_size"] (Some units) Unwritten]>
                      ∅))))))
    ∅.

(** The header of a mesh file: [grid_area] is declared too. *)
Definition mesh_header (nCells maxVertices : nat) : Dataset :=
  let h := scrip_header nCells maxVertices 1 "radians" in
  MkDataset (dimensions h)
    (<["grid_area" := NcVar f8 ["grid_size"] (Some "radian^2") Unwritten]> (variables h))
    (ncattrs h).

(** The dataset [ds] with the [units] attribute of one variable replaced. *)
Definition with_units (ds : xarray.Dataset) (name : string) (u : option string)
  : xarray.Dataset :=
  {| xarray.data_vars :=
       alter (fun v => {| xarray.values := xarray.values v;
                          xarray.dims := xarray.dims v;
                          xarray.units := u |}) name (xarray.data_vars ds);
     xarray.attrs_history := xarray.attrs_history ds |}.

(** ** The state of the corner loop *)

(** The two arrays have the shape [(nCells, maxEdges)] and their first [j]
    columns hold the corners [corner_value] names. *)
Definition corners_upto (inFile : MpasMeshDescriptor.MeshFile) (j : nat)
    (grid : ndarray2 float * ndarray2 float) : Prop :=
  let nCells := MpasMeshDescriptor.nCells inFile in
  let maxEdges := MpasMeshDescriptor.maxEdges inFile in
  (shape0 (fst grid) = nCells /\ ncols (fst grid) = maxEdges /\ rectangular (fst grid)) /\
  (shape0 (snd grid) = nCells /\ ncols (snd grid) = maxEdges /\ rectangular (snd grid)) /\
  forall c p, c < nCells -> p < j ->
    exists lat lon,
      MpasMeshDescriptor.corner_value inFile (MpasMeshDescriptor.latVertex inFile) c p = Ok lat /\
      at2 (fst grid) c p = Some lat /\
      MpasMeshDescriptor.corner_value inFile (MpasMeshDescriptor.lonVertex inFile) c p = Ok lon /\
      at2 (snd grid) c p = Some lon.

(** [e] is what looking up some corner raises. *)
Definition corner_raises (inFile : MpasMeshDescriptor.MeshFile) (e : exn) : Prop :=
  exists c p,
    c < MpasMeshDescriptor.nCells inFile /\ p < MpasMeshDescriptor.maxEdges inFile /\
    (MpasMeshDescriptor.corner_value inFile (MpasMeshDescriptor.latVertex inFile) c p = Raise e \/
     MpasMeshDescriptor.corner_value inFile (MpasMeshDescriptor.lonVertex inFile) c p = Raise e).

(** ** Concrete inputs *)

(** A mesh of two cells on five vertices: a triangle, whose fourth slot is
    padded with 0 as MPAS does, and a quadrilateral. *)
Definition two_cell_mesh : MpasMeshDescriptor.MeshFile :=
  {| MpasMeshDescriptor.nCells := 2;
     MpasMeshDescriptor.maxEdges := 4;
     MpasMeshDescriptor.nVertices := 5;
     MpasMeshDescriptor.latCell := [0.25; 0.75]%float;
     MpasMeshDescriptor.lonCell := [0.5; 0.5]%float;
     MpasMeshDescriptor.latVertex := [0; 0; 0.5; 1; 1]%float;
     MpasMeshDescriptor.lonVertex := [0; 1; 0.5; 1; 0]%float;
     MpasMeshDescriptor.verticesOnCell := [[1; 2; 3; 0]; [2; 4; 5; 3]]%Z;
     MpasMeshDescriptor.nEdgesOnCell := [3; 4]%Z;
     MpasMeshDescriptor.areaCell := [100; 50]%float;
     MpasMeshDescriptor.sphere_radius := 10%float;
     MpasMeshDescriptor.history := None |}.



(** A stand-in for [pow] at the exponent 2, the only one the module uses:
    the rounded product, which is the value of [pow] wherever the square is
    exact, as it is for the radii of the meshes below. *)
Definition example_pow (x y : float) : float := PrimFloat.mul x x.

(** A stand-in for [pyproj.transform] as the module calls it, without
    [errcheck], on a projection without structure: planar metres to degrees
    at a fixed scale within a square. A point outside the square comes back
    as [inf] in both coordinates, and the call returns. *)
Definition toy_in_domain (x y : float) : bool :=
  (PrimFloat.leb (PrimFloat.abs x) 1000 && PrimFloat.leb (PrimFloat.abs y) 1000)%bool.

Definition toy_point (x y : float) : float * float :=
  if toy_in_domain x y then (PrimFloat.div x 100, PrimFloat.div y 100)
  else (infinity, infinity).

Definition toy_transform (p q : unit) (X Y : ndarray2 float)
  : result (ndarray2 float * ndarray2 float) :=
  Ok (Array2 (ncols X)
        (zip_with (zip_with (fun x y => fst (toy_point x y))) (rows X) (rows Y)),
      Array2 (ncols Y)
        (zip_with (zip_with (fun x y => snd (toy_point x y))) (rows X) (rows Y))).

(** A transform that raises on every batch, as [pyproj.transform] does when
    the library itself fails. *)
Definition failing_transform (p q : unit) (X Y : ndarray2 float)
  : result (ndarray2 float * ndarray2 float) :=
  Raise (RuntimeError "pyproj: projection failed").

(** The lat-lon grid with centers [0, 10, 20] and [0, 10], in degrees. *)
Definition example_latlon : LatLonGridDescriptor.t :=
  {| LatLonGridDescriptor.regional := false;
     LatLonGridDescriptor.lat := [0; 10; 20]%float;
     LatLonGridDescriptor.lon := [0; 10]%float;
     LatLonGridDescriptor.units := "degrees";
     LatLonGridDescriptor.latVarName := "lat";
     LatLonGridDescriptor.lonVarName := "lon";
     LatLonGridDescriptor.coords :=
       fst (LatLonGridDescriptor._set_coords [0; 10; 20]%float [0; 10]%float
              "degrees" "lat" "lon" "lat" "lon");
     LatLonGridDescriptor.dims := ["lat"; "lon"];
     LatLonGridDescriptor.latCorner := [-5; 5; 15; 25]%float;
     LatLonGridDescriptor.lonCorner := [-5; 5; 15]%float;
     LatLonGridDescriptor.history := AttrList ["prog"] |}.

(** The dataset that grid is read from: no [history] attribute. *)
Definition example_dataset : xarray.Dataset :=
  {| xarray.data_vars :=
       <["lon" := {| xarray.values := [0; 10]%float;
                     xarray.dims := ["lon"];
                     xarray.units := Some "degrees_east" |}]>
         (<["lat" := {| xarray.values := [0; 10; 20]%float;
                        xarray.dims := ["lat"];
                        xarray.units := Some "degrees_north" |}]> ∅);
     xarray.attrs_history := None |}.

(** ** What the descriptors keep *)

(** The corner arrays of a lat-lon grid have one entry more than the center
    arrays: what [read] and [create] hand to [to_scrip]. *)
Definition latlon_consistent (self : LatLonGridDescriptor.t) : Prop :=
  length (LatLonGridDescriptor.latCorner self) = length (LatLonGridDescriptor.lat self) + 1 /\
  length (LatLonGridDescriptor.lonCorner self) = length (LatLonGridDescriptor.lon self) + 1.

(** The file a descriptor's [to_scrip] starts from, before any data. *)
Definition header_of {Proj : Type} (d : descriptor Proj) : Dataset :=
  match d with
  | Mesh inFile =>
      mesh_header (MpasMeshDescriptor.nCells inFile) (MpasMeshDescriptor.maxEdges inFile)
  | LatLon self =>
      scrip_header
        (length (LatLonGridDescriptor.lat self) * length (LatLonGridDescriptor.lon self))
        4 2 (LatLonGridDescriptor.units self)
  | Projection self =>
      scrip_header
        (length (ProjectionGridDescriptor.x Proj self) *
         length (ProjectionGridDescriptor.y Proj self))
        4 2 "degrees"
  end.

(** ** More concrete inputs *)

(** The two-cell mesh with its first cell declared without edges, and with a
    history. *)
Definition no_edge_mesh : MpasMeshDescriptor.MeshFile :=
  {| MpasMeshDescriptor.nCells := 2;
     MpasMeshDescriptor.maxEdges := 4;
     MpasMeshDescriptor.nVertices := 5;
     MpasMeshDescriptor.latCell := [0.25; 0.75]%float;
     MpasMeshDescriptor.lonCell := [0.5; 0.5]%float;
     MpasMeshDescriptor.latVertex := [0; 0; 0.5; 1; 1]%float;
     MpasMeshDescriptor.lonVertex := [0; 1; 0.5; 1; 0]%float;
     MpasMeshDescriptor.verticesOnCell := [[1; 2; 3; 0]; [2; 4; 5; 3]]%Z;
     MpasMeshDescriptor.nEdgesOnCell := [0; 4]%Z;
     MpasMeshDescriptor.areaCell := [100; 50]%float;
     MpasMeshDescriptor.sphere_radius := 10%float;
     MpasMeshDescriptor.history := Some "made by a mesh generator" |}.

(** The example dataset with a history. *)
Definition history_dataset : xarray.Dataset :=
  {| xarray.data_vars := xarray.data_vars example_dataset;
     xarray.attrs_history := Some "made by ncgen" |}.

(** The axes of a projected grid of two by three cells, within the domain
    of [toy_transform]. *)
Definition example_x : list float := [0; 100]%float.
Definition example_y : list float := [0; 100; 200]%float.

(** The projected grid [create] makes of these axes with [toy_transform]. *)
Definition example_projected : ProjectionGridDescriptor.t unit :=
  {| ProjectionGridDescriptor.projection := tt;
     ProjectionGridDescriptor.latLonProjection := tt;
     ProjectionGridDescriptor.regional := true;
     ProjectionGridDescriptor.x := example_x;
     ProjectionGridDescriptor.y := example_y;
     ProjectionGridDescriptor.coords :=
       <["lon" := Coord ["x"; "y"] (Data2 (Array2 2 [[0; 1]; [0; 1]; [0; 1]]%float)) "degrees"]>
         (<["lat" := Coord ["x"; "y"] (Data2 (Array2 2 [[0; 0]; [1; 1]; [2; 2]]%float))
                       "degrees"]>
            (<["y" := Coord ["y"] (Data1 example_y) "meters"]>
               (<["x" := Coord ["x"] (Data1 example_x) "meters"]> ∅)));
     ProjectionGridDescriptor.dims := ["x"; "y"];
     ProjectionGridDescriptor.xCorner := [-50; 50; 150]%float;
     ProjectionGridDescriptor.yCorner := [-50; 50; 150; 250]%float;
     ProjectionGridDescriptor.history := AttrList ["prog"] |}.

(** A dataset with these axes, and a history. *)
Definition example_xy_dataset : xarray.Dataset :=
  {| xarray.data_vars :=
       <["y" := {| xarray.values := example_y;
                   xarray.dims := ["y"];
                   xarray.units := Some "m" |}]>
         (<["x" := {| xarray.values := example_x;
                      xarray.dims := ["x"];
                      xarray.units := Some "m" |}]> ∅);
     xarray.attrs_history := Some "made by ncgen" |}.

(** * shared/io/utility.py *)

(** The configuration parser and the file system are not part of these
    sources.  [config.get section option] is a function that returns the
    option's string or raises an error of the parser, of a type [E] left
    open; [os.path.exists] is a predicate on paths; [os.path.isabs] is the
    POSIX one, [s.startswith('/')]. *)
Module utility.

Definition Config (E : Type) : Type := string -> string -> E + string.

Definition isabs (s : string) : bool := String.prefix "/" s.

Definition bindE {E A B : Type} (m : E + A) (k : A -> E + B) : E + B :=
  match m with
  | inl e => inl e
  | inr a => k a
  end.

(** utility.py, lines 106-153. *)
Definition build_config_full_path {E : Type} (config : Config E)
    (exists_ : string -> bool) (section relativePathOption : string)
    (relativePathSection defaultPath : option string) : E + string :=
  let relativePathSection :=
    match relativePathSection with
    | None => section
    | Some s => s
    end in
  bindE (config relativePathSection relativePathOption) (fun subDirectory =>
  bindE (if isabs subDirectory then inr subDirectory
         else bindE (config section "baseDirectory") (fun baseDirectory =>
              inr (baseDirectory +:+ "/" +:+ subDirectory))) (fun fullPath =>
  match defaultPath with
  | Some d => if negb (exists_ fullPath) then inr d else inr fullPath
  | None => inr fullPath
  end)).

(** utility.py, lines 156-203. *)
Definition build_obs_path {E : Type} (config : Config E)
    (component relativePathOption : string) (relativePathSection : option string) :
    E + string :=
  let obsSection := component +:+ "Observations" in
  let relativePathSection :=
    match relativePathSection with
    | None => obsSection
    | Some s => s
    end in
  bindE (config relativePathSection relativePathOption) (fun relativePath =>
  if isabs relativePath then inr relativePath
  else
    bindE (config obsSection "obsSubdirectory") (fun obsSubdirectory =>
    if isabs obsSubdirectory then inr (obsSubdirectory +:+ "/" +:+ relativePath)
    else
      bindE (config "diagnostics" "baseDirectory") (fun basePath =>
      inr (basePath +:+ "/" +:+ obsSubdirectory +:+ "/" +:+ relativePath)))).

(** A configuration with a base directory, an observations section whose
    subdirectory is relative, and nothing else; a missing option raises its
    (section, option) pair. *)
Definition example_config : Config (string * string) :=
  fun section option =>
    if (String.eqb section "diagnostics" && String.eqb option "baseDirectory")%bool
    then inr "/data"
    else if (String.eqb section "oceanObservations" && String.eqb option "obsSubdirectory")%bool
    then inr "observations/Ocean"
    else if (String.eqb section "oceanObservations" && String.eqb option "sstSubdirectory")%bool
    then inr "SST"
    else if (String.eqb section "output" && String.eqb option "baseDirectory")%bool
    then inr "/scratch/run"
    else if (String.eqb section "output" && String.eqb option "plotsSubdirectory")%bool
    then inr "plots"
    else inl (section, option).

(** A file system with one path. *)
Definition example_exists (path : string) : bool := String.eqb path "/scratch/run/plots".

End utility.

(** ** Grids with a cell *)

(** Every dimension an export declares has an entry: the grid has a cell,
    and a mesh cell has a corner. *)
Definition nonempty {Proj : Type} (d : descriptor Proj) : Prop :=
  match d with
  | Mesh inFile =>
      0 < MpasMeshDescriptor.nCells inFile /\ 0 < MpasMeshDescriptor.maxEdges inFile
  | LatLon self =>
      0 < length (LatLonGridDescriptor.lat self) /\
      0 < length (LatLonGridDescriptor.lon self)
  | Projection self =>
      0 < length (ProjectionGridDescriptor.x Proj self) /\
      0 < length (ProjectionGridDescriptor.y Proj self)
  end.

(** The transform takes the centers and the corners of a projected grid to
    arrays of their shapes. *)
Definition transform_keeps_shape {Proj : Type}
    (transform : Proj -> Proj -> ndarray2 float -> ndarray2 float ->
                 result (ndarray2 float * ndarray2 float))
    (self : ProjectionGridDescriptor.t Proj)
    (Lon Lat LonCorner LatCorner : ndarray2 float) : Prop :=
  let p := ProjectionGridDescriptor.projection Proj self in
  let q := ProjectionGridDescriptor.latLonProjection Proj self in
  let x := ProjectionGridDescriptor.x Proj self in
  let y := ProjectionGridDescriptor.y Proj self in
  let xCorner := ProjectionGridDescriptor.xCorner Proj self in
  let yCorner := ProjectionGridDescriptor.yCorner Proj self in
  transform p q (fst (numpy.meshgrid x y)) (snd (numpy.meshgrid x y)) = Ok (Lon, Lat) /\
  transform p q (fst (numpy.meshgrid xCorner yCorner)) (snd (numpy.meshgrid xCorner yCorner)) =
    Ok (LonCorner, LatCorner) /\
  (rectangular Lon /\ shape0 Lon = length y /\ shape1 Lon = length x) /\
  (rectangular Lat /\ shape0 Lat = length y /\ shape1 Lat = length x) /\
  (rectangular LonCorner /\ shape0 LonCorner = length y + 1 /\
   shape1 LonCorner = length x + 1) /\
  (rectangular LatCorner /\ shape0 LatCorner = length y + 1 /\
   shape1 LatCorner = length x + 1).

(** The inputs on which an export ends: a mesh of consistent shapes whose
    cells have an edge and show ids that numpy accepts, on a sphere whose
    squared radius is finite; a lat-lon grid with one corner more than
    centers on each axis; a projected grid with one corner more than centers
    on each axis, whose centers and corners the transform takes to arrays of
    their shapes. *)
Definition exportable {Proj : Type}
    (pow : float -> float -> float)
    (transform : Proj -> Proj -> ndarray2 float -> ndarray2 float ->
                 result (ndarray2 float * ndarray2 float))
    (d : descriptor Proj) : Prop :=
  match d with
  | Mesh inFile =>
      MpasMeshDescriptor.indexable inFile = true /\
      PrimFloat.is_finite (pow (MpasMeshDescriptor.sphere_radius inFile) 2%float) = true
  | LatLon self => latlon_consistent self
  | Projection self =>
      length (ProjectionGridDescriptor.xCorner Proj self) =
        length (ProjectionGridDescriptor.x Proj self) + 1 /\
      length (ProjectionGridDescriptor.yCorner Proj self) =
        length (ProjectionGridDescriptor.y Proj self) + 1 /\
      exists Lon Lat LonCorner LatCorner,
        transform_keeps_shape transform self Lon Lat LonCorner LatCorner
  end.

(** ** Inputs at the edge *)


(** Axes of a projected grid with centers outside the domain of
    [toy_transform]: those at x = 2000. *)
Definition far_x : list float := [0; 2000]%float.
Definition far_y : list float := [0; 50]%float.

(** * Properties *)

(** ** The error monad *)

Lemma bind_Ok {A B} (m : result A) (k : A -> result B) (b : B) :
  bind m k = Ok b <-> exists a, m = Ok a /\ k a = Ok b.
Proof.
  destruct m as [a|e]; simpl; split.
  - intros H; exists a; auto.
  - intros (a' & Ha & Hk); congruence.
  - discriminate.
  - intros (a' & Ha & _); discriminate.
Qed.

Lemma bind_Raise {A B} (m : result A) (k : A -> result B) (e : exn) :
  m = Raise e -> bind m k = Raise e.
Proof. intros ->; reflexivity. Qed.

(** Split a successful chain of binds into its steps. *)
Ltac inv_bind H :=
  repeat match type of H with
         | bind _ _ = Ok _ =>
             let a := fresh "a" in
             let Ha := fresh "Hstep" in
             apply bind_Ok in H; destruct H as (a & Ha & H)
         | (let (_, _) := ?p in _) = Ok _ => destruct p
         | match ?p with (_, _) => _ end = Ok _ => destruct p
         end.

Lemma mapM_Ok_length {A B} (f : A -> result B) l l' :
  mapM f l = Ok l' -> length l' = length l.
Proof.
  revert l'; induction l as [|x l IH]; simpl; intros l' H.
  - injection H as <-; reflexivity.
  - inv_bind H. injection H as <-. simpl. f_equal. eauto.
Qed.

Lemma mapM_Ok_lookup {A B} (f : A -> result B) l l' i x :
  mapM f l = Ok l' -> l !! i = Some x ->
  exists y, f x = Ok y /\ l' !! i = Some y.
Proof.
  revert l' i; induction l as [|x0 l IH]; simpl; intros l' i H Hi.
  - discriminate.
  - inv_bind H. injection H as <-. destruct i as [|i]; simpl in *.
    + injection Hi as ->. eauto.
    + eauto.
Qed.

Lemma mapM_total {A B} (f : A -> result B) l :
  (forall x, x ∈ l -> exists y, f x = Ok y) ->
  exists l', mapM f l = Ok l'.
Proof.
  induction l as [|x l IH]; simpl; intros H.
  - eauto.
  - destruct (H x) as (y & Hy); [left|].
    destruct IH as (ys & Hys); [intros; apply H; right; done|].
    rewrite Hy, Hys. simpl. eauto.
Qed.

(** ** Indexing and slicing *)

Lemma getitem_nonneg {A} (a : list A) (i : nat) x :
  a !! i = Some x -> numpy.getitem a (Z.of_nat i) = Ok x.
Proof.
  intros H. pose proof (lookup_lt_Some _ _ _ H) as Hlt.
  unfold numpy.getitem.
  replace (Z.of_nat i <? 0)%Z with false by lia.
  replace ((0 <=? Z.of_nat i) && (Z.of_nat i <? Z.of_nat (length a)))%Z with true by lia.
  rewrite Nat2Z.id, H. reflexivity.
Qed.

Lemma getitem_from_end {A} (a : list A) (k : nat) x :
  1 <= k -> k <= length a -> a !! (length a - k) = Some x ->
  numpy.getitem a (- Z.of_nat k) = Ok x.
Proof.
  intros Hk Hle H. unfold numpy.getitem.
  replace (- Z.of_nat k <? 0)%Z with true by lia.
  replace ((0 <=? - Z.of_nat k + Z.of_nat (length a)) &&
           (- Z.of_nat k + Z.of_nat (length a) <? Z.of_nat (length a)))%Z with true by lia.
  replace (Z.to_nat (- Z.of_nat k + Z.of_nat (length a))) with (length a - k) by lia.
  rewrite H. reflexivity.
Qed.



Lemma setitem_nonneg {A} (a : list A) (i : nat) x :
  i < length a -> numpy.setitem a (Z.of_nat i) x = Ok (<[i := x]> a).
Proof.
  intros Hlt. unfold numpy.setitem.
  replace (Z.of_nat i <? 0)%Z with false by lia.
  replace ((0 <=? Z.of_nat i) && (Z.of_nat i <? Z.of_nat (length a)))%Z with true by lia.
  rewrite Nat2Z.id. reflexivity.
Qed.

Lemma setitem_last {A} (a : list A) x :
  1 <= length a -> numpy.setitem a (-1) x = Ok (<[length a - 1 := x]> a).
Proof.
  intros Hlt. unfold numpy.setitem.
  replace (-1 <? 0)%Z with true by lia.
  replace ((0 <=? -1 + Z.of_nat (length a)) &&
           (-1 + Z.of_nat (length a) <? Z.of_nat (length a)))%Z with true by lia.
  replace (Z.to_nat (-1 + Z.of_nat (length a))) with (length a - 1) by lia.
  reflexivity.
Qed.

Lemma slice_0_m1 {A} (a : list A) :
  numpy.slice 0 (Some (-1)%Z) a = take (length a - 1) a.
Proof.
  unfold numpy.slice, numpy.stop_bound, numpy.bound. simpl.
  replace (Z.to_nat (Z.max 0 (Z.min (Z.of_nat (length a)) 0))) with 0 by lia.
  replace (Z.to_nat (Z.max 0 (Z.min (Z.of_nat (length a)) (-1 + Z.of_nat (length a)))))
    with (length a - 1) by lia.
  rewrite drop_0. f_equal. lia.
Qed.

Lemma slice_1_None {A} (a : list A) : numpy.slice 1 None a = drop 1 a.
Proof.
  unfold numpy.slice, numpy.stop_bound, numpy.bound. simpl.
  destruct a as [|x a]; [reflexivity|].
  replace (Z.to_nat (Z.max 0 (Z.min (Z.of_nat (length (x :: a))) 1))) with 1
    by (simpl length; lia).
  simpl. rewrite Nat.sub_0_r. apply firstn_all.
Qed.

Lemma broadcast2_same_length {A B C} (op : A -> B -> C) a b :
  length a = length b -> numpy.broadcast2 op a b = Ok (zip_with op a b).
Proof. intros H. unfold numpy.broadcast2. rewrite decide_True; auto. Qed.

Lemma setslice_1_m1 {A} (rhs a : list A) :
  2 <= length a -> length rhs = length a - 2 ->
  numpy.setslice 1 (Some (-1)%Z) rhs a = Ok (take 1 a ++ rhs ++ drop (length a - 1) a).
Proof.
  intros Hlen Hrhs. unfold numpy.setslice, numpy.stop_bound, numpy.bound. simpl.
  replace (Z.to_nat (Z.max 0 (Z.min (Z.of_nat (length a)) 1))) with 1 by lia.
  replace (Z.to_nat (Z.max 0 (Z.min (Z.of_nat (length a)) (-1 + Z.of_nat (length a)))))
    with (length a - 1) by lia.
  rewrite decide_True by lia.
  repeat f_equal. lia.
Qed.

(** ** [_interp_extrap_corner] *)

(** The array [_interp_extrap_corner] builds, in closed form. *)
Lemma interp_extrap_corner_eq (inField : list float) :
  2 <= length inField ->
  forall c0 c1 cm1 cm2,
    inField !! 0 = Some c0 -> inField !! 1 = Some c1 ->
    inField !! (length inField - 1) = Some cm1 ->
    inField !! (length inField - 2) = Some cm2 ->
    _interp_extrap_corner inField =
      Ok (<[length inField := (1.5 * cm1 - 0.5 * cm2)%float]>
            (<[0 := (1.5 * c0 - 0.5 * c1)%float]>
               ([0%float] ++
                numpy.scale 0.5
                  (zip_with PrimFloat.add (take (length inField - 1) inField)
                                          (drop 1 inField)) ++
                [0%float]))).
Proof.
  intros Hlen c0 c1 cm1 cm2 H0 H1 Hm1 Hm2.
  unfold _interp_extrap_corner, numpy.add.
  rewrite slice_0_m1, slice_1_None.
  rewrite broadcast2_same_length
    by (rewrite length_take, length_drop; lia).
  cbn [bind].
  set (mid := numpy.scale 0.5 _).
  assert (Hmid : length mid = length inField - 1).
  { unfold mid, numpy.scale.
    rewrite length_map, length_zip_with, length_take, length_drop. lia. }
  unfold numpy.zeros.
  rewrite setslice_1_m1 by (rewrite length_replicate; lia).
  cbn [bind].
  rewrite length_replicate.
  replace (length inField + 1) with (S (length inField)) by lia.
  cbn [replicate take].
  replace (S (length inField) - 1) with (length inField) by lia.
  rewrite take_0.
  replace (drop (length inField) (zero :: replicate (length inField) zero))
    with [0%float].
  2:{ change (zero :: replicate (length inField) zero)
        with (replicate (S (length inField)) 0%float).
      rewrite drop_replicate.
      replace (S (length inField) - length inField) with 1 by lia. reflexivity. }
  pose proof (getitem_nonneg inField 0 c0 H0) as E0.
  pose proof (getitem_nonneg inField 1 c1 H1) as E1.
  pose proof (getitem_from_end inField 1 cm1 ltac:(lia) ltac:(lia) Hm1) as Em1.
  pose proof (getitem_from_end inField 2 cm2 ltac:(lia) ltac:(lia) Hm2) as Em2.
  change (Z.of_nat 0) with 0%Z in E0. change (Z.of_nat 1) with 1%Z in E1.
  change (- Z.of_nat 1)%Z with (-1)%Z in Em1.
  change (- Z.of_nat 2)%Z with (-2)%Z in Em2.
  rewrite E0, E1, Em1, Em2. cbn [bind].
  set (out := [zero] ++ _).
  assert (Hout : length out = length inField + 1).
  { unfold out. rewrite !length_app, Hmid. simpl. lia. }
  pose proof (setitem_nonneg out 0 (1.5 * c0 - 0.5 * c1)%float ltac:(lia)) as S0.
  change (Z.of_nat 0) with 0%Z in S0. rewrite S0. cbn [bind].
  rewrite setitem_last by (rewrite length_insert; lia).
  cbn [bind]. rewrite length_insert, Hout.
  replace (length inField + 1 - 1) with (length inField) by lia.
  reflexivity.
Qed.

Lemma interp_extrap_corner_lat : _interp_extrap_corner [0; 10; 20]%float = Ok [-5; 5; 15; 25]%float.
Proof. vm_compute. reflexivity. Qed.

Lemma interp_extrap_corner_lon : _interp_extrap_corner [0; 10]%float = Ok [-5; 5; 15]%float.
Proof. vm_compute. reflexivity. Qed.

(** C2. For centers of length N >= 2 (monotonic or not), [_interp_extrap_corner]
    returns N+1 corners: corner i, for 1 <= i <= N-1, is
    [0.5 * (centers[i-1] + centers[i])]; corner 0 is
    [1.5 * centers[0] - 0.5 * centers[1]]; corner N is
    [1.5 * centers[N-1] - 0.5 * centers[N-2]]. Centers [0, 10, 20] give
    [-5, 5, 15, 25] and centers [0, 10] give [-5, 5, 15]. *)
Theorem interp_extrap_corner_correct :
  (forall centers : list float,
      2 <= length centers ->
      exists corners,
        _interp_extrap_corner centers = Ok corners /\
        length corners = length centers + 1 /\
        (forall i a b,
            1 <= i <= length centers - 1 ->
            centers !! (i - 1) = Some a -> centers !! i = Some b ->
            corners !! i = Some (0.5 * (a + b))%float) /\
        (forall c0 c1,
            centers !! 0 = Some c0 -> centers !! 1 = Some c1 ->
            corners !! 0 = Some (1.5 * c0 - 0.5 * c1)%float) /\
        (forall cm1 cm2,
            centers !! (length centers - 1) = Some cm1 ->
            centers !! (length centers - 2) = Some cm2 ->
            corners !! length centers = Some (1.5 * cm1 - 0.5 * cm2)%float)) /\
  _interp_extrap_corner [0; 10; 20]%float = Ok [-5; 5; 15; 25]%float /\
  _interp_extrap_corner [0; 10]%float = Ok [-5; 5; 15]%float.
Proof.
  split; [|split; [exact interp_extrap_corner_lat | exact interp_extrap_corner_lon]].
  intros centers Hlen.
  destruct (lookup_lt_is_Some_2 centers 0) as [c0 H0]; [lia|].
  destruct (lookup_lt_is_Some_2 centers 1) as [c1 H1]; [lia|].
  destruct (lookup_lt_is_Some_2 centers (length centers - 1)) as [cm1 Hm1]; [lia|].
  destruct (lookup_lt_is_Some_2 centers (length centers - 2)) as [cm2 Hm2]; [lia|].
  eexists. split; [apply (interp_extrap_corner_eq centers Hlen c0 c1 cm1 cm2); assumption|].
  set (mid := numpy.scale 0.5 _).
  assert (Hmid : length mid = length centers - 1).
  { unfold mid, numpy.scale.
    rewrite length_map, length_zip_with, length_take, length_drop. lia. }
  assert (Hbody : length ([0%float] ++ mid ++ [0%float]) = length centers + 1).
  { rewrite !length_app, Hmid. simpl. lia. }
  split; [|split; [|split]].
  - rewrite !length_insert. exact Hbody.
  - intros i a b Hi Ha Hb.
    rewrite list_lookup_insert_ne by lia.
    rewrite list_lookup_insert_ne by lia.
    rewrite lookup_app_r by (simpl; lia).
    rewrite lookup_app_l by (simpl; lia).
    simpl length. unfold mid, numpy.scale.
    rewrite list_lookup_fmap, lookup_zip_with.
    rewrite lookup_take_lt by lia. rewrite Ha. simpl.
    rewrite lookup_drop. replace (1 + (i - 1)) with i by lia. rewrite Hb.
    reflexivity.
  - intros c0' c1' H0' H1'.
    rewrite list_lookup_insert_ne by lia.
    rewrite list_lookup_insert_eq by lia.
    congruence.
  - intros cm1' cm2' Hm1' Hm2'.
    rewrite list_lookup_insert_eq by (rewrite length_insert; lia).
    congruence.
Qed.

Lemma interp_extrap_corner_correct_witness :
  exists corners,
    _interp_extrap_corner [0; 10]%float = Ok corners /\
    length corners = 3 /\
    corners !! 0 = Some (-5)%float /\
    corners !! 1 = Some 5%float /\
    corners !! 2 = Some 15%float.
Proof.
  destruct (proj1 interp_extrap_corner_correct [0; 10]%float) as
    (corners & Hrun & Hlen & Hmid & Hfirst & Hlast); [simpl; lia|].
  exists corners. split; [exact Hrun|]. split; [exact Hlen|].
  split; [|split].
  - rewrite (Hfirst 0%float 10%float); reflexivity.
  - rewrite (Hmid 1 0%float 10%float); [reflexivity | simpl; lia | reflexivity | reflexivity].
  - change 2 with (length [0; 10]%float) at 1.
    rewrite (Hlast 10%float 0%float); reflexivity.
Defined.

(** ** Two-dimensional arrays *)

Lemma zeros2_nat {A} `{Zero A} (r c : nat) :
  numpy.zeros2 (Z.of_nat r) (Z.of_nat c) = Ok (Array2 c (replicate r (replicate c zero))).
Proof.
  unfold numpy.zeros2, numpy.zeros.
  rewrite (proj2 (Z.ltb_ge (Z.of_nat r) 0)) by lia.
  rewrite (proj2 (Z.ltb_ge (Z.of_nat c) 0)) by lia.
  rewrite !Nat2Z.id. reflexivity.
Qed.

Lemma length_concat_rect {A} (l : list (list A)) n :
  Forall (fun row => length row = n) l -> length (concat l) = length l * n.
Proof.
  induction 1 as [|row l Hrow _ IH]; simpl; [reflexivity|].
  rewrite length_app, IH, Hrow. reflexivity.
Qed.

(** Row-major order: element [r * n + c] of the flattened array is the
    element at row [r], column [c]. *)
Lemma lookup_concat_rect {A} (l : list (list A)) n r c :
  Forall (fun row => length row = n) l -> c < n ->
  concat l !! (r * n + c) = match l !! r with Some row => row !! c | None => None end.
Proof.
  intros Hrect Hc. revert r.
  induction Hrect as [|row l Hrow _ IH]; intros r.
  - simpl. rewrite !lookup_nil. reflexivity.
  - destruct r as [|r]; simpl.
    + rewrite lookup_app_l by lia. reflexivity.
    + rewrite lookup_app_r by lia.
      replace (n + r * n + c - length row) with (r * n + c) by lia.
      apply IH.
Qed.

Lemma setcolumn_nat {A} (a : ndarray2 A) (j : nat) (vals : list A) :
  j < ncols a -> length vals = length (rows a) ->
  numpy.setcolumn a (Z.of_nat j) vals =
    Ok (Array2 (ncols a) (zip_with (fun row v => <[j := v]> row) (rows a) vals)).
Proof.
  intros Hj Hlen. unfold numpy.setcolumn.
  replace (Z.of_nat j <? 0)%Z with false by lia.
  replace ((0 <=? Z.of_nat j) && (Z.of_nat j <? Z.of_nat (ncols a)))%Z with true by lia.
  rewrite decide_True by assumption. rewrite Nat2Z.id. reflexivity.
Qed.

Section Lattice.
Context {A : Type}.
Variable lattice : ndarray2 A.
Variables ny nx : nat.
Hypothesis Hrect : rectangular lattice.
Hypothesis Hrows : shape0 lattice = ny + 1.
Hypothesis Hcols : shape1 lattice = nx + 1.

Lemma view_rows (dr dc : bool) :
  rows (view lattice dr dc) =
    map (fun row => if dc then drop 1 row else take nx row)
        (if dr then drop 1 (rows lattice) else take ny (rows lattice)).
Proof.
  unfold view, numpy.slice2. cbn [rows].
  unfold shape0, shape1 in *.
  assert (Hsel : (if dr then numpy.slice 1 None (rows lattice)
                  else numpy.slice 0 (Some (-1)%Z) (rows lattice)) =
                 (if dr then drop 1 (rows lattice) else take ny (rows lattice))).
  { destruct dr; [apply slice_1_None|].
    rewrite slice_0_m1. f_equal. lia. }
  transitivity
    (map (numpy.slice (if dc then 1 else 0) (if dc then None else Some (-1)%Z))
         (if dr then drop 1 (rows lattice) else take ny (rows lattice))).
  { destruct dr; simpl in *; rewrite <- Hsel; reflexivity. }
  apply Forall_fmap_ext_1.
  assert (Hsub : Forall (fun row => length row = ncols lattice)
                   (if dr then drop 1 (rows lattice) else take ny (rows lattice))).
  { destruct dr; [apply Forall_drop | apply Forall_take]; exact Hrect. }
  eapply Forall_impl; [exact Hsub|].
  intros row Hrow. simpl in Hrow. destruct dc; [apply slice_1_None|].
  rewrite slice_0_m1. f_equal. lia.
Qed.

Lemma view_rect (dr dc : bool) :
  Forall (fun row => length row = nx) (rows (view lattice dr dc)).
Proof.
  rewrite view_rows. apply Forall_fmap.
  assert (Hsub : Forall (fun row => length row = ncols lattice)
                   (if dr then drop 1 (rows lattice) else take ny (rows lattice))).
  { destruct dr; [apply Forall_drop | apply Forall_take]; exact Hrect. }
  eapply Forall_impl; [exact Hsub|].
  intros row Hrow. unfold shape1 in Hcols. simpl in *.
  destruct dc; [rewrite length_drop | rewrite length_take]; lia.
Qed.

Lemma view_length (dr dc : bool) : length (rows (view lattice dr dc)) = ny.
Proof.
  rewrite view_rows, length_map. unfold shape0 in Hrows.
  destruct dr; [rewrite length_drop | rewrite length_take]; lia.
Qed.

Lemma view_flat_length (dr dc : bool) :
  length (numpy.flat (view lattice dr dc)) = ny * nx.
Proof.
  unfold numpy.flat.
  rewrite (length_concat_rect _ nx) by apply view_rect.
  rewrite view_length. reflexivity.
Qed.

(** Entry [r * nx + c] of a flattened view is the lattice point shifted by
    the view's offsets. *)
Lemma view_flat_lookup (dr dc : bool) r c :
  r < ny -> c < nx ->
  numpy.flat (view lattice dr dc) !! (r * nx + c) =
    at2 lattice (r + (if dr then 1 else 0)) (c + (if dc then 1 else 0)).
Proof.
  intros Hr Hc. unfold numpy.flat.
  rewrite (lookup_concat_rect _ nx) by (auto using view_rect).
  rewrite view_rows, list_lookup_fmap. unfold at2.
  assert (Hsel : (if dr then drop 1 (rows lattice) else take ny (rows lattice)) !! r =
                 rows lattice !! (r + (if dr then 1 else 0))).
  { destruct dr.
    - rewrite lookup_drop. f_equal. lia.
    - rewrite lookup_take_lt by lia. f_equal. lia. }
  rewrite Hsel.
  destruct (rows lattice !! _) as [row|]; simpl; [|reflexivity].
  destruct dc.
  - rewrite lookup_drop. f_equal. lia.
  - rewrite lookup_take_lt by lia. f_equal. lia.
Qed.

Lemma at2_is_Some r c : r < ny + 1 -> c < nx + 1 -> is_Some (at2 lattice r c).
Proof.
  intros Hr Hc. unfold at2, shape0, shape1 in *.
  destruct (lookup_lt_is_Some_2 (rows lattice) r) as [row Hrow]; [lia|].
  rewrite Hrow. apply lookup_lt_is_Some_2.
  unfold rectangular in Hrect. rewrite Forall_lookup in Hrect.
  rewrite (Hrect _ _ Hrow). lia.
Qed.

End Lattice.

(** ** [_unwrap_corners] *)

(** The array [_unwrap_corners] builds, in closed form: four columns laid
    over an array of zeros. *)
Lemma unwrap_corners_eq {A} `{Zero A} (lattice : ndarray2 A) (ny nx : nat) :
  rectangular lattice -> shape0 lattice = ny + 1 -> shape1 lattice = nx + 1 ->
  _unwrap_corners lattice =
    Ok (Array2 4
          (zip_with (fun row v => <[3 := v]> row)
             (zip_with (fun row v => <[2 := v]> row)
                (zip_with (fun row v => <[1 := v]> row)
                   (zip_with (fun row v => <[0 := v]> row)
                      (replicate (ny * nx) (replicate 4 zero))
                      (numpy.flat (view lattice false false)))
                   (numpy.flat (view lattice false true)))
                (numpy.flat (view lattice true true)))
             (numpy.flat (view lattice true false)))).
Proof.
  intros Hrect Hrows Hcols. unfold _unwrap_corners.
  replace ((Z.of_nat (shape0 lattice) - 1) * (Z.of_nat (shape1 lattice) - 1))%Z
    with (Z.of_nat (ny * nx)) by (rewrite Hrows, Hcols; lia).
  change 4%Z with (Z.of_nat 4). rewrite zeros2_nat. cbn [bind].
  change (numpy.slice2 0 (Some (-1)%Z) 0 (Some (-1)%Z) lattice) with (view lattice false false).
  change (numpy.slice2 0 (Some (-1)%Z) 1 None lattice) with (view lattice false true).
  change (numpy.slice2 1 None 1 None lattice) with (view lattice true true).
  change (numpy.slice2 1 None 0 (Some (-1)%Z) lattice) with (view lattice true false).
  pose proof (view_flat_length lattice ny nx Hrect Hrows Hcols) as Hlen.
  change 0%Z with (Z.of_nat 0). change 1%Z with (Z.of_nat 1).
  change 2%Z with (Z.of_nat 2). change 3%Z with (Z.of_nat 3).
  rewrite setcolumn_nat;
    [cbn [bind ncols rows] | cbn [ncols]; lia
     | cbn [rows]; rewrite Hlen, length_replicate; reflexivity].
  rewrite setcolumn_nat;
    [cbn [bind ncols rows] | cbn [ncols]; lia
     | cbn [rows]; rewrite length_zip_with, !Hlen, length_replicate; lia].
  rewrite setcolumn_nat;
    [cbn [bind ncols rows] | cbn [ncols]; lia
     | cbn [rows]; rewrite !length_zip_with, !Hlen, length_replicate; lia].
  rewrite setcolumn_nat;
    [cbn [bind ncols rows] | cbn [ncols]; lia
     | cbn [rows]; rewrite !length_zip_with, !Hlen, length_replicate; lia].
  reflexivity.
Qed.

Lemma four_columns_lookup {A} (z : A) n (f0 f1 f2 f3 : list A) i a b c d :
  i < n ->
  f0 !! i = Some a -> f1 !! i = Some b -> f2 !! i = Some c -> f3 !! i = Some d ->
  zip_with (fun row v => <[3 := v]> row)
    (zip_with (fun row v => <[2 := v]> row)
       (zip_with (fun row v => <[1 := v]> row)
          (zip_with (fun row v => <[0 := v]> row) (replicate n (replicate 4 z)) f0)
          f1) f2) f3 !! i = Some [a; b; c; d].
Proof.
  intros Hi H0 H1 H2 H3.
  rewrite !lookup_zip_with, H0, H1, H2, H3.
  rewrite lookup_replicate_2 by exact Hi. reflexivity.
Qed.

(** C3. On a lattice of shape (ny+1, nx+1), [_unwrap_corners] returns an
    array of shape (ny*nx, 4) whose row [r * nx + c], the one of cell (r, c),
    is lattice[r,c], lattice[r,c+1], lattice[r+1,c+1], lattice[r+1,c]; the
    values are those of the lattice, whatever the element type. *)
Theorem unwrap_corners_correct {A} `{Zero A} (lattice : ndarray2 A) (ny nx : nat) :
  rectangular lattice -> shape0 lattice = ny + 1 -> shape1 lattice = nx + 1 ->
  exists outField,
    _unwrap_corners lattice = Ok outField /\
    shape0 outField = ny * nx /\ shape1 outField = 4 /\
    rectangular outField /\
    forall r c, r < ny -> c < nx ->
      exists p0 p1 p2 p3,
        at2 lattice r c = Some p0 /\
        at2 lattice r (c + 1) = Some p1 /\
        at2 lattice (r + 1) (c + 1) = Some p2 /\
        at2 lattice (r + 1) c = Some p3 /\
        rows outField !! (r * nx + c) = Some [p0; p1; p2; p3].
Proof.
  intros Hrect Hrows Hcols.
  eexists. split; [apply (unwrap_corners_eq lattice ny nx); assumption|].
  pose proof (view_flat_length lattice ny nx Hrect Hrows Hcols) as Hlen.
  split; [|split; [|split]].
  - unfold shape0. cbn [rows].
    rewrite !length_zip_with, !Hlen, length_replicate. lia.
  - reflexivity.
  - unfold rectangular. cbn [rows ncols]. apply Forall_lookup_2.
    intros i row Hrow.
    assert (Hi : i < ny * nx).
    { apply lookup_lt_Some in Hrow.
      rewrite !length_zip_with, !Hlen, length_replicate in Hrow. lia. }
    destruct (lookup_lt_is_Some_2 (numpy.flat (view lattice false false)) i) as [a Ha];
      [rewrite Hlen; lia|].
    destruct (lookup_lt_is_Some_2 (numpy.flat (view lattice false true)) i) as [b Hb];
      [rewrite Hlen; lia|].
    destruct (lookup_lt_is_Some_2 (numpy.flat (view lattice true true)) i) as [c Hc];
      [rewrite Hlen; lia|].
    destruct (lookup_lt_is_Some_2 (numpy.flat (view lattice true false)) i) as [d Hd];
      [rewrite Hlen; lia|].
    rewrite (four_columns_lookup zero (ny * nx) _ _ _ _ i a b c d Hi Ha Hb Hc Hd) in Hrow.
    injection Hrow as <-. reflexivity.
  - intros r c Hr Hc.
    destruct (at2_is_Some lattice ny nx Hrect Hrows Hcols r c) as [p0 H0]; [lia|lia|].
    destruct (at2_is_Some lattice ny nx Hrect Hrows Hcols r (c + 1)) as [p1 H1]; [lia|lia|].
    destruct (at2_is_Some lattice ny nx Hrect Hrows Hcols (r + 1) (c + 1)) as [p2 H2];
      [lia|lia|].
    destruct (at2_is_Some lattice ny nx Hrect Hrows Hcols (r + 1) c) as [p3 H3]; [lia|lia|].
    exists p0, p1, p2, p3. repeat (split; [assumption|]).
    cbn [rows]. apply four_columns_lookup.
    + nia.
    + rewrite (view_flat_lookup lattice ny nx) by assumption.
      simpl. rewrite !Nat.add_0_r. exact H0.
    + rewrite (view_flat_lookup lattice ny nx) by assumption.
      simpl. rewrite !Nat.add_0_r. exact H1.
    + rewrite (view_flat_lookup lattice ny nx) by assumption. exact H2.
    + rewrite (view_flat_lookup lattice ny nx) by assumption.
      simpl. rewrite !Nat.add_0_r. exact H3.
Qed.

Lemma unwrap_corners_correct_witness :
  exists outField,
    _unwrap_corners (Array2 3 [[1; 2; 3]; [4; 5; 6]]%float) = Ok outField /\
    shape0 outField = 1 * 2 /\ shape1 outField = 4 /\
    rectangular outField /\
    forall r c, r < 1 -> c < 2 ->
      exists p0 p1 p2 p3,
        at2 (Array2 3 [[1; 2; 3]; [4; 5; 6]]%float) r c = Some p0 /\
        at2 (Array2 3 [[1; 2; 3]; [4; 5; 6]]%float) r (c + 1) = Some p1 /\
        at2 (Array2 3 [[1; 2; 3]; [4; 5; 6]]%float) (r + 1) (c + 1) = Some p2 /\
        at2 (Array2 3 [[1; 2; 3]; [4; 5; 6]]%float) (r + 1) c = Some p3 /\
        rows outField !! (r * 2 + c) = Some [p0; p1; p2; p3].
Proof.
  apply (unwrap_corners_correct (Array2 3 [[1; 2; 3]; [4; 5; 6]]%float) 1 2).
  - repeat constructor.
  - reflexivity.
  - reflexivity.
Defined.

(** ** The lat-lon grid of the end-to-end scenario *)

(** C4. A dataset whose [lat] holds [0, 10, 20] and whose [lon] holds
    [0, 10] (whatever the units, dimension names, history and command line)
    is read with corners [-5, 5, 15, 25] and [-5, 5, 15], and exported with
    grid_size = 6, grid_corners = 4, grid_rank = 2, grid_dims = [2, 3]
    ([nLon, nLat]) and six polygons, cell (r, c) in row r * 2 + c, each
    listing its corners counterclockwise: (lon c, lat r), (lon c+1, lat r),
    (lon c+1, lat r+1), (lon c, lat r+1). *)
Theorem latlon_export_scenario
    (latUnits : string) (lonUnits : option string)
    (latDim lonDim : string) (latDims lonDims : list string)
    (source_history : option string) (argv : list string) :
  let ds :=
    {| xarray.data_vars :=
         <["lon" := {| xarray.values := [0; 10]%float;
                       xarray.dims := lonDim :: lonDims;
                       xarray.units := lonUnits |}]>
           (<["lat" := {| xarray.values := [0; 10; 20]%float;
                          xarray.dims := latDim :: latDims;
                          xarray.units := Some latUnits |}]> ∅);
       xarray.attrs_history := source_history |} in
  exists self outFile,
    LatLonGridDescriptor.read ds "lat" "lon" argv = Ok self /\
    LatLonGridDescriptor.latCorner self = [-5; 5; 15; 25]%float /\
    LatLonGridDescriptor.lonCorner self = [-5; 5; 15]%float /\
    LatLonGridDescriptor.to_scrip self = Ok outFile /\
    dimensions outFile !! "grid_size" = Some 6 /\
    dimensions outFile !! "grid_corners" = Some 4 /\
    dimensions outFile !! "grid_rank" = Some 2 /\
    var_data <$> variables outFile !! "grid_dims" = Some (Ints [2; 3]%Z) /\
    var_data <$> variables outFile !! "grid_corner_lat" =
      Some (Floats2 (Array2 4 [[-5; -5; 5; 5]; [-5; -5; 5; 5];
                               [5; 5; 15; 15]; [5; 5; 15; 15];
                               [15; 15; 25; 25]; [15; 15; 25; 25]]%float)) /\
    var_data <$> variables outFile !! "grid_corner_lon" =
      Some (Floats2 (Array2 4 [[-5; 5; 5; -5]; [5; 15; 15; 5];
                               [-5; 5; 5; -5]; [5; 15; 15; 5];
                               [-5; 5; 5; -5]; [5; 15; 15; 5]]%float)).
Proof.
  intros ds. subst ds.
  eexists. eexists.
  split; [vm_compute; reflexivity|].
  split; [reflexivity|]. split; [reflexivity|].
  split; [vm_compute; reflexivity|].
  repeat split; vm_compute; reflexivity.
Qed.

(** ** The file being written *)

Lemma assign_inv name value ds ds' :
  netCDF4.assign name value ds = Ok ds' ->
  exists v shape data,
    variables ds !! name = Some v /\
    netCDF4.shape_of ds (var_dims v) = Ok shape /\
    netCDF4.fit shape value = Ok data /\
    ds' = MkDataset (dimensions ds)
            (<[name := NcVar (var_dtype v) (var_dims v) (var_units v) data]> (variables ds))
            (ncattrs ds).
Proof.
  unfold netCDF4.assign, netCDF4.getvar. intros H.
  destruct (variables ds !! name) as [v|] eqn:Hv; [|discriminate].
  cbn [bind] in H. inv_bind H. injection H as <-.
  exists v. eauto 10.
Qed.

Lemma createVariable_inv name t dims ds ds' :
  netCDF4.createVariable name t dims ds = Ok ds' ->
  variables ds !! name = None /\
  ds' = MkDataset (dimensions ds)
          (<[name := NcVar t dims None Unwritten]> (variables ds)) (ncattrs ds).
Proof.
  unfold netCDF4.createVariable. intros H.
  destruct (variables ds !! name); [discriminate|].
  inv_bind H. injection H as <-. auto.
Qed.

Lemma set_units_inv name u ds ds' :
  netCDF4.set_units name u ds = Ok ds' ->
  exists v,
    variables ds !! name = Some v /\
    ds' = MkDataset (dimensions ds)
            (<[name := NcVar (var_dtype v) (var_dims v) (Some u) (var_data v)]> (variables ds))
            (ncattrs ds).
Proof.
  unfold netCDF4.set_units, netCDF4.getvar. intros H.
  destruct (variables ds !! name) as [v|] eqn:Hv; [|discriminate].
  cbn [bind] in H. injection H as <-. eauto.
Qed.

(** A variable other than the one touched is left as it was. *)
Lemma assign_other name value ds ds' x :
  netCDF4.assign name value ds = Ok ds' -> x <> name ->
  variables ds' !! x = variables ds !! x.
Proof.
  intros H Hx. apply assign_inv in H as (v & shape & data & _ & _ & _ & ->).
  cbn [variables]. apply lookup_insert_ne. congruence.
Qed.

Lemma createVariable_other name t dims ds ds' x :
  netCDF4.createVariable name t dims ds = Ok ds' -> x <> name ->
  variables ds' !! x = variables ds !! x.
Proof.
  intros H Hx. apply createVariable_inv in H as (_ & ->).
  cbn [variables]. apply lookup_insert_ne. congruence.
Qed.

Lemma set_units_other name u ds ds' x :
  netCDF4.set_units name u ds = Ok ds' -> x <> name ->
  variables ds' !! x = variables ds !! x.
Proof.
  intros H Hx. apply set_units_inv in H as (v & _ & ->).
  cbn [variables]. apply lookup_insert_ne. congruence.
Qed.

Lemma same_schema_refl ds : same_schema ds ds.
Proof. split; auto. Qed.

(** Writing data changes no dimension, type or units. *)
Lemma assign_same_schema ds0 name value ds ds' :
  same_schema ds0 ds -> netCDF4.assign name value ds = Ok ds' -> same_schema ds0 ds'.
Proof.
  intros [Hd Hv] H. apply assign_inv in H as (v & shape & data & Hlook & _ & _ & ->).
  split; [exact Hd|]. intros x. cbn [variables].
  destruct (decide (x = name)) as [->|Hne].
  - rewrite lookup_insert_eq, <- Hv, Hlook. reflexivity.
  - rewrite lookup_insert_ne by congruence. apply Hv.
Qed.

(** The data a successful assignment leaves in its variable. *)
Lemma assign_data ds0 name value ds ds' t dims u :
  same_schema ds0 ds ->
  var_schema <$> variables ds0 !! name = Some (t, dims, u) ->
  netCDF4.assign name value ds = Ok ds' ->
  exists shape data,
    netCDF4.shape_of ds0 dims = Ok shape /\
    netCDF4.fit shape value = Ok data /\
    variables ds' !! name = Some (NcVar t dims u data).
Proof.
  intros [Hd Hv] H0 H.
  apply assign_inv in H as (v & shape & data & Hlook & Hshape & Hfit & ->).
  specialize (Hv name). rewrite Hlook, H0 in Hv. injection Hv as Ht Hdims Hu.
  exists shape, data. split; [|split; [exact Hfit|]].
  - rewrite <- Hdims. unfold netCDF4.shape_of in *. rewrite <- Hd. exact Hshape.
  - cbn [variables]. rewrite lookup_insert_eq. congruence.
Qed.

Lemma setncattr_variables name value ds :
  variables (netCDF4.setncattr name value ds) = variables ds.
Proof. reflexivity. Qed.

Lemma setncattr_lookup name value ds :
  ncattrs (netCDF4.setncattr name value ds) !! name = Some value.
Proof. cbn. apply lookup_insert_eq. Qed.

Lemma create_scrip_new (grid_size grid_corners grid_rank : nat) (units : string) :
  _create_scrip netCDF4.new_file grid_size grid_corners grid_rank units =
    Ok (scrip_header grid_size grid_corners grid_rank units).
Proof. vm_compute. reflexivity. Qed.

Lemma create_mesh_header (nCells maxVertices : nat) :
  (let* outFile := _create_scrip netCDF4.new_file nCells maxVertices 1 "radians" in
   let* outFile := netCDF4.createVariable "grid_area" f8 ["grid_size"] outFile in
   netCDF4.set_units "grid_area" "radian^2" outFile) =
    Ok (mesh_header nCells maxVertices).
Proof. vm_compute. reflexivity. Qed.

Lemma bind_assoc {A B C} (m : result A) (f : A -> result B) (g : B -> result C) :
  bind (bind m f) g = bind m (fun a => bind (f a) g).
Proof. destruct m; reflexivity. Qed.

(** A successful assignment needs the variable, its shape and a value that
    fits: all three are read off the schema. *)
Lemma assign_total ds0 name value ds t dims u shape :
  same_schema ds0 ds ->
  var_schema <$> variables ds0 !! name = Some (t, dims, u) ->
  netCDF4.shape_of ds0 dims = Ok shape ->
  is_Ok (netCDF4.fit shape value) = true ->
  exists ds', netCDF4.assign name value ds = Ok ds'.
Proof.
  intros [Hd Hv] H0 Hshape Hfit. specialize (Hv name). rewrite H0 in Hv.
  unfold netCDF4.assign, netCDF4.getvar.
  destruct (variables ds !! name) as [v|]; [|discriminate].
  injection Hv as _ Hdims _. cbn [bind]. rewrite Hdims.
  unfold netCDF4.shape_of in *. rewrite Hd, Hshape. cbn [bind].
  destruct (netCDF4.fit shape value); [|discriminate]. cbn [bind]. eauto.
Qed.

(** ** What every export writes *)

Lemma schema_units ds0 ds name t dims u :
  same_schema ds0 ds ->
  var_schema <$> variables ds0 !! name = Some (t, dims, u) ->
  var_units <$> variables ds !! name = Some u.
Proof.
  intros [_ Hv] H0. specialize (Hv name). rewrite H0 in Hv.
  destruct (variables ds !! name) as [v|]; [|discriminate].
  injection Hv as _ _ Hu. simpl. congruence.
Qed.

(** The end of every [to_scrip]: the mask is written, then the corners. *)
Lemma mask_then_corners ds0 ds ds1 ds2 ds3 grid_size units corner_lat corner_lon :
  same_schema ds0 ds ->
  dimensions ds0 !! "grid_size" = Some grid_size ->
  var_schema <$> variables ds0 !! "grid_imask" = Some (i4, ["grid_size"], Some "unitless") ->
  var_schema <$> variables ds0 !! "grid_center_lat" = Some (f8, ["grid_size"], Some units) ->
  var_schema <$> variables ds0 !! "grid_center_lon" = Some (f8, ["grid_size"], Some units) ->
  var_schema <$> variables ds0 !! "grid_corner_lat" =
    Some (f8, ["grid_size"; "grid_corners"], Some units) ->
  var_schema <$> variables ds0 !! "grid_corner_lon" =
    Some (f8, ["grid_size"; "grid_corners"], Some units) ->
  netCDF4.assign "grid_imask" (IntScalar 1) ds = Ok ds1 ->
  netCDF4.assign "grid_corner_lat" corner_lat ds1 = Ok ds2 ->
  netCDF4.assign "grid_corner_lon" corner_lon ds2 = Ok ds3 ->
  mask_and_units grid_size units ds3.
Proof.
  intros Hs Hsize Hmask Hclat Hclon Hklat Hklon H1 H2 H3.
  pose proof (assign_same_schema _ _ _ _ _ Hs H1) as Hs1.
  pose proof (assign_same_schema _ _ _ _ _ Hs1 H2) as Hs2.
  pose proof (assign_same_schema _ _ _ _ _ Hs2 H3) as Hs3.
  split; [|repeat split; eapply schema_units; eauto].
  rewrite (assign_other _ _ _ _ "grid_imask" H3) by discriminate.
  rewrite (assign_other _ _ _ _ "grid_imask" H2) by discriminate.
  destruct (assign_data _ _ _ _ _ _ _ _ Hs Hmask H1) as (shape & data & Hshape & Hfit & Hv).
  rewrite Hv. simpl. unfold netCDF4.shape_of in Hshape. simpl in Hshape.
  rewrite Hsize in Hshape. simpl in Hshape. injection Hshape as <-.
  simpl in Hfit. injection Hfit as <-. reflexivity.
Qed.

(** Close the side conditions of [mask_then_corners] on the file of
    [create_scrip_new], or on that file with [grid_area] added. *)
Ltac schema_lookup := vm_compute; reflexivity.

Lemma latlon_mask_and_units (self : LatLonGridDescriptor.t) outFile :
  LatLonGridDescriptor.to_scrip self = Ok outFile ->
  mask_and_units
    (length (LatLonGridDescriptor.lat self) * length (LatLonGridDescriptor.lon self))
    (LatLonGridDescriptor.units self) outFile.
Proof.
  unfold LatLonGridDescriptor.to_scrip. rewrite create_scrip_new. cbn [bind].
  unfold numpy.meshgrid. intros H. inv_bind H. injection H as <-.
  unfold mask_and_units. rewrite !setncattr_variables.
  pose proof (assign_same_schema _ _ _ _ _ (same_schema_refl _) Hstep) as Hs0.
  pose proof (assign_same_schema _ _ _ _ _ Hs0 Hstep0) as Hs1.
  pose proof (assign_same_schema _ _ _ _ _ Hs1 Hstep1) as Hs2.
  eapply (mask_then_corners _ _ _ _ _ _ _ _ _ Hs2); try eassumption; schema_lookup.
Qed.

Lemma projection_mask_and_units {Proj} transform
    (self : ProjectionGridDescriptor.t Proj) outFile :
  ProjectionGridDescriptor.to_scrip Proj transform self = Ok outFile ->
  mask_and_units
    (length (ProjectionGridDescriptor.x Proj self) *
     length (ProjectionGridDescriptor.y Proj self))
    "degrees" outFile.
Proof.
  unfold ProjectionGridDescriptor.to_scrip. rewrite create_scrip_new. cbn [bind].
  unfold numpy.meshgrid. intros H. inv_bind H. injection H as <-.
  unfold mask_and_units. rewrite !setncattr_variables.
  match goal with
  | H1 : netCDF4.assign "grid_center_lat" _ _ = Ok ?d1,
    H2 : netCDF4.assign "grid_center_lon" _ ?d1 = Ok ?d2,
    H3 : netCDF4.assign "grid_dims" _ ?d2 = Ok ?d3 |- _ =>
      pose proof (assign_same_schema _ _ _ _ _ (same_schema_refl _) H1) as Hs0;
      pose proof (assign_same_schema _ _ _ _ _ Hs0 H2) as Hs1;
      pose proof (assign_same_schema _ _ _ _ _ Hs1 H3) as Hs2
  end.
  eapply (mask_then_corners _ _ _ _ _ _ _ _ _ Hs2); try eassumption; schema_lookup.
Qed.

(** ** [MpasMeshDescriptor.to_scrip] *)

Lemma mesh_header_steps (nCells maxVertices : nat) :
  exists ds,
    netCDF4.createVariable "grid_area" f8 ["grid_size"]
      (scrip_header nCells maxVertices 1 "radians") = Ok ds /\
    netCDF4.set_units "grid_area" "radian^2" ds = Ok (mesh_header nCells maxVertices).
Proof.
  pose proof (create_mesh_header nCells maxVertices) as E.
  rewrite create_scrip_new in E. cbn [bind] in E.
  apply bind_Ok in E. exact E.
Qed.

Lemma fit_FloatArray shape a data :
  netCDF4.fit shape (FloatArray a) = Ok data -> data = Floats a.
Proof.
  destruct shape as [|n [|k shape]]; simpl; try discriminate.
  destruct (decide (length a = n)); [|discriminate]. congruence.
Qed.

Lemma fit_MaskedFloatArray shape a data :
  netCDF4.fit shape (MaskedFloatArray a) = Ok data ->
  data = Floats (numpy.ma.filled netCDF4.default_fillval_f8 a).
Proof.
  destruct shape as [|n [|k shape]]; simpl; try discriminate.
  destruct (decide (length a = n)); [|discriminate]. congruence.
Qed.

Lemma fit_FloatArray2 shape a data :
  netCDF4.fit shape (FloatArray2 a) = Ok data -> data = Floats2 a.
Proof.
  destruct shape as [|n [|k [|j shape]]]; simpl; try discriminate.
  destruct (decide (shape0 a = n /\ shape1 a = k)); [|discriminate]. congruence.
Qed.

(** What a successful mesh export has written. *)
Lemma mesh_to_scrip_inv {pow : float -> float -> float}
    (inFile : MpasMeshDescriptor.MeshFile) argv outFile :
  MpasMeshDescriptor.to_scrip pow inFile argv = Ok outFile ->
  mask_and_units (MpasMeshDescriptor.nCells inFile) "radians" outFile /\
  variables outFile !! "grid_area" =
    Some (NcVar f8 ["grid_size"] (Some "radian^2")
            (Floats (numpy.ma.filled netCDF4.default_fillval_f8
                       (numpy.ma.divide_scalar (MpasMeshDescriptor.areaCell inFile)
                          (pow (MpasMeshDescriptor.sphere_radius inFile) 2%float))))) /\
  (exists grid_corner_lat grid_corner_lon,
      MpasMeshDescriptor.grid_corners inFile = Ok (grid_corner_lat, grid_corner_lon) /\
      var_data <$> variables outFile !! "grid_corner_lat" = Some (Floats2 grid_corner_lat) /\
      var_data <$> variables outFile !! "grid_corner_lon" = Some (Floats2 grid_corner_lon)) /\
  ncattrs outFile !! "history" =
    Some (match MpasMeshDescriptor.history inFile with
          | Some history => AttrStr (join newline [history; join " " argv])
          | None => AttrList argv
          end).
Proof.
  unfold MpasMeshDescriptor.to_scrip. rewrite create_scrip_new. cbn [bind].
  destruct (mesh_header_steps (MpasMeshDescriptor.nCells inFile)
              (MpasMeshDescriptor.maxEdges inFile)) as (ds & -> & Hds).
  cbn [bind]. rewrite Hds. cbn [bind].
  intros H. inv_bind H. injection H as <-.
  match goal with
  | H1 : netCDF4.assign "grid_area" _ _ = Ok ?d1,
    H2 : netCDF4.assign "grid_center_lat" _ ?d1 = Ok ?d2,
    H3 : netCDF4.assign "grid_center_lon" _ ?d2 = Ok ?d3,
    H4 : netCDF4.assign "grid_dims" _ ?d3 = Ok ?d4,
    H5 : netCDF4.assign "grid_imask" _ ?d4 = Ok ?d5,
    H6 : netCDF4.assign "grid_corner_lat" _ ?d5 = Ok ?d6,
    H7 : netCDF4.assign "grid_corner_lon" _ ?d6 = Ok ?d7 |- _ =>
      pose proof (assign_same_schema _ _ _ _ _ (same_schema_refl _) H1) as Hs1;
      pose proof (assign_same_schema _ _ _ _ _ Hs1 H2) as Hs2;
      pose proof (assign_same_schema _ _ _ _ _ Hs2 H3) as Hs3;
      pose proof (assign_same_schema _ _ _ _ _ Hs3 H4) as Hs4;
      pose proof (assign_same_schema _ _ _ _ _ Hs4 H5) as Hs5;
      pose proof (assign_same_schema _ _ _ _ _ Hs5 H6) as Hs6;
      assert (Sarea : var_schema <$> variables (mesh_header (MpasMeshDescriptor.nCells inFile)
                          (MpasMeshDescriptor.maxEdges inFile)) !! "grid_area" =
                      Some (f8, ["grid_size"], Some "radian^2")) by schema_lookup;
      assert (Sklat : var_schema <$> variables (mesh_header (MpasMeshDescriptor.nCells inFile)
                          (MpasMeshDescriptor.maxEdges inFile)) !! "grid_corner_lat" =
                      Some (f8, ["grid_size"; "grid_corners"], Some "radians"))
        by schema_lookup;
      assert (Sklon : var_schema <$> variables (mesh_header (MpasMeshDescriptor.nCells inFile)
                          (MpasMeshDescriptor.maxEdges inFile)) !! "grid_corner_lon" =
                      Some (f8, ["grid_size"; "grid_corners"], Some "radians"))
        by schema_lookup;
      rename H1 into Harea, H2 into Hclat, H3 into Hclon, H4 into Hdims,
             H5 into Hmask, H6 into Hklat, H7 into Hklon
  end.
  split; [|split; [|split]].
  - unfold mask_and_units. rewrite !setncattr_variables.
    eapply (mask_then_corners _ _ _ _ _ _ _ _ _ Hs4); try eassumption;
      schema_lookup.
  - rewrite setncattr_variables.
    rewrite (assign_other _ _ _ _ "grid_area" Hklon) by discriminate.
    rewrite (assign_other _ _ _ _ "grid_area" Hklat) by discriminate.
    rewrite (assign_other _ _ _ _ "grid_area" Hmask) by discriminate.
    rewrite (assign_other _ _ _ _ "grid_area" Hdims) by discriminate.
    rewrite (assign_other _ _ _ _ "grid_area" Hclon) by discriminate.
    rewrite (assign_other _ _ _ _ "grid_area" Hclat) by discriminate.
    destruct (assign_data _ _ _ _ _ _ _ _ (same_schema_refl _) Sarea Harea)
      as (shape & data & _ & Hfit & ->).
    apply fit_MaskedFloatArray in Hfit. subst data. reflexivity.
  - match goal with
    | Hc : MpasMeshDescriptor.grid_corners inFile = Ok (?lat, ?lon) |- _ =>
        exists lat, lon; split; [exact Hc|]
    end.
    rewrite !setncattr_variables. split.
    + rewrite (assign_other _ _ _ _ "grid_corner_lat" Hklon) by discriminate.
      destruct (assign_data _ _ _ _ _ _ _ _ Hs5 Sklat Hklat)
        as (shape & data & _ & Hfit & ->).
      apply fit_FloatArray2 in Hfit. subst data. reflexivity.
    + destruct (assign_data _ _ _ _ _ _ _ _ Hs6 Sklon Hklon)
        as (shape & data & _ & Hfit & ->).
      apply fit_FloatArray2 in Hfit. subst data. reflexivity.
  - apply setncattr_lookup.
Qed.

(** ** Substrings *)

Lemma prefix_spec (p s : string) :
  String.prefix p s = true <-> exists b, s = String.append p b.
Proof.
  revert s. induction p as [|c p IH]; intros s.
  - split; [intros _; exists s; reflexivity | intros _; destruct s; reflexivity].
  - destruct s as [|c' s]; simpl.
    + split; [discriminate|]. intros (b & Hb). discriminate.
    + destruct (Ascii.ascii_dec c c') as [->|Hne].
      * rewrite IH. split; intros (b & Hb); exists b.
        -- rewrite Hb. reflexivity.
        -- change (String c' p +:+ b) with (String c' (p +:+ b)) in Hb. congruence.
      * split; [discriminate|]. intros (b & Hb).
        change (String c p +:+ b) with (String c (p +:+ b)) in Hb. congruence.
Qed.

Lemma contains_nil (p : string) : contains p "" = String.prefix p "".
Proof. destruct p; reflexivity. Qed.

Lemma contains_cons (p : string) c s :
  contains p (String c s) = if String.prefix p (String c s) then true else contains p s.
Proof. reflexivity. Qed.

(** [contains p s] holds exactly when [p] occurs in [s]. *)
Lemma contains_spec (p s : string) :
  contains p s = true <-> exists a b, s = String.append a (String.append p b).
Proof.
  induction s as [|c s IH].
  - rewrite contains_nil, prefix_spec. split.
    + intros (b & Hb). exists "", b. exact Hb.
    + intros (a & b & Hab). destruct a; [|discriminate]. exists b. exact Hab.
  - rewrite contains_cons.
    destruct (String.prefix p (String c s)) eqn:Hp.
    + split; [|reflexivity]. intros _.
      apply prefix_spec in Hp as (b & Hb). exists "", b. exact Hb.
    + rewrite IH. split.
      * intros (a & b & ->). exists (String c a), b. reflexivity.
      * intros (a & b & Hab). destruct a as [|c' a].
        -- assert (Hpre : String.prefix p (String c s) = true)
             by (apply prefix_spec; exists b; exact Hab).
           congruence.
        -- change (String c' a +:+ p +:+ b) with (String c' (a +:+ p +:+ b)) in Hab.
           injection Hab as _ ->. eauto.
Qed.

(** ** [LatLonGridDescriptor.read] *)

(** C10. A lat-lon grid that is read stores the units 'degrees' exactly
    when the units string of the latitude variable contains 'degree', and
    'radians' for every other string ('meters', say); the units of the
    longitude variable play no part: replacing them changes nothing of
    what is read. *)
Theorem latlon_read_units
    (ds : xarray.Dataset) (latVarName lonVarName : string) (argv : list string)
    (self : LatLonGridDescriptor.t) :
  LatLonGridDescriptor.read ds latVarName lonVarName argv = Ok self ->
  exists latVar latUnits,
    xarray.data_vars ds !! latVarName = Some latVar /\
    xarray.units latVar = Some latUnits /\
    LatLonGridDescriptor.units self =
      (if contains "degree" latUnits then "degrees" else "radians") /\
    (LatLonGridDescriptor.units self = "degrees" <->
     exists a b, latUnits = String.append a (String.append "degree" b)) /\
    (LatLonGridDescriptor.units self <> "degrees" ->
     LatLonGridDescriptor.units self = "radians") /\
    (latUnits = "meters" -> LatLonGridDescriptor.units self = "radians") /\
    (latVarName <> lonVarName ->
     forall lonUnits,
       LatLonGridDescriptor.read (with_units ds lonVarName lonUnits)
         latVarName lonVarName argv = Ok self).
Proof.
  intros H. pose proof H as Hread.
  unfold LatLonGridDescriptor.read in H.
  unfold xarray.getitem, xarray.get_units in H.
  destruct (xarray.data_vars ds !! latVarName) as [latVar|] eqn:Hlat; [|discriminate].
  cbn [bind] in H.
  destruct (xarray.data_vars ds !! lonVarName) as [lonVar|] eqn:Hlon; [|discriminate].
  cbn [bind] in H.
  destruct (xarray.units latVar) as [latUnits|] eqn:Hu; [|discriminate].
  cbn [bind] in H.
  exists latVar, latUnits. split; [reflexivity|]. split; [exact Hu|].
  assert (Hunits : LatLonGridDescriptor.units self =
                   (if contains "degree" latUnits then "degrees" else "radians")).
  { inv_bind H. cbn [LatLonGridDescriptor._set_coords] in H. inv_bind H.
    injection H as <-. reflexivity. }
  split; [exact Hunits|]. split; [|split; [|split]].
  - rewrite Hunits, <- contains_spec.
    destruct (contains "degree" latUnits); split; congruence.
  - rewrite Hunits. destruct (contains "degree" latUnits); congruence.
  - intros ->. rewrite Hunits. reflexivity.
  - intros Hne lonUnits. rewrite <- Hread.
    unfold LatLonGridDescriptor.read, xarray.getitem, with_units.
    cbn [xarray.data_vars xarray.attrs_history].
    rewrite lookup_alter_ne by congruence.
    rewrite lookup_alter_eq, Hlat, Hlon. reflexivity.
Qed.

Lemma example_dataset_read :
  LatLonGridDescriptor.read example_dataset "lat" "lon" ["prog"] = Ok example_latlon.
Proof. vm_compute. reflexivity. Qed.

Lemma latlon_read_units_witness :
  exists latVar latUnits,
    xarray.data_vars example_dataset !! "lat" = Some latVar /\
    xarray.units latVar = Some latUnits /\
    LatLonGridDescriptor.units example_latlon =
      (if contains "degree" latUnits then "degrees" else "radians").
Proof.
  destruct (latlon_read_units example_dataset "lat" "lon" ["prog"] example_latlon
              example_dataset_read)
    as (latVar & latUnits & Hvar & Hunits & Hself & _).
  exists latVar, latUnits. auto.
Defined.

(** ** The history attribute *)

(** With a history in the source, the attribute written by a mesh export is
    that text, a newline, and the arguments joined by spaces. *)
Lemma mesh_history_appended {pow : float -> float -> float}
    (inFile : MpasMeshDescriptor.MeshFile) argv outFile source :
  MpasMeshDescriptor.history inFile = Some source ->
  MpasMeshDescriptor.to_scrip pow inFile argv = Ok outFile ->
  ncattrs outFile !! "history" =
    Some (AttrStr (String.append source (String.append newline (join " " argv)))).
Proof.
  intros Hsrc H. apply mesh_to_scrip_inv in H as (_ & _ & _ & Hhist).
  rewrite Hhist, Hsrc. unfold join at 1. cbn [String.concat].
  reflexivity.
Qed.

(** Without one, it is the list of the arguments, not their join. *)
Lemma mesh_history_without_source {pow : float -> float -> float}
    (inFile : MpasMeshDescriptor.MeshFile) argv outFile :
  MpasMeshDescriptor.history inFile = None ->
  MpasMeshDescriptor.to_scrip pow inFile argv = Ok outFile ->
  ncattrs outFile !! "history" = Some (AttrList argv).
Proof.
  intros Hsrc H. apply mesh_to_scrip_inv in H as (_ & _ & _ & Hhist).
  rewrite Hhist, Hsrc. reflexivity.
Qed.

(** C5, at a mesh without history exported by the command [prog mesh.nc]:
    the attribute written is the list of the two arguments, where the claim
    has the string "prog mesh.nc". The same holds for a lat-lon grid read
    from a dataset without history. *)
Theorem history_without_source_is_a_list :
  (exists outFile,
      MpasMeshDescriptor.to_scrip example_pow two_cell_mesh ["prog"; "mesh.nc"] = Ok outFile /\
      ncattrs outFile !! "history" = Some (AttrList ["prog"; "mesh.nc"]) /\
      ncattrs outFile !! "history" <> Some (AttrStr (join " " ["prog"; "mesh.nc"]))) /\
  (exists self outFile,
      LatLonGridDescriptor.read example_dataset "lat" "lon" ["prog"; "grid.nc"] = Ok self /\
      LatLonGridDescriptor.to_scrip self = Ok outFile /\
      ncattrs outFile !! "history" = Some (AttrList ["prog"; "grid.nc"]) /\
      ncattrs outFile !! "history" <> Some (AttrStr (join " " ["prog"; "grid.nc"]))).
Proof.
  split.
  - eexists. split; [vm_compute; reflexivity|].
    split; [vm_compute; reflexivity|]. vm_compute. discriminate.
  - eexists. eexists. split; [vm_compute; reflexivity|].
    split; [vm_compute; reflexivity|].
    split; [vm_compute; reflexivity|]. vm_compute. discriminate.
Qed.

(** ** The projection *)

(** Every pair of an [x] and a [y] is a point of the grid [meshgrid] makes. *)
Lemma meshgrid_points {A} (xs ys : list A) (x y : A) :
  x ∈ xs -> y ∈ ys ->
  (x, y) ∈ zip (numpy.flat (fst (numpy.meshgrid xs ys)))
               (numpy.flat (snd (numpy.meshgrid xs ys))).
Proof.
  intros Hx Hy. unfold numpy.meshgrid, numpy.flat. cbn [fst snd rows].
  induction ys as [|y0 ys IH]; [inversion Hy|].
  cbn [map concat].
  rewrite zip_with_app by (rewrite length_replicate; reflexivity).
  apply elem_of_app. apply elem_of_cons in Hy as [->|Hy].
  - left. apply list_elem_of_lookup in Hx as [i Hi].
    apply list_elem_of_lookup. exists i.
    rewrite lookup_zip_with, Hi. cbn.
    rewrite lookup_replicate_2 by (eapply lookup_lt_Some; eassumption).
    reflexivity.
  - right. apply IH. exact Hy.
Qed.

(** ** Loops that may raise *)

(** [mapM] succeeds, or raises what its function raises at some element. *)
Lemma mapM_cases {A B} (f : A -> result B) (l : list A) :
  (exists l', mapM f l = Ok l') \/
  (exists e i x, l !! i = Some x /\ f x = Raise e /\ mapM f l = Raise e).
Proof.
  induction l as [|x l IH]; simpl; [left; eauto|].
  destruct (f x) as [y|e] eqn:Hx; cbn [bind].
  - destruct IH as [(l' & ->)|(e & i & x' & Hi & Hf & ->)]; cbn [bind].
    + left. eauto.
    + right. exists e, (S i), x'. auto.
  - right. exists e, 0, x. auto.
Qed.

(** A loop with an invariant [I], indexed by the number of passes made: each
    pass keeps it or raises an exception of the kind [Bad]. *)
Lemma foldM_invariant {A S} (body : S -> A -> result S)
    (I : nat -> S -> Prop) (Bad : exn -> Prop) (l : list A) :
  (forall i x s, l !! i = Some x -> I i s ->
     (exists s', body s x = Ok s' /\ I (Datatypes.S i) s') \/
     (exists e, body s x = Raise e /\ Bad e)) ->
  forall s, I 0 s ->
    (exists s', foldM body s l = Ok s' /\ I (length l) s') \/
    (exists e, foldM body s l = Raise e /\ Bad e).
Proof.
  revert I. induction l as [|x l IH]; intros I Hbody s Hs; simpl.
  - left. eauto.
  - destruct (Hbody 0 x s eq_refl Hs) as [(s' & -> & Hs')|(e & -> & He)]; cbn [bind].
    + apply (IH (fun i => I (Datatypes.S i))); [|exact Hs'].
      intros i y t Hi Ht. apply (Hbody (Datatypes.S i)); assumption.
    + right. eauto.
Qed.

Lemma getitem_Raise_inv {A} (a : list A) (i : Z) (e : exn) :
  numpy.getitem a i = Raise e ->
  e = IndexError i (length a) /\
  (i < - Z.of_nat (length a) \/ Z.of_nat (length a) <= i)%Z.
Proof.
  unfold numpy.getitem. intros H.
  destruct (i <? 0)%Z eqn:Hneg;
    destruct ((0 <=? _) && (_ <? _))%Z eqn:Hin.
  - destruct (a !! _) eqn:Hl; [discriminate|].
    apply lookup_ge_None in Hl. lia.
  - injection H as <-. split; [reflexivity|]. lia.
  - destruct (a !! _) eqn:Hl; [discriminate|].
    apply lookup_ge_None in Hl. lia.
  - injection H as <-. split; [reflexivity|]. lia.
Qed.

(** [a[arange(n), col] = vals] on an array of [n] rows: the column is
    replaced, row by row. *)
Lemma put_column_rows {A} (col : nat) (vals : list A) :
  forall (k : nat) (rs : list (list A)),
    length rs = k + length vals ->
    Forall (fun row => col < length row) rs ->
    foldM (fun rs rv =>
             let* row := numpy.getitem rs (Z.of_nat (fst rv)) in
             let* row' := numpy.setitem row (Z.of_nat col) (snd rv) in
             numpy.setitem rs (Z.of_nat (fst rv)) row')
          rs (zip (seq k (length vals)) vals) =
      Ok (take k rs ++ zip_with (fun row v => <[col := v]> row) (drop k rs) vals).
Proof.
  induction vals as [|v vals IH]; intros k rs Hlen Hrows.
  - simpl. simpl in Hlen. rewrite Nat.add_0_r in Hlen.
    rewrite drop_ge by lia. rewrite take_ge by lia.
    cbn [zip_with]. rewrite app_nil_r. reflexivity.
  - simpl in Hlen. cbn [length seq zip zip_with foldM fst snd].
    destruct (lookup_lt_is_Some_2 rs k) as [row Hrow]; [lia|].
    rewrite (getitem_nonneg rs k row Hrow). cbn [bind].
    assert (Hcol : col < length row).
    { rewrite Forall_lookup in Hrows. exact (Hrows _ _ Hrow). }
    rewrite setitem_nonneg by exact Hcol. cbn [bind].
    rewrite setitem_nonneg by lia. cbn [bind].
    fold (zip (seq (S k) (length vals)) vals).
    rewrite IH.
    + f_equal. rewrite (take_S_r _ _ (<[col := v]> row))
        by (apply list_lookup_insert_eq; lia).
      rewrite take_insert_ge by lia.
      rewrite drop_insert_lt by lia.
      rewrite (drop_S rs row k Hrow). cbn [zip_with].
      rewrite <- app_assoc. reflexivity.
    + rewrite length_insert. lia.
    + apply Forall_insert; [exact Hrows|]. rewrite length_insert. exact Hcol.
Qed.

Lemma put_column_arange {A} (a : ndarray2 A) (n col : nat) (vals : list A) :
  rectangular a -> col < ncols a -> shape0 a = n -> length vals = n ->
  numpy.put_column a (numpy.arange n) col vals =
    Ok (Array2 (ncols a) (zip_with (fun row v => <[col := v]> row) (rows a) vals)).
Proof.
  intros Hrect Hcol Hn Hlen. unfold numpy.put_column, numpy.arange.
  rewrite decide_True by (rewrite length_seq; lia).
  rewrite <- Hlen.
  rewrite put_column_rows.
  - reflexivity.
  - unfold shape0 in Hn. simpl. lia.
  - eapply Forall_impl; [exact Hrect|]. intros row Hrow. simpl in Hrow. lia.
Qed.

(** ** The corner loop of [MpasMeshDescriptor.to_scrip] *)

Lemma shapes_ok_spec (inFile : MpasMeshDescriptor.MeshFile) :
  MpasMeshDescriptor.shapes_ok inFile = true ->
  length (MpasMeshDescriptor.latCell inFile) = MpasMeshDescriptor.nCells inFile /\
  length (MpasMeshDescriptor.lonCell inFile) = MpasMeshDescriptor.nCells inFile /\
  length (MpasMeshDescriptor.areaCell inFile) = MpasMeshDescriptor.nCells inFile /\
  length (MpasMeshDescriptor.nEdgesOnCell inFile) = MpasMeshDescriptor.nCells inFile /\
  length (MpasMeshDescriptor.verticesOnCell inFile) = MpasMeshDescriptor.nCells inFile /\
  Forall (fun row => length row = MpasMeshDescriptor.maxEdges inFile)
         (MpasMeshDescriptor.verticesOnCell inFile) /\
  length (MpasMeshDescriptor.latVertex inFile) = MpasMeshDescriptor.nVertices inFile /\
  length (MpasMeshDescriptor.lonVertex inFile) = MpasMeshDescriptor.nVertices inFile.
Proof.
  unfold MpasMeshDescriptor.shapes_ok. intros H.
  repeat (apply andb_prop in H as [H ?]).
  repeat match goal with
         | E : (_ =? _) = true |- _ => apply Nat.eqb_eq in E
         end.
  repeat split; try assumption.
  apply Forall_forall. intros row Hrow.
  match goal with
  | E : forallb _ _ = true |- _ => rewrite forallb_forall in E; specialize (E row)
  end.
  apply Nat.eqb_eq. apply list_elem_of_In in Hrow. auto.
Qed.

(** An array of zeros of the loop's shape satisfies the invariant before
    the first pass. *)
Lemma zeros_rectangular (r c : nat) :
  rectangular (Array2 c (replicate r (replicate c (zero : float)))).
Proof.
  unfold rectangular. cbn [rows ncols]. apply Forall_replicate.
  apply length_replicate.
Qed.

(** One entry of a column laid over an array. *)
Lemma at2_column {A} (n col : nat) (rs : list (list A)) (vals : list A) c p row v :
  rs !! c = Some row -> vals !! c = Some v ->
  at2 (Array2 n (zip_with (fun row v => <[col := v]> row) rs vals)) c p =
    (<[col := v]> row) !! p.
Proof.
  intros Hrow Hv. unfold at2. cbn [rows].
  rewrite lookup_zip_with, Hrow. cbn. rewrite Hv. reflexivity.
Qed.

Lemma column_rectangular {A} (n col : nat) (rs : list (list A)) (vals : list A) :
  Forall (fun row => length row = n) rs ->
  rectangular (Array2 n (zip_with (fun row v => <[col := v]> row) rs vals)).
Proof.
  intros Hrs. unfold rectangular. cbn [rows ncols].
  apply Forall_lookup_2. intros i row Hi.
  rewrite lookup_zip_with in Hi.
  destruct (rs !! i) as [row0|] eqn:Hrow0; [|discriminate]. cbn in Hi.
  destruct (vals !! i) as [v|]; [|discriminate]. cbn in Hi. injection Hi as <-.
  rewrite length_insert. rewrite Forall_lookup in Hrs. exact (Hrs _ _ Hrow0).
Qed.

Section CornerLoop.
Variable inFile : MpasMeshDescriptor.MeshFile.
Hypothesis Hshapes : MpasMeshDescriptor.shapes_ok inFile = true.

(** The index pairs [verticesOnCell[cellIndices, localVertexIndices]] reads
    at output position [p]. *)
Lemma index_pairs_lookup (p i : nat) (rc : nat * Z) :
  zip (numpy.arange (MpasMeshDescriptor.nCells inFile))
      (numpy.minimum (numpy.sub_scalar (MpasMeshDescriptor.nEdgesOnCell inFile) 1)
                     (Z.of_nat p)) !! i = Some rc ->
  i < MpasMeshDescriptor.nCells inFile /\
  exists k, MpasMeshDescriptor.nEdgesOnCell inFile !! i = Some k /\
            rc = (i, Z.min (k - 1) (Z.of_nat p)).
Proof.
  unfold numpy.arange, numpy.minimum, numpy.sub_scalar. intros H.
  rewrite lookup_zip_with in H.
  destruct (seq 0 _ !! i) as [r|] eqn:Hr; [|discriminate]. cbn in H.
  apply lookup_seq in Hr as [-> Hlt].
  rewrite !list_lookup_fmap in H.
  destruct (MpasMeshDescriptor.nEdgesOnCell inFile !! i) as [k|]; [|discriminate].
  cbn in H. injection H as <-. split; [lia|]. exists k. auto.
Qed.

Lemma index_pairs_lookup_2 (p c : nat) (k : Z) :
  c < MpasMeshDescriptor.nCells inFile ->
  MpasMeshDescriptor.nEdgesOnCell inFile !! c = Some k ->
  zip (numpy.arange (MpasMeshDescriptor.nCells inFile))
      (numpy.minimum (numpy.sub_scalar (MpasMeshDescriptor.nEdgesOnCell inFile) 1)
                     (Z.of_nat p)) !! c = Some (c, Z.min (k - 1) (Z.of_nat p)).
Proof.
  intros Hc Hk. unfold numpy.arange, numpy.minimum, numpy.sub_scalar.
  rewrite lookup_zip_with, lookup_seq_lt by exact Hc. cbn.
  rewrite !list_lookup_fmap, Hk. reflexivity.
Qed.

(** [corner_value] splits into the id lookup the code does for every cell
    at once, and the vertex lookup it does next. *)
Lemma corner_value_split (coordinate : list float) (c p : nat) (k : Z) :
  MpasMeshDescriptor.nEdgesOnCell inFile !! c = Some k ->
  MpasMeshDescriptor.corner_value inFile coordinate c p =
    (let* v :=
       (let* row := numpy.getitem (MpasMeshDescriptor.verticesOnCell inFile) (Z.of_nat c) in
        numpy.getitem row (Z.min (k - 1) (Z.of_nat p))) in
     numpy.getitem coordinate (v - 1)%Z).
Proof.
  intros Hk. unfold MpasMeshDescriptor.corner_value.
  rewrite (getitem_nonneg _ c k Hk). cbn [bind]. rewrite bind_assoc. reflexivity.
Qed.

End CornerLoop.

(** One pass of the loop: it fills column [p] with the corners
    [corner_value] names, or raises what one of them raises. *)
Lemma corner_pass_step (inFile : MpasMeshDescriptor.MeshFile) (p : nat)
    (grid : ndarray2 float * ndarray2 float) :
  MpasMeshDescriptor.shapes_ok inFile = true ->
  p < MpasMeshDescriptor.maxEdges inFile ->
  corners_upto inFile p grid ->
  (exists grid', MpasMeshDescriptor.corner_pass inFile grid p = Ok grid' /\
                 corners_upto inFile (S p) grid') \/
  (exists e, MpasMeshDescriptor.corner_pass inFile grid p = Raise e /\
             corner_raises inFile e).
Proof.
  intros Hshapes Hp Hinv.
  destruct (shapes_ok_spec _ Hshapes) as (_ & _ & _ & HnE & HvOC & Hrows & HlatV & HlonV).
  destruct grid as [lat lon].
  destruct Hinv as ((Hlat0 & Hlat1 & HlatR) & (Hlon0 & Hlon1 & HlonR) & Hvals).
  cbn [fst snd] in *.
  unfold MpasMeshDescriptor.corner_pass, numpy.take_pairs.
  rewrite decide_True
    by (unfold numpy.arange, numpy.minimum, numpy.sub_scalar;
        rewrite length_seq, !length_map; lia).
  set (g := fun rc : nat * Z =>
              let* row := numpy.getitem (MpasMeshDescriptor.verticesOnCell inFile)
                            (Z.of_nat (fst rc)) in
              numpy.getitem row (snd rc)).
  set (pairs := zip _ _).
  assert (Hpairs : forall c k, c < MpasMeshDescriptor.nCells inFile ->
             MpasMeshDescriptor.nEdgesOnCell inFile !! c = Some k ->
             pairs !! c = Some (c, Z.min (k - 1) (Z.of_nat p)))
    by (intros; apply index_pairs_lookup_2; assumption).
  assert (Hsplit : forall coordinate c k,
             MpasMeshDescriptor.nEdgesOnCell inFile !! c = Some k ->
             MpasMeshDescriptor.corner_value inFile coordinate c p =
               bind (g (c, Z.min (k - 1) (Z.of_nat p)))
                    (fun v => numpy.getitem coordinate (v - 1)%Z))
    by (intros; apply corner_value_split; assumption).
  destruct (mapM_cases g pairs) as [(ids & Hids)|(e & i & rc & Hi & Hg & Hraise)].
  2:{ right. exists e. rewrite Hraise. split; [reflexivity|].
      apply index_pairs_lookup in Hi as (Hlt & k & Hk & ->).
      exists i, p. split; [exact Hlt|]. split; [exact Hp|]. left.
      rewrite (Hsplit _ _ _ Hk), Hg. reflexivity. }
  rewrite Hids. cbn [bind].
  assert (Hids_len : length ids = MpasMeshDescriptor.nCells inFile).
  { rewrite (mapM_Ok_length _ _ _ Hids). unfold pairs, numpy.arange, numpy.minimum,
      numpy.sub_scalar. rewrite length_zip_with, length_seq, !length_map. lia. }
  assert (Hid : forall c k, c < MpasMeshDescriptor.nCells inFile ->
             MpasMeshDescriptor.nEdgesOnCell inFile !! c = Some k ->
             exists v, ids !! c = Some v /\ g (c, Z.min (k - 1) (Z.of_nat p)) = Ok v).
  { intros c k Hc Hk.
    destruct (mapM_Ok_lookup _ _ _ _ _ Hids (Hpairs c k Hc Hk)) as (v & Hv & Hl).
    eauto. }
  unfold numpy.take_indices, numpy.sub_scalar.
  assert (Hcoord : forall coordinate,
             (exists vals, mapM (numpy.getitem coordinate) (map (fun k => (k - 1)%Z) ids) =
                             Ok vals /\
                           length vals = MpasMeshDescriptor.nCells inFile /\
                           forall c, c < MpasMeshDescriptor.nCells inFile ->
                             exists x, vals !! c = Some x /\
                                       MpasMeshDescriptor.corner_value inFile coordinate c p =
                                         Ok x) \/
             (exists e, mapM (numpy.getitem coordinate) (map (fun k => (k - 1)%Z) ids) =
                          Raise e /\
                        exists c, c < MpasMeshDescriptor.nCells inFile /\
                                  MpasMeshDescriptor.corner_value inFile coordinate c p =
                                    Raise e)).
  { intros coordinate.
    destruct (mapM_cases (numpy.getitem coordinate) (map (fun k => (k - 1)%Z) ids))
      as [(vals & Hvals')|(e & i & x & Hi & Hx & Hraise)].
    - left. exists vals. split; [exact Hvals'|].
      pose proof (mapM_Ok_length _ _ _ Hvals') as Hlen. rewrite length_map in Hlen.
      split; [lia|]. intros c Hc.
      destruct (lookup_lt_is_Some_2 (MpasMeshDescriptor.nEdgesOnCell inFile) c) as [k Hk];
        [lia|].
      destruct (Hid c k Hc Hk) as (v & Hv & Hgv).
      destruct (mapM_Ok_lookup _ _ _ c (v - 1)%Z Hvals') as (x & Hx & Hl).
      { rewrite list_lookup_fmap, Hv. reflexivity. }
      exists x. split; [exact Hl|]. rewrite (Hsplit _ _ _ Hk), Hgv. exact Hx.
    - right. exists e. split; [exact Hraise|].
      rewrite list_lookup_fmap in Hi.
      destruct (ids !! i) as [v|] eqn:Hv; [|discriminate]. cbn in Hi. injection Hi as <-.
      assert (Hlt : i < MpasMeshDescriptor.nCells inFile)
        by (apply lookup_lt_Some in Hv; lia).
      exists i. split; [exact Hlt|].
      destruct (lookup_lt_is_Some_2 (MpasMeshDescriptor.nEdgesOnCell inFile) i) as [k Hk];
        [lia|].
      destruct (Hid i k Hlt Hk) as (v' & Hv' & Hgv).
      assert (v' = v) as -> by congruence.
      rewrite (Hsplit _ _ _ Hk), Hgv. exact Hx. }
  destruct (Hcoord (MpasMeshDescriptor.latVertex inFile))
    as [(lats & -> & Hlats_len & Hlats)|(e & -> & c & Hc & He)].
  2:{ right. exists e. split; [reflexivity|]. exists c, p. auto. }
  cbn [bind].
  rewrite put_column_arange by (try assumption; lia). cbn [bind].
  destruct (Hcoord (MpasMeshDescriptor.lonVertex inFile))
    as [(lons & -> & Hlons_len & Hlons)|(e & -> & c & Hc & He)].
  2:{ right. exists e. split; [reflexivity|]. exists c, p. auto. }
  cbn [bind].
  rewrite put_column_arange by (try assumption; lia). cbn [bind].
  left. eexists. split; [reflexivity|].
  unfold corners_upto. cbn [fst snd ncols].
  unfold shape0 in *. cbn [rows].
  rewrite !length_zip_with.
  split; [|split].
  - split; [lia|]. split; [lia|]. apply column_rectangular. exact HlatR.
  - split; [lia|]. split; [lia|]. apply column_rectangular. exact HlonR.
  - intros c q Hc Hq.
    destruct (Hlats c Hc) as (x & Hx & Hvx).
    destruct (Hlons c Hc) as (y & Hy & Hvy).
    destruct (lookup_lt_is_Some_2 (rows lat) c) as [rlat Hrlat]; [lia|].
    destruct (lookup_lt_is_Some_2 (rows lon) c) as [rlon Hrlon]; [lia|].
    rewrite (at2_column _ _ _ _ _ _ _ _ Hrlat Hx).
    rewrite (at2_column _ _ _ _ _ _ _ _ Hrlon Hy).
    destruct (decide (q = p)) as [->|Hne].
    + exists x, y. split; [exact Hvx|]. split.
      * apply list_lookup_insert_eq.
        unfold rectangular in HlatR. rewrite Forall_lookup in HlatR.
        rewrite (HlatR _ _ Hrlat). lia.
      * split; [exact Hvy|]. apply list_lookup_insert_eq.
        unfold rectangular in HlonR. rewrite Forall_lookup in HlonR.
        rewrite (HlonR _ _ Hrlon). lia.
    + destruct (Hvals c q Hc ltac:(lia)) as (x0 & y0 & Hx0 & Hat & Hy0 & Hat').
      exists x0, y0. split; [exact Hx0|].
      rewrite !list_lookup_insert_ne by congruence.
      unfold at2 in Hat, Hat'. rewrite Hrlat in Hat. rewrite Hrlon in Hat'. auto.
Qed.

(** The whole loop: it fills both arrays with the corners [corner_value]
    names, or raises what one of them raises. *)
Lemma grid_corners_cases (inFile : MpasMeshDescriptor.MeshFile) :
  MpasMeshDescriptor.shapes_ok inFile = true ->
  (exists grid, MpasMeshDescriptor.grid_corners inFile = Ok grid /\
                corners_upto inFile (MpasMeshDescriptor.maxEdges inFile) grid) \/
  (exists e, MpasMeshDescriptor.grid_corners inFile = Raise e /\ corner_raises inFile e).
Proof.
  intros Hshapes. unfold MpasMeshDescriptor.grid_corners.
  rewrite !zeros2_nat. cbn [bind].
  pose proof (foldM_invariant (MpasMeshDescriptor.corner_pass inFile)
                (corners_upto inFile) (corner_raises inFile)
                (seq 0 (MpasMeshDescriptor.maxEdges inFile))) as Hloop.
  rewrite length_seq in Hloop. apply Hloop.
  - intros i x s Hi Hs. apply lookup_seq in Hi as [-> Hlt].
    apply corner_pass_step; assumption.
  - unfold corners_upto, shape0. cbn [fst snd rows ncols].
    rewrite length_replicate.
    repeat split; try apply zeros_rectangular. intros c p _ Hp. lia.
Qed.

(** An export is the corner loop, run after the first five variables have
    been written, followed by the two corner variables and the history. *)
Lemma mesh_to_scrip_corners {pow : float -> float -> float}
    (inFile : MpasMeshDescriptor.MeshFile) (argv : list string) :
  MpasMeshDescriptor.shapes_ok inFile = true ->
  exists ds,
    same_schema (mesh_header (MpasMeshDescriptor.nCells inFile)
                   (MpasMeshDescriptor.maxEdges inFile)) ds /\
    MpasMeshDescriptor.to_scrip pow inFile argv =
      (let* grid := MpasMeshDescriptor.grid_corners inFile in
       let* outFile := netCDF4.assign "grid_corner_lat" (FloatArray2 (fst grid)) ds in
       let* outFile := netCDF4.assign "grid_corner_lon" (FloatArray2 (snd grid)) outFile in
       Ok (netCDF4.setncattr "history"
             match MpasMeshDescriptor.history inFile with
             | Some history => AttrStr (join newline [history; join " " argv])
             | None => AttrList argv
             end outFile)).
Proof.
  intros Hshapes.
  destruct (shapes_ok_spec _ Hshapes) as (HlatC & HlonC & Harea & _).
  unfold MpasMeshDescriptor.to_scrip. rewrite create_scrip_new. cbn [bind].
  destruct (mesh_header_steps (MpasMeshDescriptor.nCells inFile)
              (MpasMeshDescriptor.maxEdges inFile)) as (ds' & Hcreate & Hunits).
  rewrite Hcreate. cbn [bind]. rewrite Hunits. cbn [bind].
  set (h := mesh_header _ _).
  assert (Hshape : netCDF4.shape_of h ["grid_size"] = Ok [MpasMeshDescriptor.nCells inFile])
    by (vm_compute; reflexivity).
  assert (Hrank : netCDF4.shape_of h ["grid_rank"] = Ok [1]) by (vm_compute; reflexivity).
  destruct (assign_total h "grid_area"
              (MaskedFloatArray
                 (numpy.ma.divide_scalar (MpasMeshDescriptor.areaCell inFile)
                    (pow (MpasMeshDescriptor.sphere_radius inFile) 2%float)))
              h f8 ["grid_size"] (Some "radian^2") _ (same_schema_refl h)
              ltac:(vm_compute; reflexivity) Hshape) as [d1 H1].
  { cbn [netCDF4.fit]. unfold numpy.ma.divide_scalar.
    rewrite decide_True by (rewrite length_map; exact Harea). reflexivity. }
  rewrite H1. cbn [bind].
  pose proof (assign_same_schema _ _ _ _ _ (same_schema_refl h) H1) as Hs1.
  destruct (assign_total h "grid_center_lat" (FloatArray (MpasMeshDescriptor.latCell inFile))
              d1 f8 ["grid_size"] (Some "radians") _ Hs1
              ltac:(vm_compute; reflexivity) Hshape) as [d2 H2].
  { cbn [netCDF4.fit]. rewrite decide_True by exact HlatC. reflexivity. }
  rewrite H2. cbn [bind].
  pose proof (assign_same_schema _ _ _ _ _ Hs1 H2) as Hs2.
  destruct (assign_total h "grid_center_lon" (FloatArray (MpasMeshDescriptor.lonCell inFile))
              d2 f8 ["grid_size"] (Some "radians") _ Hs2
              ltac:(vm_compute; reflexivity) Hshape) as [d3 H3].
  { cbn [netCDF4.fit]. rewrite decide_True by exact HlonC. reflexivity. }
  rewrite H3. cbn [bind].
  pose proof (assign_same_schema _ _ _ _ _ Hs2 H3) as Hs3.
  destruct (assign_total h "grid_dims"
              (IntScalar (Z.of_nat (MpasMeshDescriptor.nCells inFile)))
              d3 i4 ["grid_rank"] None _ Hs3
              ltac:(vm_compute; reflexivity) Hrank) as [d4 H4]; [reflexivity|].
  rewrite H4. cbn [bind].
  pose proof (assign_same_schema _ _ _ _ _ Hs3 H4) as Hs4.
  destruct (assign_total h "grid_imask" (IntScalar 1)
              d4 i4 ["grid_size"] (Some "unitless") _ Hs4
              ltac:(vm_compute; reflexivity) Hshape) as [d5 H5]; [reflexivity|].
  rewrite H5. cbn [bind].
  pose proof (assign_same_schema _ _ _ _ _ Hs4 H5) as Hs5.
  exists d5. split; [exact Hs5|].
  destruct (MpasMeshDescriptor.grid_corners inFile) as [[lat lon]|e]; reflexivity.
Qed.


(** A loop that ends lets the export end. *)
Lemma mesh_to_scrip_total {pow : float -> float -> float}
    (inFile : MpasMeshDescriptor.MeshFile) argv grid :
  MpasMeshDescriptor.shapes_ok inFile = true ->
  MpasMeshDescriptor.grid_corners inFile = Ok grid ->
  corners_upto inFile (MpasMeshDescriptor.maxEdges inFile) grid ->
  exists outFile, MpasMeshDescriptor.to_scrip pow inFile argv = Ok outFile.
Proof.
  intros Hshapes Hgrid ((Hlat0 & Hlat1 & _) & (Hlon0 & Hlon1 & _) & _).
  destruct (mesh_to_scrip_corners (pow:=pow) inFile argv Hshapes) as (ds & Hs & ->).
  rewrite Hgrid. cbn [bind].
  set (h := mesh_header _ _) in *.
  assert (Hshape : netCDF4.shape_of h ["grid_size"; "grid_corners"] =
                   Ok [MpasMeshDescriptor.nCells inFile; MpasMeshDescriptor.maxEdges inFile])
    by (vm_compute; reflexivity).
  destruct (assign_total h "grid_corner_lat" (FloatArray2 (fst grid))
              ds f8 ["grid_size"; "grid_corners"] (Some "radians") _ Hs
              ltac:(vm_compute; reflexivity) Hshape) as [d1 H1].
  { cbn [netCDF4.fit]. rewrite decide_True by (unfold shape1; auto). reflexivity. }
  rewrite H1. cbn [bind].
  pose proof (assign_same_schema _ _ _ _ _ Hs H1) as Hs1.
  destruct (assign_total h "grid_corner_lon" (FloatArray2 (snd grid))
              d1 f8 ["grid_size"; "grid_corners"] (Some "radians") _ Hs1
              ltac:(vm_compute; reflexivity) Hshape) as [d2 H2].
  { cbn [netCDF4.fit]. rewrite decide_True by (unfold shape1; auto). reflexivity. }
  rewrite H2. cbn [bind]. eauto.
Qed.

(** ** Cells, ids and vertices *)

Lemma cells_ok_spec (inFile : MpasMeshDescriptor.MeshFile) c k :
  MpasMeshDescriptor.cells_ok inFile = true ->
  MpasMeshDescriptor.nEdgesOnCell inFile !! c = Some k -> (1 <= k)%Z.
Proof.
  unfold MpasMeshDescriptor.cells_ok. rewrite forallb_forall. intros Hall Hk.
  apply list_elem_of_lookup_2, list_elem_of_In, Hall in Hk. lia.
Qed.

Lemma ids_within_spec (lo hi : Z) (inFile : MpasMeshDescriptor.MeshFile) c p k row :
  MpasMeshDescriptor.ids_within lo hi inFile = true ->
  p < MpasMeshDescriptor.maxEdges inFile ->
  MpasMeshDescriptor.nEdgesOnCell inFile !! c = Some k ->
  MpasMeshDescriptor.verticesOnCell inFile !! c = Some row ->
  exists v, MpasMeshDescriptor.effective_id k row p = Some v /\ (lo <= v <= hi)%Z.
Proof.
  unfold MpasMeshDescriptor.ids_within, MpasMeshDescriptor.cell_ids_within.
  rewrite forallb_forall. intros Hall Hp Hk Hrow.
  assert (Hin : In (k, row) (zip (MpasMeshDescriptor.nEdgesOnCell inFile)
                                 (MpasMeshDescriptor.verticesOnCell inFile))).
  { apply list_elem_of_In, list_elem_of_lookup. exists c.
    rewrite lookup_zip_with, Hk. cbn. rewrite Hrow. reflexivity. }
  specialize (Hall _ Hin). cbn [fst snd] in Hall.
  rewrite forallb_forall in Hall. specialize (Hall p).
  destruct (MpasMeshDescriptor.effective_id k row p) as [v|].
  - exists v. split; [reflexivity|].
    assert (Hv : ((lo <=? v)%Z && (v <=? hi)%Z) = true)
      by (apply Hall, in_seq; lia).
    apply andb_prop in Hv as [H1 H2]. lia.
  - assert (false = true) by (apply Hall, in_seq; lia). discriminate.
Qed.


(** For a cell with an edge, [corner_value] is one lookup in the vertex
    array, at the shown id taken down by one. *)
Lemma corner_value_eq (inFile : MpasMeshDescriptor.MeshFile)
    (coordinate : list float) c p k row v :
  MpasMeshDescriptor.nEdgesOnCell inFile !! c = Some k ->
  MpasMeshDescriptor.verticesOnCell inFile !! c = Some row ->
  (1 <= k)%Z ->
  MpasMeshDescriptor.effective_id k row p = Some v ->
  MpasMeshDescriptor.corner_value inFile coordinate c p =
    numpy.getitem coordinate (v - 1)%Z.
Proof.
  intros Hk Hrow Hk1 Hv. unfold MpasMeshDescriptor.corner_value.
  rewrite (getitem_nonneg _ c k Hk). cbn [bind].
  rewrite (getitem_nonneg _ c row Hrow). cbn [bind].
  unfold MpasMeshDescriptor.effective_id in Hv.
  rewrite <- (Z2Nat.id (Z.min (k - 1) (Z.of_nat p))) by lia.
  rewrite (getitem_nonneg _ _ v Hv). reflexivity.
Qed.

(** The export of a mesh whose ids numpy accepts: it ends, and every corner
    is the vertex array indexed, as numpy indexes, by the shown id less one. *)
Lemma mesh_export_indexable {pow : float -> float -> float}
    (inFile : MpasMeshDescriptor.MeshFile) (argv : list string) :
  MpasMeshDescriptor.indexable inFile = true ->
  exists outFile grid_corner_lat grid_corner_lon,
    MpasMeshDescriptor.to_scrip pow inFile argv = Ok outFile /\
    var_data <$> variables outFile !! "grid_corner_lat" = Some (Floats2 grid_corner_lat) /\
    var_data <$> variables outFile !! "grid_corner_lon" = Some (Floats2 grid_corner_lon) /\
    (shape0 grid_corner_lat = MpasMeshDescriptor.nCells inFile /\
     shape1 grid_corner_lat = MpasMeshDescriptor.maxEdges inFile) /\
    (shape0 grid_corner_lon = MpasMeshDescriptor.nCells inFile /\
     shape1 grid_corner_lon = MpasMeshDescriptor.maxEdges inFile) /\
    forall c p k row,
      p < MpasMeshDescriptor.maxEdges inFile ->
      MpasMeshDescriptor.nEdgesOnCell inFile !! c = Some k ->
      MpasMeshDescriptor.verticesOnCell inFile !! c = Some row ->
      exists v lat lon,
        MpasMeshDescriptor.effective_id k row p = Some v /\
        numpy.getitem (MpasMeshDescriptor.latVertex inFile) (v - 1)%Z = Ok lat /\
        at2 grid_corner_lat c p = Some lat /\
        numpy.getitem (MpasMeshDescriptor.lonVertex inFile) (v - 1)%Z = Ok lon /\
        at2 grid_corner_lon c p = Some lon.
Proof.
  unfold MpasMeshDescriptor.indexable. intros H.
  apply andb_prop in H as [H Hids]. apply andb_prop in H as [Hshapes Hcells].
  destruct (shapes_ok_spec _ Hshapes) as (_ & _ & _ & HnE & HvOC & Hrows & HlatV & HlonV).
  assert (Hvalue : forall coordinate c p,
             length coordinate = MpasMeshDescriptor.nVertices inFile ->
             c < MpasMeshDescriptor.nCells inFile ->
             p < MpasMeshDescriptor.maxEdges inFile ->
             exists x, MpasMeshDescriptor.corner_value inFile coordinate c p = Ok x).
  { intros coordinate c p Hlen Hc Hp.
    destruct (lookup_lt_is_Some_2 (MpasMeshDescriptor.nEdgesOnCell inFile) c) as [k Hk];
      [lia|].
    destruct (lookup_lt_is_Some_2 (MpasMeshDescriptor.verticesOnCell inFile) c)
      as [row Hrow]; [lia|].
    destruct (ids_within_spec _ _ _ c p k row Hids Hp Hk Hrow) as (v & Hv & Hrange).
    rewrite (corner_value_eq _ _ _ _ _ _ _ Hk Hrow (cells_ok_spec _ _ _ Hcells Hk) Hv).
    destruct (numpy.getitem coordinate (v - 1)%Z) as [x|e] eqn:Hget; [eauto|].
    apply getitem_Raise_inv in Hget as [_ Hout]. lia. }
  destruct (grid_corners_cases inFile Hshapes)
    as [([lat lon] & Hgrid & Hinv)|(e & _ & c & p & Hc & Hp & [He|He])].
  2:{ destruct (Hvalue _ c p HlatV Hc Hp) as [x Hx]. congruence. }
  2:{ destruct (Hvalue _ c p HlonV Hc Hp) as [x Hx]. congruence. }
  destruct (mesh_to_scrip_total (pow:=pow) inFile argv _ Hshapes Hgrid Hinv) as [outFile Hout].
  destruct (mesh_to_scrip_inv inFile argv outFile Hout)
    as (_ & _ & (lat' & lon' & Hgrid' & Hdlat & Hdlon) & _).
  rewrite Hgrid in Hgrid'. injection Hgrid' as <- <-.
  destruct Hinv as ((Hlat0 & Hlat1 & _) & (Hlon0 & Hlon1 & _) & Hvals).
  cbn [fst snd] in *.
  exists outFile, lat, lon. repeat (split; [assumption|]).
  split; [split; assumption|]. split; [split; assumption|].
  intros c p k row Hp Hk Hrow.
  assert (Hc : c < MpasMeshDescriptor.nCells inFile)
    by (apply lookup_lt_Some in Hk; lia).
  destruct (ids_within_spec _ _ _ c p k row Hids Hp Hk Hrow) as (v & Hv & _).
  destruct (Hvals c p Hc Hp) as (x & y & Hx & Hatx & Hy & Haty).
  rewrite (corner_value_eq _ _ _ _ _ _ _ Hk Hrow (cells_ok_spec _ _ _ Hcells Hk) Hv) in Hx.
  rewrite (corner_value_eq _ _ _ _ _ _ _ Hk Hrow (cells_ok_spec _ _ _ Hcells Hk) Hv) in Hy.
  exists v, x, y. auto.
Qed.



(** ** The corners of a mesh *)



(** ** Vertex ids that are not ids of vertices *)




(** ** Too few centers *)

Lemma interp_extrap_corner_cases (inField : list float) :
  match inField with
  | [] => _interp_extrap_corner inField = Raise (IndexError 0 0)
  | [_] => _interp_extrap_corner inField = Raise (IndexError 1 1)
  | _ :: _ :: _ =>
      exists outField,
        _interp_extrap_corner inField = Ok outField /\
        length outField = length inField + 1
  end.
Proof.
  destruct inField as [|c0 [|c1 rest]].
  - reflexivity.
  - vm_compute. reflexivity.
  - set (inField := c0 :: c1 :: rest).
    assert (Hlen : 2 <= length inField) by (simpl; lia).
    destruct (lookup_lt_is_Some_2 inField (length inField - 1)) as [cm1 Hm1]; [lia|].
    destruct (lookup_lt_is_Some_2 inField (length inField - 2)) as [cm2 Hm2]; [lia|].
    eexists. split.
    + apply (interp_extrap_corner_eq inField Hlen c0 c1 cm1 cm2); [reflexivity..|assumption|assumption].
    + rewrite !length_insert, !length_app. unfold numpy.scale.
      rewrite length_map, length_zip_with, length_take, length_drop. simpl. lia.
Qed.

(** ** Grids made by [meshgrid] *)

Lemma meshgrid_shape {A} (x y : list A) :
  let (X, Y) := numpy.meshgrid x y in
  (shape0 X = length y /\ shape1 X = length x /\ rectangular X) /\
  (shape0 Y = length y /\ shape1 Y = length x /\ rectangular Y).
Proof.
  unfold numpy.meshgrid, shape0, shape1, rectangular. cbn [rows ncols].
  rewrite !length_map. repeat split.
  - apply Forall_fmap, Forall_true. reflexivity.
  - apply Forall_fmap, Forall_true. intros yi. apply length_replicate.
Qed.

(** [X[r, c] = x[c]] and [Y[r, c] = y[r]]. *)
Lemma meshgrid_at2 {A} (x y : list A) (r c : nat) (xc yr : A) :
  x !! c = Some xc -> y !! r = Some yr ->
  at2 (fst (numpy.meshgrid x y)) r c = Some xc /\
  at2 (snd (numpy.meshgrid x y)) r c = Some yr.
Proof.
  intros Hx Hy. unfold numpy.meshgrid, at2. cbn [fst snd rows].
  rewrite !list_lookup_fmap, Hy. cbn. split; [exact Hx|].
  apply lookup_replicate_2. eapply lookup_lt_Some. exact Hx.
Qed.

(** Row-major order of [flat]. *)
Lemma flat_lookup {A} (a : ndarray2 A) (r c : nat) :
  rectangular a -> c < ncols a ->
  numpy.flat a !! (r * ncols a + c) = at2 a r c.
Proof.
  intros Hrect Hc. unfold numpy.flat, at2.
  apply lookup_concat_rect; assumption.
Qed.

Lemma flat_length {A} (a : ndarray2 A) :
  rectangular a -> length (numpy.flat a) = shape0 a * shape1 a.
Proof. intros Hrect. unfold numpy.flat. apply length_concat_rect. exact Hrect. Qed.

(** The rows [_unwrap_corners] makes of a lattice. *)
Lemma unwrap_corners_rows {A} `{Zero A} (lattice : ndarray2 A) (ny nx : nat) :
  rectangular lattice -> shape0 lattice = ny + 1 -> shape1 lattice = nx + 1 ->
  exists outField,
    _unwrap_corners lattice = Ok outField /\
    shape0 outField = ny * nx /\ shape1 outField = 4 /\
    forall r c p0 p1 p2 p3, r < ny -> c < nx ->
      at2 lattice r c = Some p0 ->
      at2 lattice r (c + 1) = Some p1 ->
      at2 lattice (r + 1) (c + 1) = Some p2 ->
      at2 lattice (r + 1) c = Some p3 ->
      rows outField !! (r * nx + c) = Some [p0; p1; p2; p3].
Proof.
  intros Hrect Hrows Hcols.
  eexists. split; [apply (unwrap_corners_eq lattice ny nx); assumption|].
  pose proof (view_flat_length lattice ny nx Hrect Hrows Hcols) as Hlen.
  split; [|split].
  - unfold shape0. cbn [rows].
    rewrite !length_zip_with, !Hlen, length_replicate. lia.
  - reflexivity.
  - intros r c p0 p1 p2 p3 Hr Hc H0 H1 H2 H3.
    cbn [rows]. apply four_columns_lookup.
    + nia.
    + rewrite (view_flat_lookup lattice ny nx) by assumption.
      simpl. rewrite !Nat.add_0_r. exact H0.
    + rewrite (view_flat_lookup lattice ny nx) by assumption.
      simpl. rewrite !Nat.add_0_r. exact H1.
    + rewrite (view_flat_lookup lattice ny nx) by assumption. exact H2.
    + rewrite (view_flat_lookup lattice ny nx) by assumption.
      simpl. rewrite !Nat.add_0_r. exact H3.
Qed.

(** ** The variables of a rectangular grid *)

Lemma fit_IntList shape l data :
  netCDF4.fit shape (IntList l) = Ok data -> data = Ints l /\ shape = [length l].
Proof.
  destruct shape as [|n [|k shape]]; simpl; try discriminate.
  destruct (decide (length l = n)); [|discriminate]. intros H. split; congruence.
Qed.

Lemma fit_FloatArray_shape shape a data :
  netCDF4.fit shape (FloatArray a) = Ok data -> shape = [length a].
Proof.
  destruct shape as [|n [|k shape]]; simpl; try discriminate.
  destruct (decide (length a = n)); [|discriminate]. congruence.
Qed.

Lemma fit_MaskedFloatArray_shape shape a data :
  netCDF4.fit shape (MaskedFloatArray a) = Ok data -> shape = [length a].
Proof.
  destruct shape as [|n [|k shape]]; simpl; try discriminate.
  destruct (decide (length a = n)); [|discriminate]. congruence.
Qed.

Lemma fit_FloatArray2_shape shape a data :
  netCDF4.fit shape (FloatArray2 a) = Ok data -> shape = [shape0 a; shape1 a].
Proof.
  destruct shape as [|n [|k [|j shape]]]; simpl; try discriminate.
  destruct (decide (shape0 a = n /\ shape1 a = k)) as [[<- <-]|]; [|discriminate].
  reflexivity.
Qed.

(** What a file holds once the six variables of a rectangular grid have
    been written to the header [_create_scrip] made. *)
Lemma rectangular_writes_inv (n : nat) (units : string)
    (center_lat center_lon : list float) (grid_dims : list Z)
    (corner_lat corner_lon : ndarray2 float) (d1 d2 d3 d4 d5 d6 : Dataset) :
  let h := scrip_header n 4 2 units in
  netCDF4.assign "grid_center_lat" (FloatArray center_lat) h = Ok d1 ->
  netCDF4.assign "grid_center_lon" (FloatArray center_lon) d1 = Ok d2 ->
  netCDF4.assign "grid_dims" (IntList grid_dims) d2 = Ok d3 ->
  netCDF4.assign "grid_imask" (IntScalar 1) d3 = Ok d4 ->
  netCDF4.assign "grid_corner_lat" (FloatArray2 corner_lat) d4 = Ok d5 ->
  netCDF4.assign "grid_corner_lon" (FloatArray2 corner_lon) d5 = Ok d6 ->
  same_schema h d6 /\
  variables d6 !! "grid_center_lat" =
    Some (NcVar f8 ["grid_size"] (Some units) (Floats center_lat)) /\
  variables d6 !! "grid_center_lon" =
    Some (NcVar f8 ["grid_size"] (Some units) (Floats center_lon)) /\
  variables d6 !! "grid_dims" = Some (NcVar i4 ["grid_rank"] None (Ints grid_dims)) /\
  variables d6 !! "grid_corner_lat" =
    Some (NcVar f8 ["grid_size"; "grid_corners"] (Some units) (Floats2 corner_lat)) /\
  variables d6 !! "grid_corner_lon" =
    Some (NcVar f8 ["grid_size"; "grid_corners"] (Some units) (Floats2 corner_lon)) /\
  (length center_lat = n /\ length center_lon = n /\ length grid_dims = 2) /\
  (shape0 corner_lat = n /\ shape1 corner_lat = 4) /\
  (shape0 corner_lon = n /\ shape1 corner_lon = 4).
Proof.
  intros h H1 H2 H3 H4 H5 H6.
  pose proof (assign_same_schema _ _ _ _ _ (same_schema_refl h) H1) as Hs1.
  pose proof (assign_same_schema _ _ _ _ _ Hs1 H2) as Hs2.
  pose proof (assign_same_schema _ _ _ _ _ Hs2 H3) as Hs3.
  pose proof (assign_same_schema _ _ _ _ _ Hs3 H4) as Hs4.
  pose proof (assign_same_schema _ _ _ _ _ Hs4 H5) as Hs5.
  pose proof (assign_same_schema _ _ _ _ _ Hs5 H6) as Hs6.
  assert (S1 : var_schema <$> variables h !! "grid_center_lat" =
               Some (f8, ["grid_size"], Some units)) by (vm_compute; reflexivity).
  assert (S2 : var_schema <$> variables h !! "grid_center_lon" =
               Some (f8, ["grid_size"], Some units)) by (vm_compute; reflexivity).
  assert (S3 : var_schema <$> variables h !! "grid_dims" =
               Some (i4, ["grid_rank"], None)) by (vm_compute; reflexivity).
  assert (S5 : var_schema <$> variables h !! "grid_corner_lat" =
               Some (f8, ["grid_size"; "grid_corners"], Some units))
    by (vm_compute; reflexivity).
  assert (S6 : var_schema <$> variables h !! "grid_corner_lon" =
               Some (f8, ["grid_size"; "grid_corners"], Some units))
    by (vm_compute; reflexivity).
  assert (Sh1 : netCDF4.shape_of h ["grid_size"] = Ok [n]) by (vm_compute; reflexivity).
  assert (Sh2 : netCDF4.shape_of h ["grid_rank"] = Ok [2]) by (vm_compute; reflexivity).
  assert (Sh3 : netCDF4.shape_of h ["grid_size"; "grid_corners"] = Ok [n; 4])
    by (vm_compute; reflexivity).
  destruct (assign_data _ _ _ _ _ _ _ _ (same_schema_refl h) S1 H1)
    as (sh1 & dt1 & Hsh1 & Hfit1 & Hv1).
  destruct (assign_data _ _ _ _ _ _ _ _ Hs1 S2 H2) as (sh2 & dt2 & Hsh2 & Hfit2 & Hv2).
  destruct (assign_data _ _ _ _ _ _ _ _ Hs2 S3 H3) as (sh3 & dt3 & Hsh3 & Hfit3 & Hv3).
  destruct (assign_data _ _ _ _ _ _ _ _ Hs4 S5 H5) as (sh5 & dt5 & Hsh5 & Hfit5 & Hv5).
  destruct (assign_data _ _ _ _ _ _ _ _ Hs5 S6 H6) as (sh6 & dt6 & Hsh6 & Hfit6 & Hv6).
  rewrite Sh1 in Hsh1, Hsh2. rewrite Sh2 in Hsh3. rewrite Sh3 in Hsh5, Hsh6.
  injection Hsh1 as <-. injection Hsh2 as <-. injection Hsh3 as <-.
  injection Hsh5 as <-. injection Hsh6 as <-.
  pose proof (fit_FloatArray_shape _ _ _ Hfit1) as L1.
  pose proof (fit_FloatArray_shape _ _ _ Hfit2) as L2.
  pose proof (fit_FloatArray2_shape _ _ _ Hfit5) as L5.
  pose proof (fit_FloatArray2_shape _ _ _ Hfit6) as L6.
  apply fit_FloatArray in Hfit1, Hfit2. apply fit_FloatArray2 in Hfit5, Hfit6.
  apply fit_IntList in Hfit3 as [Hfit3 L3]. subst.
  split; [exact Hs6|].
  split.
  { rewrite (assign_other _ _ _ _ "grid_center_lat" H6) by discriminate.
    rewrite (assign_other _ _ _ _ "grid_center_lat" H5) by discriminate.
    rewrite (assign_other _ _ _ _ "grid_center_lat" H4) by discriminate.
    rewrite (assign_other _ _ _ _ "grid_center_lat" H3) by discriminate.
    rewrite (assign_other _ _ _ _ "grid_center_lat" H2) by discriminate.
    exact Hv1. }
  split.
  { rewrite (assign_other _ _ _ _ "grid_center_lon" H6) by discriminate.
    rewrite (assign_other _ _ _ _ "grid_center_lon" H5) by discriminate.
    rewrite (assign_other _ _ _ _ "grid_center_lon" H4) by discriminate.
    rewrite (assign_other _ _ _ _ "grid_center_lon" H3) by discriminate.
    exact Hv2. }
  split.
  { rewrite (assign_other _ _ _ _ "grid_dims" H6) by discriminate.
    rewrite (assign_other _ _ _ _ "grid_dims" H5) by discriminate.
    rewrite (assign_other _ _ _ _ "grid_dims" H4) by discriminate.
    exact Hv3. }
  split.
  { rewrite (assign_other _ _ _ _ "grid_corner_lat" H6) by discriminate.
    exact Hv5. }
  split; [exact Hv6|].
  injection L1 as L1. injection L2 as L2. injection L3 as L3.
  injection L5 as L5 L5'. injection L6 as L6 L6'.
  repeat split; congruence.
Qed.

Lemma rectangular_writes_total (n : nat) (units : string)
    (center_lat center_lon : list float) (grid_dims : list Z)
    (corner_lat corner_lon : ndarray2 float) :
  length center_lat = n -> length center_lon = n -> length grid_dims = 2 ->
  shape0 corner_lat = n -> shape1 corner_lat = 4 ->
  shape0 corner_lon = n -> shape1 corner_lon = 4 ->
  exists d1 d2 d3 d4 d5 d6,
    netCDF4.assign "grid_center_lat" (FloatArray center_lat) (scrip_header n 4 2 units) = Ok d1 /\
    netCDF4.assign "grid_center_lon" (FloatArray center_lon) d1 = Ok d2 /\
    netCDF4.assign "grid_dims" (IntList grid_dims) d2 = Ok d3 /\
    netCDF4.assign "grid_imask" (IntScalar 1) d3 = Ok d4 /\
    netCDF4.assign "grid_corner_lat" (FloatArray2 corner_lat) d4 = Ok d5 /\
    netCDF4.assign "grid_corner_lon" (FloatArray2 corner_lon) d5 = Ok d6.
Proof.
  intros L1 L2 L3 L5 L5' L6 L6'.
  set (h := scrip_header n 4 2 units).
  assert (Sh1 : netCDF4.shape_of h ["grid_size"] = Ok [n]) by (vm_compute; reflexivity).
  assert (Sh2 : netCDF4.shape_of h ["grid_rank"] = Ok [2]) by (vm_compute; reflexivity).
  assert (Sh3 : netCDF4.shape_of h ["grid_size"; "grid_corners"] = Ok [n; 4])
    by (vm_compute; reflexivity).
  destruct (assign_total h "grid_center_lat" (FloatArray center_lat) h
              f8 ["grid_size"] (Some units) _ (same_schema_refl h)
              ltac:(vm_compute; reflexivity) Sh1) as [d1 H1].
  { cbn [netCDF4.fit]. rewrite decide_True by exact L1. reflexivity. }
  pose proof (assign_same_schema _ _ _ _ _ (same_schema_refl h) H1) as Hs1.
  destruct (assign_total h "grid_center_lon" (FloatArray center_lon) d1
              f8 ["grid_size"] (Some units) _ Hs1
              ltac:(vm_compute; reflexivity) Sh1) as [d2 H2].
  { cbn [netCDF4.fit]. rewrite decide_True by exact L2. reflexivity. }
  pose proof (assign_same_schema _ _ _ _ _ Hs1 H2) as Hs2.
  destruct (assign_total h "grid_dims" (IntList grid_dims) d2
              i4 ["grid_rank"] None _ Hs2
              ltac:(vm_compute; reflexivity) Sh2) as [d3 H3].
  { cbn [netCDF4.fit]. rewrite decide_True by exact L3. reflexivity. }
  pose proof (assign_same_schema _ _ _ _ _ Hs2 H3) as Hs3.
  destruct (assign_total h "grid_imask" (IntScalar 1) d3
              i4 ["grid_size"] (Some "unitless") _ Hs3
              ltac:(vm_compute; reflexivity) Sh1) as [d4 H4]; [reflexivity|].
  pose proof (assign_same_schema _ _ _ _ _ Hs3 H4) as Hs4.
  destruct (assign_total h "grid_corner_lat" (FloatArray2 corner_lat) d4
              f8 ["grid_size"; "grid_corners"] (Some units) _ Hs4
              ltac:(vm_compute; reflexivity) Sh3) as [d5 H5].
  { cbn [netCDF4.fit]. rewrite decide_True by auto. reflexivity. }
  pose proof (assign_same_schema _ _ _ _ _ Hs4 H5) as Hs5.
  destruct (assign_total h "grid_corner_lon" (FloatArray2 corner_lon) d5
              f8 ["grid_size"; "grid_corners"] (Some units) _ Hs5
              ltac:(vm_compute; reflexivity) Sh3) as [d6 H6].
  { cbn [netCDF4.fit]. rewrite decide_True by auto. reflexivity. }
  exists d1, d2, d3, d4, d5, d6. auto 10.
Qed.

(** ** [LatLonGridDescriptor.to_scrip] on any grid *)

Lemma latlon_to_scrip_spec (self : LatLonGridDescriptor.t) :
  latlon_consistent self ->
  let nLat := length (LatLonGridDescriptor.lat self) in
  let nLon := length (LatLonGridDescriptor.lon self) in
  exists outFile center_lat center_lon corner_lat corner_lon,
    LatLonGridDescriptor.to_scrip self = Ok outFile /\
    dimensions outFile !! "grid_size" = Some (nLat * nLon) /\
    var_data <$> variables outFile !! "grid_dims" =
      Some (Ints [Z.of_nat nLon; Z.of_nat nLat]) /\
    var_data <$> variables outFile !! "grid_center_lat" = Some (Floats center_lat) /\
    var_data <$> variables outFile !! "grid_center_lon" = Some (Floats center_lon) /\
    var_data <$> variables outFile !! "grid_corner_lat" = Some (Floats2 corner_lat) /\
    var_data <$> variables outFile !! "grid_corner_lon" = Some (Floats2 corner_lon) /\
    ncattrs outFile !! "history" = Some (LatLonGridDescriptor.history self) /\
    (length center_lat = nLat * nLon /\ length center_lon = nLat * nLon /\
     shape0 corner_lat = nLat * nLon /\ shape0 corner_lon = nLat * nLon) /\
    forall r c la lo la0 la1 lo0 lo1,
      LatLonGridDescriptor.lat self !! r = Some la ->
      LatLonGridDescriptor.lon self !! c = Some lo ->
      LatLonGridDescriptor.latCorner self !! r = Some la0 ->
      LatLonGridDescriptor.latCorner self !! (r + 1) = Some la1 ->
      LatLonGridDescriptor.lonCorner self !! c = Some lo0 ->
      LatLonGridDescriptor.lonCorner self !! (c + 1) = Some lo1 ->
      center_lat !! (r * nLon + c) = Some la /\
      center_lon !! (r * nLon + c) = Some lo /\
      rows corner_lat !! (r * nLon + c) = Some [la0; la0; la1; la1] /\
      rows corner_lon !! (r * nLon + c) = Some [lo0; lo1; lo1; lo0].
Proof.
  intros [HlatC HlonC] nLat nLon.
  unfold LatLonGridDescriptor.to_scrip. rewrite create_scrip_new. cbn [bind].
  fold nLat nLon.
  pose proof (meshgrid_shape (LatLonGridDescriptor.lon self) (LatLonGridDescriptor.lat self))
    as Hcenters.
  pose proof (meshgrid_shape (LatLonGridDescriptor.lonCorner self)
                (LatLonGridDescriptor.latCorner self)) as Hcorners.
  pose proof (fun r c => meshgrid_at2 (LatLonGridDescriptor.lon self)
                (LatLonGridDescriptor.lat self) r c) as Hat.
  pose proof (fun r c => meshgrid_at2 (LatLonGridDescriptor.lonCorner self)
                (LatLonGridDescriptor.latCorner self) r c) as HatC.
  destruct (numpy.meshgrid (LatLonGridDescriptor.lon self) (LatLonGridDescriptor.lat self))
    as [Lon Lat].
  destruct (numpy.meshgrid (LatLonGridDescriptor.lonCorner self)
              (LatLonGridDescriptor.latCorner self)) as [LonCorner LatCorner].
  cbn [fst snd] in Hat, HatC.
  destruct Hcenters as ((HLon0 & HLon1 & HLonR) & (HLat0 & HLat1 & HLatR)).
  destruct Hcorners as ((HLonC0 & HLonC1 & HLonCR) & (HLatC0 & HLatC1 & HLatCR)).
  fold nLat nLon in HLon0, HLon1, HLat0, HLat1.
  destruct (unwrap_corners_rows LatCorner nLat nLon HLatCR)
    as (klat & Hklat & Hklat0 & Hklat1 & Hklat_rows); [lia..|].
  destruct (unwrap_corners_rows LonCorner nLat nLon HLonCR)
    as (klon & Hklon & Hklon0 & Hklon1 & Hklon_rows); [lia..|].
  destruct (rectangular_writes_total (nLat * nLon) (LatLonGridDescriptor.units self)
              (numpy.flat Lat) (numpy.flat Lon) [Z.of_nat nLon; Z.of_nat nLat] klat klon)
    as (d1 & d2 & d3 & d4 & d5 & d6 & H1 & H2 & H3 & H4 & H5 & H6);
    try assumption; try reflexivity.
  { rewrite flat_length by assumption. lia. }
  { rewrite flat_length by assumption. lia. }
  rewrite H1. cbn [bind]. rewrite H2. cbn [bind]. rewrite H3. cbn [bind].
  rewrite H4. cbn [bind]. rewrite Hklat. cbn [bind]. rewrite H5. cbn [bind].
  rewrite Hklon. cbn [bind]. rewrite H6. cbn [bind].
  destruct (rectangular_writes_inv _ _ _ _ _ _ _ _ _ _ _ _ _ H1 H2 H3 H4 H5 H6)
    as ((Hdims & _) & V1 & V2 & V3 & V5 & V6 & _).
  exists (netCDF4.setncattr "history" (LatLonGridDescriptor.history self) d6),
    (numpy.flat Lat), (numpy.flat Lon), klat, klon.
  rewrite !setncattr_variables, V1, V2, V3, V5, V6.
  split; [reflexivity|].
  split; [cbn [dimensions netCDF4.setncattr]; rewrite Hdims; vm_compute; reflexivity|].
  do 5 (split; [reflexivity|]).
  split; [apply setncattr_lookup|].
  split.
  { rewrite !flat_length by assumption. repeat split; lia. }
  intros r c la lo la0 la1 lo0 lo1 Hla Hlo Hla0 Hla1 Hlo0 Hlo1.
  assert (Hr : r < nLat) by (eapply lookup_lt_Some; exact Hla).
  assert (Hc : c < nLon) by (eapply lookup_lt_Some; exact Hlo).
  destruct (Hat r c lo la Hlo Hla) as [HatLon HatLat].
  unfold shape1 in *.
  split; [|split; [|split]].
  - rewrite <- HLat1. rewrite flat_lookup by (try assumption; lia). exact HatLat.
  - rewrite <- HLon1. rewrite flat_lookup by (try assumption; lia). exact HatLon.
  - apply Hklat_rows; try assumption.
    + exact (proj2 (HatC r c lo0 la0 Hlo0 Hla0)).
    + exact (proj2 (HatC r (c + 1) lo1 la0 Hlo1 Hla0)).
    + exact (proj2 (HatC (r + 1) (c + 1) lo1 la1 Hlo1 Hla1)).
    + exact (proj2 (HatC (r + 1) c lo0 la1 Hlo0 Hla1)).
  - apply Hklon_rows; try assumption.
    + exact (proj1 (HatC r c lo0 la0 Hlo0 Hla0)).
    + exact (proj1 (HatC r (c + 1) lo1 la0 Hlo1 Hla0)).
    + exact (proj1 (HatC (r + 1) (c + 1) lo1 la1 Hlo1 Hla1)).
    + exact (proj1 (HatC (r + 1) c lo0 la1 Hlo0 Hla1)).
Qed.

Lemma interp_extrap_corner_Ok_inv (inField outField : list float) :
  _interp_extrap_corner inField = Ok outField ->
  2 <= length inField /\ length outField = length inField + 1.
Proof.
  intros H. pose proof (interp_extrap_corner_cases inField) as Hc.
  destruct inField as [|c0 [|c1 rest]].
  - congruence.
  - congruence.
  - destruct Hc as (out & Hout & Hlen). rewrite H in Hout. injection Hout as <-.
    split; [simpl; lia | exact Hlen].
Qed.

Lemma interp_extrap_corner_total (inField : list float) :
  2 <= length inField -> exists outField, _interp_extrap_corner inField = Ok outField.
Proof.
  intros Hlen. pose proof (interp_extrap_corner_cases inField) as Hc.
  destruct inField as [|c0 [|c1 rest]]; [simpl in Hlen; lia..|].
  destruct Hc as (out & Hout & _). eauto.
Qed.

(** ** [LatLonGridDescriptor.read] and [create] *)

(** What a successful [read] has stored. *)
Lemma latlon_read_inv (ds : xarray.Dataset) (latVarName lonVarName : string)
    (argv : list string) (self : LatLonGridDescriptor.t) :
  LatLonGridDescriptor.read ds latVarName lonVarName argv = Ok self ->
  exists latVar lonVar latUnits latDim lonDim latDims lonDims,
    xarray.data_vars ds !! latVarName = Some latVar /\
    xarray.data_vars ds !! lonVarName = Some lonVar /\
    xarray.units latVar = Some latUnits /\
    xarray.dims latVar = latDim :: latDims /\
    xarray.dims lonVar = lonDim :: lonDims /\
    LatLonGridDescriptor.lat self = xarray.values latVar /\
    LatLonGridDescriptor.lon self = xarray.values lonVar /\
    _interp_extrap_corner (xarray.values latVar) = Ok (LatLonGridDescriptor.latCorner self) /\
    _interp_extrap_corner (xarray.values lonVar) = Ok (LatLonGridDescriptor.lonCorner self) /\
    LatLonGridDescriptor.dims self = [latDim; lonDim] /\
    LatLonGridDescriptor.regional self = false /\
    LatLonGridDescriptor.history self =
      match xarray.attrs_history ds with
      | Some history => AttrStr (join newline [history; join " " argv])
      | None => AttrList argv
      end.
Proof.
  unfold LatLonGridDescriptor.read, xarray.getitem, xarray.get_units. intros H.
  destruct (xarray.data_vars ds !! latVarName) as [latVar|]; [|discriminate].
  cbn [bind] in H.
  destruct (xarray.data_vars ds !! lonVarName) as [lonVar|]; [|discriminate].
  cbn [bind] in H.
  destruct (xarray.units latVar) as [latUnits|] eqn:Hu; [|discriminate].
  cbn [bind] in H.
  destruct (xarray.dims latVar) as [|latDim latDims] eqn:Hdlat; [discriminate|].
  destruct (xarray.dims lonVar) as [|lonDim lonDims] eqn:Hdlon; [discriminate|].
  change (numpy.getitem (latDim :: latDims) 0) with (Ok latDim) in H.
  change (numpy.getitem (lonDim :: lonDims) 0) with (Ok lonDim) in H.
  cbn [bind LatLonGridDescriptor._set_coords] in H.
  inv_bind H. injection H as <-.
  exists latVar, lonVar, latUnits, latDim, lonDim, latDims, lonDims.
  cbn. repeat split; assumption || reflexivity.
Qed.

Lemma latlon_read_consistent ds latVarName lonVarName argv self :
  LatLonGridDescriptor.read ds latVarName lonVarName argv = Ok self ->
  latlon_consistent self.
Proof.
  intros H. apply latlon_read_inv in H
    as (latVar & lonVar & latUnits & latDim & lonDim & latDims & lonDims &
        _ & _ & _ & _ & _ & Hlat & Hlon & Hklat & Hklon & _).
  apply interp_extrap_corner_Ok_inv in Hklat as [_ Hklat].
  apply interp_extrap_corner_Ok_inv in Hklon as [_ Hklon].
  split; congruence.
Qed.

Lemma latlon_read_total (ds : xarray.Dataset) (latVarName lonVarName : string)
    (argv : list string) latVar lonVar :
  xarray.data_vars ds !! latVarName = Some latVar ->
  xarray.data_vars ds !! lonVarName = Some lonVar ->
  is_Some (xarray.units latVar) ->
  xarray.dims latVar <> [] -> xarray.dims lonVar <> [] ->
  2 <= length (xarray.values latVar) -> 2 <= length (xarray.values lonVar) ->
  exists self, LatLonGridDescriptor.read ds latVarName lonVarName argv = Ok self.
Proof.
  intros Hlat Hlon [u Hu] Hdlat Hdlon Hnlat Hnlon.
  unfold LatLonGridDescriptor.read, xarray.getitem, xarray.get_units.
  rewrite Hlat. cbn [bind]. rewrite Hlon. cbn [bind]. rewrite Hu. cbn [bind].
  destruct (xarray.dims latVar) as [|latDim latDims]; [congruence|].
  destruct (xarray.dims lonVar) as [|lonDim lonDims]; [congruence|].
  change (numpy.getitem (latDim :: latDims) 0) with (Ok latDim).
  change (numpy.getitem (lonDim :: lonDims) 0) with (Ok lonDim).
  cbn [bind LatLonGridDescriptor._set_coords].
  destruct (interp_extrap_corner_total _ Hnlon) as [klon ->].
  destruct (interp_extrap_corner_total _ Hnlat) as [klat ->].
  cbn [bind]. eauto.
Qed.

(** The centers [create] derives from corners: the midpoints. *)
Lemma centers_eq (corner : list float) :
  LatLonGridDescriptor.centers corner =
    Ok (numpy.scale 0.5 (zip_with PrimFloat.add (take (length corner - 1) corner)
                                                (drop 1 corner))).
Proof.
  unfold LatLonGridDescriptor.centers, numpy.add.
  rewrite slice_0_m1, slice_1_None.
  rewrite broadcast2_same_length by (rewrite length_take, length_drop; lia).
  reflexivity.
Qed.

Lemma centers_spec (corner : list float) :
  exists center,
    LatLonGridDescriptor.centers corner = Ok center /\
    length center = length corner - 1 /\
    forall i a b, corner !! i = Some a -> corner !! (i + 1) = Some b ->
                  center !! i = Some (0.5 * (a + b))%float.
Proof.
  eexists. split; [apply centers_eq|]. split.
  - unfold numpy.scale. rewrite length_map, length_zip_with, length_take, length_drop. lia.
  - intros i a b Ha Hb. unfold numpy.scale.
    assert (Hi : i + 1 < length corner) by (eapply lookup_lt_Some; exact Hb).
    rewrite list_lookup_fmap, lookup_zip_with.
    rewrite lookup_take_lt by lia. rewrite Ha. cbn.
    rewrite lookup_drop. replace (1 + i) with (i + 1) by lia. rewrite Hb. reflexivity.
Qed.

Lemma latlon_create_spec (latCorner lonCorner : list float) (units : string)
    (argv : list string) :
  exists self,
    LatLonGridDescriptor.create latCorner lonCorner units argv = Ok self /\
    LatLonGridDescriptor.latCorner self = latCorner /\
    LatLonGridDescriptor.lonCorner self = lonCorner /\
    LatLonGridDescriptor.units self = units /\
    LatLonGridDescriptor.history self = AttrList argv /\
    length (LatLonGridDescriptor.lat self) = length latCorner - 1 /\
    length (LatLonGridDescriptor.lon self) = length lonCorner - 1 /\
    (forall i a b, latCorner !! i = Some a -> latCorner !! (i + 1) = Some b ->
                   LatLonGridDescriptor.lat self !! i = Some (0.5 * (a + b))%float) /\
    (forall i a b, lonCorner !! i = Some a -> lonCorner !! (i + 1) = Some b ->
                   LatLonGridDescriptor.lon self !! i = Some (0.5 * (a + b))%float).
Proof.
  unfold LatLonGridDescriptor.create.
  destruct (centers_spec lonCorner) as (lon & -> & Hlon_len & Hlon).
  destruct (centers_spec latCorner) as (lat & -> & Hlat_len & Hlat).
  cbn [bind LatLonGridDescriptor._set_coords].
  eexists. split; [reflexivity|]. cbn. auto 10.
Qed.

(** ** The mesh export against its entries *)

Lemma mesh_export_Ok_inv {pow : float -> float -> float}
    (inFile : MpasMeshDescriptor.MeshFile) argv outFile :
  MpasMeshDescriptor.shapes_ok inFile = true ->
  MpasMeshDescriptor.to_scrip pow inFile argv = Ok outFile ->
  exists grid_corner_lat grid_corner_lon,
    var_data <$> variables outFile !! "grid_corner_lat" = Some (Floats2 grid_corner_lat) /\
    var_data <$> variables outFile !! "grid_corner_lon" = Some (Floats2 grid_corner_lon) /\
    corners_upto inFile (MpasMeshDescriptor.maxEdges inFile)
      (grid_corner_lat, grid_corner_lon).
Proof.
  intros Hshapes Hrun.
  destruct (mesh_to_scrip_inv inFile argv outFile Hrun)
    as (_ & _ & (lat & lon & Hgrid & Hdlat & Hdlon) & _).
  exists lat, lon. split; [exact Hdlat|]. split; [exact Hdlon|].
  destruct (grid_corners_cases inFile Hshapes) as [(grid & Hgrid' & Hinv)|(e & Hraise & _)].
  - rewrite Hgrid in Hgrid'. injection Hgrid' as <-. exact Hinv.
  - congruence.
Qed.


(** The id a cell without edges shows: the one in the last slot of its row. *)
Lemma corner_value_no_edges (inFile : MpasMeshDescriptor.MeshFile)
    (coordinate : list float) c p row v :
  MpasMeshDescriptor.nEdgesOnCell inFile !! c = Some 0%Z ->
  MpasMeshDescriptor.verticesOnCell inFile !! c = Some row ->
  last row = Some v ->
  MpasMeshDescriptor.corner_value inFile coordinate c p =
    numpy.getitem coordinate (v - 1)%Z.
Proof.
  intros Hk Hrow Hlast. unfold MpasMeshDescriptor.corner_value.
  rewrite (getitem_nonneg _ c 0%Z Hk). cbn [bind].
  rewrite (getitem_nonneg _ c row Hrow). cbn [bind].
  replace (Z.min (0 - 1) (Z.of_nat p)) with (- Z.of_nat 1)%Z by lia.
  rewrite last_lookup in Hlast.
  assert (Hlen : 1 <= length row).
  { apply lookup_lt_Some in Hlast. lia. }
  rewrite (getitem_from_end row 1 v); [reflexivity|lia|exact Hlen|].
  rewrite <- Hlast. f_equal. lia.
Qed.

Lemma fit_IntScalar shape z data :
  netCDF4.fit shape (IntScalar z) = Ok data ->
  exists n, shape = [n] /\ data = Ints (replicate n z).
Proof.
  destruct shape as [|n [|k shape]]; simpl; try discriminate.
  intros H. exists n. split; congruence.
Qed.

(** The centers, the dimensions and the schema a finished mesh export has. *)
Lemma mesh_to_scrip_contents {pow : float -> float -> float}
    (inFile : MpasMeshDescriptor.MeshFile) argv outFile :
  MpasMeshDescriptor.to_scrip pow inFile argv = Ok outFile ->
  same_schema (mesh_header (MpasMeshDescriptor.nCells inFile)
                 (MpasMeshDescriptor.maxEdges inFile)) outFile /\
  var_data <$> variables outFile !! "grid_center_lat" =
    Some (Floats (MpasMeshDescriptor.latCell inFile)) /\
  var_data <$> variables outFile !! "grid_center_lon" =
    Some (Floats (MpasMeshDescriptor.lonCell inFile)) /\
  var_data <$> variables outFile !! "grid_dims" =
    Some (Ints [Z.of_nat (MpasMeshDescriptor.nCells inFile)]) /\
  length (MpasMeshDescriptor.latCell inFile) = MpasMeshDescriptor.nCells inFile /\
  length (MpasMeshDescriptor.lonCell inFile) = MpasMeshDescriptor.nCells inFile /\
  length (MpasMeshDescriptor.areaCell inFile) = MpasMeshDescriptor.nCells inFile.
Proof.
  unfold MpasMeshDescriptor.to_scrip. rewrite create_scrip_new. cbn [bind].
  destruct (mesh_header_steps (MpasMeshDescriptor.nCells inFile)
              (MpasMeshDescriptor.maxEdges inFile)) as (ds & Hcreate & Hunits).
  rewrite Hcreate. cbn [bind]. rewrite Hunits. cbn [bind].
  intros H. inv_bind H. injection H as <-.
  match goal with
  | H1 : netCDF4.assign "grid_area" _ _ = Ok ?d1,
    H2 : netCDF4.assign "grid_center_lat" _ ?d1 = Ok ?d2,
    H3 : netCDF4.assign "grid_center_lon" _ ?d2 = Ok ?d3,
    H4 : netCDF4.assign "grid_dims" _ ?d3 = Ok ?d4,
    H5 : netCDF4.assign "grid_imask" _ ?d4 = Ok ?d5,
    H6 : netCDF4.assign "grid_corner_lat" _ ?d5 = Ok ?d6,
    H7 : netCDF4.assign "grid_corner_lon" _ ?d6 = Ok ?d7 |- _ =>
      pose proof (assign_same_schema _ _ _ _ _ (same_schema_refl _) H1) as Hs1;
      pose proof (assign_same_schema _ _ _ _ _ Hs1 H2) as Hs2;
      pose proof (assign_same_schema _ _ _ _ _ Hs2 H3) as Hs3;
      pose proof (assign_same_schema _ _ _ _ _ Hs3 H4) as Hs4;
      pose proof (assign_same_schema _ _ _ _ _ Hs4 H5) as Hs5;
      pose proof (assign_same_schema _ _ _ _ _ Hs5 H6) as Hs6;
      pose proof (assign_same_schema _ _ _ _ _ Hs6 H7) as Hs7;
      rename H1 into Harea, H2 into Hclat, H3 into Hclon, H4 into Hdims,
             H5 into Hmask, H6 into Hklat, H7 into Hklon
  end.
  set (h := mesh_header _ _) in *.
  assert (Sa : var_schema <$> variables h !! "grid_area" =
               Some (f8, ["grid_size"], Some "radian^2")) by (vm_compute; reflexivity).
  assert (S1 : var_schema <$> variables h !! "grid_center_lat" =
               Some (f8, ["grid_size"], Some "radians")) by (vm_compute; reflexivity).
  assert (S2 : var_schema <$> variables h !! "grid_center_lon" =
               Some (f8, ["grid_size"], Some "radians")) by (vm_compute; reflexivity).
  assert (S3 : var_schema <$> variables h !! "grid_dims" =
               Some (i4, ["grid_rank"], None)) by (vm_compute; reflexivity).
  assert (Sh1 : netCDF4.shape_of h ["grid_size"] = Ok [MpasMeshDescriptor.nCells inFile])
    by (vm_compute; reflexivity).
  assert (Sh2 : netCDF4.shape_of h ["grid_rank"] = Ok [1]) by (vm_compute; reflexivity).
  destruct (assign_data _ _ _ _ _ _ _ _ (same_schema_refl h) Sa Harea)
    as (sha & dta & Hsha & Hfita & _).
  destruct (assign_data _ _ _ _ _ _ _ _ Hs1 S1 Hclat) as (sh1 & dt1 & Hsh1 & Hfit1 & Hv1).
  destruct (assign_data _ _ _ _ _ _ _ _ Hs2 S2 Hclon) as (sh2 & dt2 & Hsh2 & Hfit2 & Hv2).
  destruct (assign_data _ _ _ _ _ _ _ _ Hs3 S3 Hdims) as (sh3 & dt3 & Hsh3 & Hfit3 & Hv3).
  rewrite Sh1 in Hsha, Hsh1, Hsh2. rewrite Sh2 in Hsh3.
  injection Hsha as <-. injection Hsh1 as <-. injection Hsh2 as <-. injection Hsh3 as <-.
  pose proof (fit_MaskedFloatArray_shape _ _ _ Hfita) as La.
  pose proof (fit_FloatArray_shape _ _ _ Hfit1) as L1.
  pose proof (fit_FloatArray_shape _ _ _ Hfit2) as L2.
  apply fit_FloatArray in Hfit1, Hfit2.
  apply fit_IntScalar in Hfit3 as (m & Hm & ->). injection Hm as <-. subst dt1 dt2.
  unfold numpy.ma.divide_scalar in La. rewrite length_map in La.
  injection La as La. injection L1 as L1. injection L2 as L2.
  rewrite !setncattr_variables.
  split; [exact Hs7|].
  split.
  { rewrite (assign_other _ _ _ _ "grid_center_lat" Hklon) by discriminate.
    rewrite (assign_other _ _ _ _ "grid_center_lat" Hklat) by discriminate.
    rewrite (assign_other _ _ _ _ "grid_center_lat" Hmask) by discriminate.
    rewrite (assign_other _ _ _ _ "grid_center_lat" Hdims) by discriminate.
    rewrite (assign_other _ _ _ _ "grid_center_lat" Hclon) by discriminate.
    rewrite Hv1. reflexivity. }
  split.
  { rewrite (assign_other _ _ _ _ "grid_center_lon" Hklon) by discriminate.
    rewrite (assign_other _ _ _ _ "grid_center_lon" Hklat) by discriminate.
    rewrite (assign_other _ _ _ _ "grid_center_lon" Hmask) by discriminate.
    rewrite (assign_other _ _ _ _ "grid_center_lon" Hdims) by discriminate.
    rewrite Hv2. reflexivity. }
  split.
  { rewrite (assign_other _ _ _ _ "grid_dims" Hklon) by discriminate.
    rewrite (assign_other _ _ _ _ "grid_dims" Hklat) by discriminate.
    rewrite (assign_other _ _ _ _ "grid_dims" Hmask) by discriminate.
    rewrite Hv3. reflexivity. }
  repeat split; congruence.
Qed.

(** ** What a finished rectangular export holds *)

Lemma latlon_to_scrip_inv (self : LatLonGridDescriptor.t) outFile :
  LatLonGridDescriptor.to_scrip self = Ok outFile ->
  let nLat := length (LatLonGridDescriptor.lat self) in
  let nLon := length (LatLonGridDescriptor.lon self) in
  let (Lon, Lat) := numpy.meshgrid (LatLonGridDescriptor.lon self)
                                   (LatLonGridDescriptor.lat self) in
  let (LonCorner, LatCorner) := numpy.meshgrid (LatLonGridDescriptor.lonCorner self)
                                               (LatLonGridDescriptor.latCorner self) in
  exists corner_lat corner_lon,
    _unwrap_corners LatCorner = Ok corner_lat /\
    _unwrap_corners LonCorner = Ok corner_lon /\
    same_schema (scrip_header (nLat * nLon) 4 2 (LatLonGridDescriptor.units self)) outFile /\
    var_data <$> variables outFile !! "grid_center_lat" = Some (Floats (numpy.flat Lat)) /\
    var_data <$> variables outFile !! "grid_center_lon" = Some (Floats (numpy.flat Lon)) /\
    var_data <$> variables outFile !! "grid_dims" =
      Some (Ints [Z.of_nat nLon; Z.of_nat nLat]) /\
    var_data <$> variables outFile !! "grid_corner_lat" = Some (Floats2 corner_lat) /\
    var_data <$> variables outFile !! "grid_corner_lon" = Some (Floats2 corner_lon) /\
    ncattrs outFile !! "history" = Some (LatLonGridDescriptor.history self).
Proof.
  intros H. cbv zeta.
  unfold LatLonGridDescriptor.to_scrip in H. rewrite create_scrip_new in H.
  cbn [bind] in H.
  destruct (numpy.meshgrid (LatLonGridDescriptor.lon self) (LatLonGridDescriptor.lat self))
    as [Lon Lat].
  destruct (numpy.meshgrid (LatLonGridDescriptor.lonCorner self)
              (LatLonGridDescriptor.latCorner self)) as [LonCorner LatCorner].
  inv_bind H. injection H as <-.
  match goal with
  | H1 : netCDF4.assign "grid_center_lat" _ _ = Ok ?d1,
    H2 : netCDF4.assign "grid_center_lon" _ ?d1 = Ok ?d2,
    H3 : netCDF4.assign "grid_dims" _ ?d2 = Ok ?d3,
    H4 : netCDF4.assign "grid_imask" _ ?d3 = Ok ?d4,
    H5 : netCDF4.assign "grid_corner_lat" (FloatArray2 ?klat) ?d4 = Ok ?d5,
    H6 : netCDF4.assign "grid_corner_lon" (FloatArray2 ?klon) ?d5 = Ok ?d6 |- _ =>
      destruct (rectangular_writes_inv _ _ _ _ _ _ _ _ _ _ _ _ _ H1 H2 H3 H4 H5 H6)
        as (Hs & V1 & V2 & V3 & V5 & V6 & _);
      exists klat, klon
  end.
  rewrite !setncattr_variables, V1, V2, V3, V5, V6.
  repeat split; try assumption; try reflexivity.
  - apply Hs.
  - apply Hs.
  - apply setncattr_lookup.
Qed.

Section Projected.
Context {Proj : Type}.
Variable transform :
  Proj -> Proj -> ndarray2 float -> ndarray2 float ->
  result (ndarray2 float * ndarray2 float).
Variable latlong_WGS84 : Proj.

Lemma project_to_lat_lon_inv p q X Y Lat Lon :
  ProjectionGridDescriptor._project_to_lat_lon Proj transform p q X Y = Ok (Lat, Lon) ->
  transform p q X Y = Ok (Lon, Lat).
Proof.
  unfold ProjectionGridDescriptor._project_to_lat_lon. intros H.
  destruct (transform p q X Y) as [[Lon' Lat']|e]; [|discriminate].
  cbn in H. congruence.
Qed.

Lemma projection_to_scrip_inv (self : ProjectionGridDescriptor.t Proj) outFile :
  ProjectionGridDescriptor.to_scrip Proj transform self = Ok outFile ->
  let p := ProjectionGridDescriptor.projection Proj self in
  let q := ProjectionGridDescriptor.latLonProjection Proj self in
  let x := ProjectionGridDescriptor.x Proj self in
  let y := ProjectionGridDescriptor.y Proj self in
  let xCorner := ProjectionGridDescriptor.xCorner Proj self in
  let yCorner := ProjectionGridDescriptor.yCorner Proj self in
  exists Lon Lat LonCorner LatCorner corner_lat corner_lon,
    transform p q (fst (numpy.meshgrid x y)) (snd (numpy.meshgrid x y)) = Ok (Lon, Lat) /\
    transform p q (fst (numpy.meshgrid xCorner yCorner)) (snd (numpy.meshgrid xCorner yCorner)) =
      Ok (LonCorner, LatCorner) /\
    _unwrap_corners LatCorner = Ok corner_lat /\
    _unwrap_corners LonCorner = Ok corner_lon /\
    same_schema (scrip_header (length x * length y) 4 2 "degrees") outFile /\
    var_data <$> variables outFile !! "grid_center_lat" = Some (Floats (numpy.flat Lat)) /\
    var_data <$> variables outFile !! "grid_center_lon" = Some (Floats (numpy.flat Lon)) /\
    var_data <$> variables outFile !! "grid_dims" =
      Some (Ints [Z.of_nat (length x); Z.of_nat (length y)]) /\
    var_data <$> variables outFile !! "grid_corner_lat" = Some (Floats2 corner_lat) /\
    var_data <$> variables outFile !! "grid_corner_lon" = Some (Floats2 corner_lon) /\
    ncattrs outFile !! "history" = Some (ProjectionGridDescriptor.history Proj self).
Proof.
  intros H. cbv zeta.
  unfold ProjectionGridDescriptor.to_scrip in H. rewrite create_scrip_new in H.
  cbn [bind] in H.
  destruct (numpy.meshgrid (ProjectionGridDescriptor.x Proj self)
              (ProjectionGridDescriptor.y Proj self)) as [X Y].
  destruct (numpy.meshgrid (ProjectionGridDescriptor.xCorner Proj self)
              (ProjectionGridDescriptor.yCorner Proj self)) as [XCorner YCorner].
  cbn [fst snd].
  inv_bind H. injection H as <-.
  match goal with
  | T1 : ProjectionGridDescriptor._project_to_lat_lon _ _ _ _ X Y = Ok (?Lat, ?Lon),
    T2 : ProjectionGridDescriptor._project_to_lat_lon _ _ _ _ XCorner YCorner =
           Ok (?LatC, ?LonC),
    H1 : netCDF4.assign "grid_center_lat" _ _ = Ok ?d1,
    H2 : netCDF4.assign "grid_center_lon" _ ?d1 = Ok ?d2,
    H3 : netCDF4.assign "grid_dims" _ ?d2 = Ok ?d3,
    H4 : netCDF4.assign "grid_imask" _ ?d3 = Ok ?d4,
    H5 : netCDF4.assign "grid_corner_lat" (FloatArray2 ?klat) ?d4 = Ok ?d5,
    H6 : netCDF4.assign "grid_corner_lon" (FloatArray2 ?klon) ?d5 = Ok ?d6 |- _ =>
      destruct (rectangular_writes_inv _ _ _ _ _ _ _ _ _ _ _ _ _ H1 H2 H3 H4 H5 H6)
        as (Hs & V1 & V2 & V3 & V5 & V6 & _);
      apply project_to_lat_lon_inv in T1, T2;
      exists Lon, Lat, LonC, LatC, klat, klon
  end.
  rewrite !setncattr_variables, V1, V2, V3, V5, V6.
  repeat split; try assumption; try reflexivity.
  - apply Hs.
  - apply Hs.
  - apply setncattr_lookup.
Qed.

(** [_set_coords] on a projected grid: it asks the projection first. *)
Lemma projection_set_coords_inv p q x y xVarName yVarName xDimName yDimName coords dims :
  ProjectionGridDescriptor._set_coords Proj transform p q x y
    xVarName yVarName xDimName yDimName = Ok (coords, dims) ->
  exists Lon Lat,
    transform p q (fst (numpy.meshgrid x y)) (snd (numpy.meshgrid x y)) = Ok (Lon, Lat) /\
    dims = [xDimName; yDimName] /\
    coords = <["lon" := Coord [xDimName; yDimName] (Data2 Lon) "degrees"]>
               (<["lat" := Coord [xDimName; yDimName] (Data2 Lat) "degrees"]>
                  (<[yVarName := Coord [yDimName] (Data1 y) "meters"]>
                     (<[xVarName := Coord [xDimName] (Data1 x) "meters"]> ∅))).
Proof.
  unfold ProjectionGridDescriptor._set_coords. intros H.
  destruct (numpy.meshgrid x y) as [X Y]. cbn [fst snd].
  inv_bind H. apply project_to_lat_lon_inv in Hstep.
  injection H as <- <-. eauto.
Qed.

Lemma projection_create_inv p x y argv self :
  ProjectionGridDescriptor.create Proj transform latlong_WGS84 p x y argv = Ok self ->
  (exists Lon Lat,
      transform p latlong_WGS84 (fst (numpy.meshgrid x y)) (snd (numpy.meshgrid x y)) =
        Ok (Lon, Lat) /\
      ProjectionGridDescriptor.coords Proj self =
        <["lon" := Coord ["x"; "y"] (Data2 Lon) "degrees"]>
          (<["lat" := Coord ["x"; "y"] (Data2 Lat) "degrees"]>
             (<["y" := Coord ["y"] (Data1 y) "meters"]>
                (<["x" := Coord ["x"] (Data1 x) "meters"]> ∅)))) /\
  ProjectionGridDescriptor.projection Proj self = p /\
  ProjectionGridDescriptor.latLonProjection Proj self = latlong_WGS84 /\
  ProjectionGridDescriptor.x Proj self = x /\
  ProjectionGridDescriptor.y Proj self = y /\
  _interp_extrap_corner x = Ok (ProjectionGridDescriptor.xCorner Proj self) /\
  _interp_extrap_corner y = Ok (ProjectionGridDescriptor.yCorner Proj self) /\
  ProjectionGridDescriptor.dims Proj self = ["x"; "y"] /\
  ProjectionGridDescriptor.history Proj self = AttrList argv.
Proof.
  unfold ProjectionGridDescriptor.create. intros H. inv_bind H.
  apply projection_set_coords_inv in Hstep as (Lon & Lat & Ht & -> & ->).
  injection H as <-. cbn. repeat split; try assumption; try reflexivity. eauto.
Qed.

Lemma projection_create_total p x y argv Lon Lat :
  transform p latlong_WGS84 (fst (numpy.meshgrid x y)) (snd (numpy.meshgrid x y)) =
    Ok (Lon, Lat) ->
  2 <= length x -> 2 <= length y ->
  exists self, ProjectionGridDescriptor.create Proj transform latlong_WGS84 p x y argv = Ok self.
Proof.
  intros Ht Hx Hy.
  unfold ProjectionGridDescriptor.create, ProjectionGridDescriptor._set_coords,
    ProjectionGridDescriptor._project_to_lat_lon.
  destruct (numpy.meshgrid x y) as [X Y]. cbn [fst snd] in Ht.
  rewrite Ht. cbn [bind].
  destruct (interp_extrap_corner_total _ Hx) as [kx ->].
  destruct (interp_extrap_corner_total _ Hy) as [ky ->].
  cbn [bind]. eauto.
Qed.

Lemma projection_create_transform_first p x y argv e :
  transform p latlong_WGS84 (fst (numpy.meshgrid x y)) (snd (numpy.meshgrid x y)) = Raise e ->
  ProjectionGridDescriptor.create Proj transform latlong_WGS84 p x y argv = Raise e.
Proof.
  intros Ht.
  unfold ProjectionGridDescriptor.create, ProjectionGridDescriptor._set_coords,
    ProjectionGridDescriptor._project_to_lat_lon.
  destruct (numpy.meshgrid x y) as [X Y]. cbn [fst snd] in Ht.
  rewrite Ht. reflexivity.
Qed.

End Projected.

(** A projected grid whose transform keeps the shape of its arguments. *)
Lemma projection_to_scrip_spec {Proj : Type}
    (transform : Proj -> Proj -> ndarray2 float -> ndarray2 float ->
                 result (ndarray2 float * ndarray2 float))
    (self : ProjectionGridDescriptor.t Proj) (Lon Lat LonCorner LatCorner : ndarray2 float) :
  let p := ProjectionGridDescriptor.projection Proj self in
  let q := ProjectionGridDescriptor.latLonProjection Proj self in
  let x := ProjectionGridDescriptor.x Proj self in
  let y := ProjectionGridDescriptor.y Proj self in
  let xCorner := ProjectionGridDescriptor.xCorner Proj self in
  let yCorner := ProjectionGridDescriptor.yCorner Proj self in
  length xCorner = length x + 1 -> length yCorner = length y + 1 ->
  transform p q (fst (numpy.meshgrid x y)) (snd (numpy.meshgrid x y)) = Ok (Lon, Lat) ->
  transform p q (fst (numpy.meshgrid xCorner yCorner)) (snd (numpy.meshgrid xCorner yCorner)) =
    Ok (LonCorner, LatCorner) ->
  (rectangular Lon /\ shape0 Lon = length y /\ shape1 Lon = length x) ->
  (rectangular Lat /\ shape0 Lat = length y /\ shape1 Lat = length x) ->
  (rectangular LonCorner /\ shape0 LonCorner = length y + 1 /\
   shape1 LonCorner = length x + 1) ->
  (rectangular LatCorner /\ shape0 LatCorner = length y + 1 /\
   shape1 LatCorner = length x + 1) ->
  exists outFile corner_lat corner_lon,
    ProjectionGridDescriptor.to_scrip Proj transform self = Ok outFile /\
    var_data <$> variables outFile !! "grid_center_lat" = Some (Floats (numpy.flat Lat)) /\
    var_data <$> variables outFile !! "grid_center_lon" = Some (Floats (numpy.flat Lon)) /\
    var_data <$> variables outFile !! "grid_dims" =
      Some (Ints [Z.of_nat (length x); Z.of_nat (length y)]) /\
    var_data <$> variables outFile !! "grid_corner_lat" = Some (Floats2 corner_lat) /\
    var_data <$> variables outFile !! "grid_corner_lon" = Some (Floats2 corner_lon) /\
    forall r c, r < length y -> c < length x ->
      rows corner_lat !! (r * length x + c) =
        (a0 ← at2 LatCorner r c; a1 ← at2 LatCorner r (c + 1);
         a2 ← at2 LatCorner (r + 1) (c + 1); a3 ← at2 LatCorner (r + 1) c;
         Some [a0; a1; a2; a3]) /\
      rows corner_lon !! (r * length x + c) =
        (a0 ← at2 LonCorner r c; a1 ← at2 LonCorner r (c + 1);
         a2 ← at2 LonCorner (r + 1) (c + 1); a3 ← at2 LonCorner (r + 1) c;
         Some [a0; a1; a2; a3]).
Proof.
  intros p q x y xCorner yCorner HxC HyC Ht HtC
    (HLonR & HLon0 & HLon1) (HLatR & HLat0 & HLat1)
    (HLonCR & HLonC0 & HLonC1) (HLatCR & HLatC0 & HLatC1).
  unfold ProjectionGridDescriptor.to_scrip. rewrite create_scrip_new. cbn [bind].
  fold p q x y xCorner yCorner.
  destruct (numpy.meshgrid x y) as [X Y].
  destruct (numpy.meshgrid xCorner yCorner) as [XCorner YCorner].
  cbn [fst snd] in Ht, HtC.
  unfold ProjectionGridDescriptor._project_to_lat_lon.
  rewrite Ht. cbn [bind]. rewrite HtC. cbn [bind].
  destruct (unwrap_corners_rows LatCorner (length y) (length x) HLatCR HLatC0 HLatC1)
    as (klat & Hklat & Hklat0 & Hklat1 & Hklat_rows).
  destruct (unwrap_corners_rows LonCorner (length y) (length x) HLonCR HLonC0 HLonC1)
    as (klon & Hklon & Hklon0 & Hklon1 & Hklon_rows).
  destruct (rectangular_writes_total (length x * length y) "degrees"
              (numpy.flat Lat) (numpy.flat Lon)
              [Z.of_nat (length x); Z.of_nat (length y)] klat klon)
    as (d1 & d2 & d3 & d4 & d5 & d6 & H1 & H2 & H3 & H4 & H5 & H6);
    try assumption; try reflexivity; try lia.
  { rewrite flat_length by assumption. lia. }
  { rewrite flat_length by assumption. lia. }
  rewrite H1. cbn [bind]. rewrite H2. cbn [bind]. rewrite H3. cbn [bind].
  rewrite H4. cbn [bind]. rewrite Hklat. cbn [bind]. rewrite H5. cbn [bind].
  rewrite Hklon. cbn [bind]. rewrite H6. cbn [bind].
  destruct (rectangular_writes_inv _ _ _ _ _ _ _ _ _ _ _ _ _ H1 H2 H3 H4 H5 H6)
    as (_ & V1 & V2 & V3 & V5 & V6 & _).
  exists (netCDF4.setncattr "history" (ProjectionGridDescriptor.history Proj self) d6),
    klat, klon.
  rewrite !setncattr_variables, V1, V2, V3, V5, V6.
  split; [reflexivity|]. do 5 (split; [reflexivity|]).
  intros r c Hr Hc.
  destruct (at2_is_Some LatCorner (length y) (length x) HLatCR HLatC0 HLatC1 r c)
    as [a0 Ha0]; [lia..|].
  destruct (at2_is_Some LatCorner (length y) (length x) HLatCR HLatC0 HLatC1 r (c + 1))
    as [a1 Ha1]; [lia..|].
  destruct (at2_is_Some LatCorner (length y) (length x) HLatCR HLatC0 HLatC1 (r + 1) (c + 1))
    as [a2 Ha2]; [lia..|].
  destruct (at2_is_Some LatCorner (length y) (length x) HLatCR HLatC0 HLatC1 (r + 1) c)
    as [a3 Ha3]; [lia..|].
  destruct (at2_is_Some LonCorner (length y) (length x) HLonCR HLonC0 HLonC1 r c)
    as [b0 Hb0]; [lia..|].
  destruct (at2_is_Some LonCorner (length y) (length x) HLonCR HLonC0 HLonC1 r (c + 1))
    as [b1 Hb1]; [lia..|].
  destruct (at2_is_Some LonCorner (length y) (length x) HLonCR HLonC0 HLonC1 (r + 1) (c + 1))
    as [b2 Hb2]; [lia..|].
  destruct (at2_is_Some LonCorner (length y) (length x) HLonCR HLonC0 HLonC1 (r + 1) c)
    as [b3 Hb3]; [lia..|].
  rewrite Ha0, Ha1, Ha2, Ha3, Hb0, Hb1, Hb2, Hb3. cbn.
  split; [apply Hklat_rows | apply Hklon_rows]; assumption.
Qed.

(** * Further properties of the code *)

(** ** Corners from centers, centers from corners *)

(** X1. [_interp_extrap_corner] needs two centers: on an empty array it
    raises IndexError for index 0, on a single center IndexError for index 1
    (the read of [inField[1]]); on two or more it returns one corner more
    than there are centers. *)
Theorem interp_extrap_corner_needs_two (inField : list float) :
  match inField with
  | [] => _interp_extrap_corner inField = Raise (IndexError 0 0)
  | [_] => _interp_extrap_corner inField = Raise (IndexError 1 1)
  | _ :: _ :: _ =>
      exists outField,
        _interp_extrap_corner inField = Ok outField /\
        length outField = length inField + 1
  end.
Proof. exact (interp_extrap_corner_cases inField). Qed.

(** X2. [LatLonGridDescriptor.create] accepts any two corner arrays and any
    units string: it keeps the corners and the units as given, sets the
    history to the list of arguments, and takes as centers the midpoints
    [0.5 * (corner[i] + corner[i+1])], one fewer than the corners; with
    corner arrays that are not empty the grid is consistent. *)
Theorem latlon_create_midpoints (latCorner lonCorner : list float) (units : string)
    (argv : list string) :
  exists self,
    LatLonGridDescriptor.create latCorner lonCorner units argv = Ok self /\
    LatLonGridDescriptor.latCorner self = latCorner /\
    LatLonGridDescriptor.lonCorner self = lonCorner /\
    LatLonGridDescriptor.units self = units /\
    LatLonGridDescriptor.history self = AttrList argv /\
    length (LatLonGridDescriptor.lat self) = length latCorner - 1 /\
    length (LatLonGridDescriptor.lon self) = length lonCorner - 1 /\
    (forall i a b, latCorner !! i = Some a -> latCorner !! (i + 1) = Some b ->
                   LatLonGridDescriptor.lat self !! i = Some (0.5 * (a + b))%float) /\
    (forall i a b, lonCorner !! i = Some a -> lonCorner !! (i + 1) = Some b ->
                   LatLonGridDescriptor.lon self !! i = Some (0.5 * (a + b))%float) /\
    (1 <= length latCorner -> 1 <= length lonCorner -> latlon_consistent self).
Proof.
  destruct (latlon_create_spec latCorner lonCorner units argv)
    as (self & Hrun & Hklat & Hklon & Hunits & Hhist & Hnlat & Hnlon & Hlat & Hlon).
  exists self. do 9 (split; [assumption|]).
  intros H1 H2. unfold latlon_consistent. rewrite Hklat, Hklon, Hnlat, Hnlon. lia.
Qed.

Lemma latlon_create_midpoints_witness :
  exists self,
    LatLonGridDescriptor.create [-5; 5; 15; 25]%float [-5; 5; 15]%float "degrees" ["prog"] =
      Ok self /\
    LatLonGridDescriptor.lat self !! 1 = Some 10%float /\
    latlon_consistent self.
Proof.
  destruct (latlon_create_midpoints [-5; 5; 15; 25]%float [-5; 5; 15]%float "degrees" ["prog"])
    as (self & Hrun & _ & _ & _ & _ & _ & _ & Hlat & _ & Hcons).
  exists self. split; [exact Hrun|]. split.
  - rewrite (Hlat 1 5%float 15%float); reflexivity.
  - apply Hcons; simpl; lia.
Defined.

(** ** The export of any lat-lon grid *)

(** X3. The export of a consistent lat-lon grid with a cell ends. Its grid_size is
    nLat * nLon and its grid_dims are [nLon, nLat]; cell (r, c) is entry
    r * nLon + c of every variable: its center is (lat[r], lon[c]) and its
    corners are, in latitude, latCorner[r], latCorner[r], latCorner[r+1],
    latCorner[r+1] and, in longitude, lonCorner[c], lonCorner[c+1],
    lonCorner[c+1], lonCorner[c]. The history is the descriptor's. *)
Theorem latlon_to_scrip_polygons (self : LatLonGridDescriptor.t) :
  latlon_consistent self ->
  0 < length (LatLonGridDescriptor.lat self) ->
  0 < length (LatLonGridDescriptor.lon self) ->
  let nLat := length (LatLonGridDescriptor.lat self) in
  let nLon := length (LatLonGridDescriptor.lon self) in
  exists outFile center_lat center_lon corner_lat corner_lon,
    LatLonGridDescriptor.to_scrip self = Ok outFile /\
    dimensions outFile !! "grid_size" = Some (nLat * nLon) /\
    var_data <$> variables outFile !! "grid_dims" =
      Some (Ints [Z.of_nat nLon; Z.of_nat nLat]) /\
    var_data <$> variables outFile !! "grid_center_lat" = Some (Floats center_lat) /\
    var_data <$> variables outFile !! "grid_center_lon" = Some (Floats center_lon) /\
    var_data <$> variables outFile !! "grid_corner_lat" = Some (Floats2 corner_lat) /\
    var_data <$> variables outFile !! "grid_corner_lon" = Some (Floats2 corner_lon) /\
    ncattrs outFile !! "history" = Some (LatLonGridDescriptor.history self) /\
    (length center_lat = nLat * nLon /\ length center_lon = nLat * nLon /\
     shape0 corner_lat = nLat * nLon /\ shape0 corner_lon = nLat * nLon) /\
    forall r c la lo la0 la1 lo0 lo1,
      LatLonGridDescriptor.lat self !! r = Some la ->
      LatLonGridDescriptor.lon self !! c = Some lo ->
      LatLonGridDescriptor.latCorner self !! r = Some la0 ->
      LatLonGridDescriptor.latCorner self !! (r + 1) = Some la1 ->
      LatLonGridDescriptor.lonCorner self !! c = Some lo0 ->
      LatLonGridDescriptor.lonCorner self !! (c + 1) = Some lo1 ->
      center_lat !! (r * nLon + c) = Some la /\
      center_lon !! (r * nLon + c) = Some lo /\
      rows corner_lat !! (r * nLon + c) = Some [la0; la0; la1; la1] /\
      rows corner_lon !! (r * nLon + c) = Some [lo0; lo1; lo1; lo0].
Proof. intros Hc _ _. exact (latlon_to_scrip_spec self Hc). Qed.

Lemma latlon_to_scrip_polygons_witness :
  exists outFile corner_lat corner_lon,
    LatLonGridDescriptor.to_scrip example_latlon = Ok outFile /\
    var_data <$> variables outFile !! "grid_corner_lat" = Some (Floats2 corner_lat) /\
    var_data <$> variables outFile !! "grid_corner_lon" = Some (Floats2 corner_lon) /\
    rows corner_lat !! 3 = Some [5; 5; 15; 15]%float /\
    rows corner_lon !! 3 = Some [5; 15; 15; 5]%float.
Proof.
  destruct (latlon_to_scrip_polygons example_latlon (conj eq_refl eq_refl)
              ltac:(simpl; lia) ltac:(simpl; lia))
    as (outFile & clat & clon & klat & klon & Hrun & _ & _ & _ & _ & Hklat & Hklon & _ & _
        & Hall).
  exists outFile, klat, klon. do 3 (split; [assumption|]).
  destruct (Hall 1 1 10%float 10%float 5%float 15%float 5%float 15%float
              eq_refl eq_refl eq_refl eq_refl eq_refl eq_refl) as (_ & _ & H1 & H2).
  split; [exact H1 | exact H2].
Defined.

(** ** Reading a lat-lon grid *)

(** X4. On a dataset whose latitude and longitude variables, when it has
    them, have at most one dimension, [LatLonGridDescriptor.read] succeeds
    exactly when the dataset has both variables, the latitude variable has a
    [units] attribute, both variables have a dimension, and both hold at
    least two values. *)
Theorem latlon_read_succeeds_iff (ds : xarray.Dataset) (latVarName lonVarName : string)
    (argv : list string) :
  (forall latVar, xarray.data_vars ds !! latVarName = Some latVar ->
                  length (xarray.dims latVar) <= 1) ->
  (forall lonVar, xarray.data_vars ds !! lonVarName = Some lonVar ->
                  length (xarray.dims lonVar) <= 1) ->
  (exists self, LatLonGridDescriptor.read ds latVarName lonVarName argv = Ok self) <->
  (exists latVar lonVar,
      xarray.data_vars ds !! latVarName = Some latVar /\
      xarray.data_vars ds !! lonVarName = Some lonVar /\
      is_Some (xarray.units latVar) /\
      xarray.dims latVar <> [] /\ xarray.dims lonVar <> [] /\
      2 <= length (xarray.values latVar) /\ 2 <= length (xarray.values lonVar)).
Proof.
  intros _ _. split.
  - intros (self & H).
    apply latlon_read_inv in H
      as (latVar & lonVar & latUnits & latDim & lonDim & latDims & lonDims &
          Hlat & Hlon & Hu & Hdlat & Hdlon & _ & _ & Hklat & Hklon & _).
    apply interp_extrap_corner_Ok_inv in Hklat as [Hnlat _].
    apply interp_extrap_corner_Ok_inv in Hklon as [Hnlon _].
    exists latVar, lonVar. rewrite Hu, Hdlat, Hdlon. repeat split; eauto; discriminate.
  - intros (latVar & lonVar & Hlat & Hlon & Hu & Hdlat & Hdlon & Hnlat & Hnlon).
    eapply latlon_read_total; eassumption.
Qed.

Lemma latlon_read_succeeds_iff_witness :
  exists self, LatLonGridDescriptor.read example_dataset "lat" "lon" ["prog"] = Ok self.
Proof.
  apply (proj2 (latlon_read_succeeds_iff example_dataset "lat" "lon" ["prog"]
                  ltac:(intros v Hv; vm_compute in Hv; injection Hv as <-; simpl; lia)
                  ltac:(intros v Hv; vm_compute in Hv; injection Hv as <-; simpl; lia))).
  eexists. eexists.
  split; [reflexivity|]. split; [reflexivity|].
  split; [eexists; reflexivity|].
  split; [discriminate|]. split; [discriminate|].
  split; simpl; lia.
Defined.

(** X5. The order in which [read] fails: a missing latitude variable is a
    KeyError of its name, whatever else is wrong; then a missing longitude
    variable; then a latitude variable without [units], an AttributeError;
    and, with variables that have dimensions, a longitude axis of fewer than
    two values is reported (IndexError at its length) before the latitude
    axis is looked at. *)
Theorem latlon_read_first_error (ds : xarray.Dataset) (latVarName lonVarName : string)
    (argv : list string) :
  (xarray.data_vars ds !! latVarName = None ->
   LatLonGridDescriptor.read ds latVarName lonVarName argv = Raise (KeyError latVarName)) /\
  (forall latVar,
      xarray.data_vars ds !! latVarName = Some latVar ->
      xarray.data_vars ds !! lonVarName = None ->
      LatLonGridDescriptor.read ds latVarName lonVarName argv = Raise (KeyError lonVarName)) /\
  (forall latVar lonVar,
      xarray.data_vars ds !! latVarName = Some latVar ->
      xarray.data_vars ds !! lonVarName = Some lonVar ->
      xarray.units latVar = None ->
      LatLonGridDescriptor.read ds latVarName lonVarName argv =
        Raise (AttributeError "units")) /\
  (forall latVar lonVar latUnits,
      xarray.data_vars ds !! latVarName = Some latVar ->
      xarray.data_vars ds !! lonVarName = Some lonVar ->
      xarray.units latVar = Some latUnits ->
      xarray.dims latVar <> [] -> xarray.dims lonVar <> [] ->
      length (xarray.values lonVar) < 2 ->
      LatLonGridDescriptor.read ds latVarName lonVarName argv =
        Raise (IndexError (Z.of_nat (length (xarray.values lonVar)))
                          (length (xarray.values lonVar)))).
Proof.
  unfold LatLonGridDescriptor.read, xarray.getitem, xarray.get_units.
  split; [|split; [|split]].
  - intros ->. reflexivity.
  - intros latVar -> ->. reflexivity.
  - intros latVar lonVar -> ->. cbn [bind]. intros ->. reflexivity.
  - intros latVar lonVar latUnits -> ->. cbn [bind]. intros -> Hdlat Hdlon Hn. cbn [bind].
    destruct (xarray.dims latVar) as [|latDim latDims]; [congruence|].
    destruct (xarray.dims lonVar) as [|lonDim lonDims]; [congruence|].
    change (numpy.getitem (latDim :: latDims) 0) with (Ok latDim).
    change (numpy.getitem (lonDim :: lonDims) 0) with (Ok lonDim).
    cbn [bind LatLonGridDescriptor._set_coords].
    pose proof (interp_extrap_corner_cases (xarray.values lonVar)) as Hc.
    destruct (xarray.values lonVar) as [|c0 [|c1 rest]].
    + rewrite Hc. reflexivity.
    + rewrite Hc. reflexivity.
    + simpl in Hn. lia.
Qed.

Lemma latlon_read_first_error_witness :
  LatLonGridDescriptor.read example_dataset "latitude" "longitude" ["prog"] =
    Raise (KeyError "latitude").
Proof.
  apply (proj1 (latlon_read_first_error example_dataset "latitude" "longitude" ["prog"])).
  reflexivity.
Defined.

(** X6. Every lat-lon grid that can be read can be exported: the export of
    what [read] returns ends, with grid_size the product of the two axis
    lengths and grid_dims [nLon, nLat]. *)
Theorem latlon_read_then_export (ds : xarray.Dataset) (latVarName lonVarName : string)
    (argv : list string) (self : LatLonGridDescriptor.t) :
  LatLonGridDescriptor.read ds latVarName lonVarName argv = Ok self ->
  exists outFile latVar lonVar,
    xarray.data_vars ds !! latVarName = Some latVar /\
    xarray.data_vars ds !! lonVarName = Some lonVar /\
    LatLonGridDescriptor.to_scrip self = Ok outFile /\
    dimensions outFile !! "grid_size" =
      Some (length (xarray.values latVar) * length (xarray.values lonVar)) /\
    var_data <$> variables outFile !! "grid_dims" =
      Some (Ints [Z.of_nat (length (xarray.values lonVar));
                  Z.of_nat (length (xarray.values latVar))]).
Proof.
  intros Hread.
  pose proof (latlon_read_consistent _ _ _ _ _ Hread) as Hcons.
  apply latlon_read_inv in Hread
    as (latVar & lonVar & latUnits & latDim & lonDim & latDims & lonDims &
        Hlat & Hlon & _ & _ & _ & Hvlat & Hvlon & _).
  destruct (latlon_to_scrip_spec self Hcons)
    as (outFile & clat & clon & klat & klon & Hrun & Hsize & Hdims & _).
  exists outFile, latVar, lonVar. rewrite <- Hvlat, <- Hvlon. auto.
Qed.

Lemma latlon_read_then_export_witness :
  exists outFile,
    LatLonGridDescriptor.to_scrip example_latlon = Ok outFile /\
    dimensions outFile !! "grid_size" = Some 6.
Proof.
  destruct (latlon_read_then_export example_dataset "lat" "lon" ["prog"] example_latlon
              example_dataset_read)
    as (outFile & latVar & lonVar & Hlat & Hlon & Hrun & Hsize & _).
  exists outFile. split; [exact Hrun|].
  vm_compute in Hlat, Hlon. injection Hlat as <-. injection Hlon as <-. exact Hsize.
Defined.

(** ** The mesh export, entry by entry *)



(** X8. A cell declared with no edge shows, at every output position, the
    vertex named in the last slot of its row of [verticesOnCell]: the local
    index [min(0 - 1, p)] is -1, which numpy counts from the end. *)
Theorem mesh_cell_without_edges (pow : float -> float -> float)
    (inFile : MpasMeshDescriptor.MeshFile) (argv : list string) (outFile : Dataset)
    (c p : nat) (row : list Z) :
  MpasMeshDescriptor.shapes_ok inFile = true ->
  MpasMeshDescriptor.to_scrip pow inFile argv = Ok outFile ->
  MpasMeshDescriptor.nEdgesOnCell inFile !! c = Some 0%Z ->
  MpasMeshDescriptor.verticesOnCell inFile !! c = Some row ->
  p < MpasMeshDescriptor.maxEdges inFile ->
  exists grid_corner_lat grid_corner_lon v lat lon,
    var_data <$> variables outFile !! "grid_corner_lat" = Some (Floats2 grid_corner_lat) /\
    var_data <$> variables outFile !! "grid_corner_lon" = Some (Floats2 grid_corner_lon) /\
    last row = Some v /\
    numpy.getitem (MpasMeshDescriptor.latVertex inFile) (v - 1)%Z = Ok lat /\
    at2 grid_corner_lat c p = Some lat /\
    numpy.getitem (MpasMeshDescriptor.lonVertex inFile) (v - 1)%Z = Ok lon /\
    at2 grid_corner_lon c p = Some lon.
Proof.
  intros Hshapes Hrun Hk Hrow Hp.
  destruct (shapes_ok_spec _ Hshapes) as (_ & _ & _ & HnE & _ & Hrows & _).
  destruct (mesh_export_Ok_inv inFile argv outFile Hshapes Hrun)
    as (glat & glon & Hdlat & Hdlon & (_ & _ & Hvals)).
  assert (Hc : c < MpasMeshDescriptor.nCells inFile)
    by (apply lookup_lt_Some in Hk; lia).
  assert (Hlen : length row = MpasMeshDescriptor.maxEdges inFile).
  { rewrite Forall_lookup in Hrows. exact (Hrows _ _ Hrow). }
  destruct (last row) as [v|] eqn:Hlast.
  2:{ apply last_None in Hlast. subst row. simpl in Hlen. lia. }
  destruct (Hvals c p Hc Hp) as (x & y & Hx & Hatx & Hy & Haty).
  rewrite (corner_value_no_edges _ _ _ _ _ _ Hk Hrow Hlast) in Hx.
  rewrite (corner_value_no_edges _ _ _ _ _ _ Hk Hrow Hlast) in Hy.
  exists glat, glon, v, x, y. auto 10.
Qed.

Lemma mesh_cell_without_edges_witness :
  exists outFile grid_corner_lat,
    MpasMeshDescriptor.to_scrip example_pow no_edge_mesh ["prog"] = Ok outFile /\
    var_data <$> variables outFile !! "grid_corner_lat" = Some (Floats2 grid_corner_lat) /\
    at2 grid_corner_lat 0 1 = Some 1%float.
Proof.
  assert (Hrun : exists outFile,
             MpasMeshDescriptor.to_scrip example_pow no_edge_mesh ["prog"] = Ok outFile)
    by (eexists; vm_compute; reflexivity).
  destruct Hrun as [outFile Hrun].
  destruct (mesh_cell_without_edges example_pow no_edge_mesh ["prog"] outFile 0 1 [1; 2; 3; 0]%Z
              eq_refl Hrun eq_refl eq_refl ltac:(simpl; lia))
    as (glat & glon & v & x & y & Hdlat & _ & Hlast & Hx & Hat & _).
  exists outFile, glat. split; [exact Hrun|]. split; [exact Hdlat|].
  vm_compute in Hlast. injection Hlast as <-. vm_compute in Hx. congruence.
Defined.



(** ** The schema of every export *)

(** X10. Whatever the descriptor of a grid with a cell, a finished export
    has the dimensions and the variables its header declared and no other:
    grid_size, grid_corners and grid_rank as [_create_scrip] was given them,
    and every variable with the type, the dimensions and the units set at
    its creation. Writing data changes none of them. *)
Theorem export_schema {Proj : Type} (pow : float -> float -> float)
    (transform : Proj -> Proj -> ndarray2 float -> ndarray2 float ->
                 result (ndarray2 float * ndarray2 float))
    (argv : list string) (d : descriptor Proj) (outFile : Dataset) :
  nonempty d ->
  export pow transform argv d = Ok outFile ->
  dimensions outFile = dimensions (header_of d) /\
  (forall name,
      var_schema <$> variables outFile !! name =
        var_schema <$> variables (header_of d) !! name) /\
  dimensions outFile !! "grid_size" = Some (cell_count d) /\
  var_schema <$> variables outFile !! "grid_imask" =
    Some (i4, ["grid_size"], Some "unitless") /\
  var_schema <$> variables outFile !! "grid_dims" = Some (i4, ["grid_rank"], None).
Proof.
  intros _ Hrun.
  assert (Hs : same_schema (header_of d) outFile).
  { destruct d as [inFile | self | self]; cbn [export header_of] in *.
    - exact (proj1 (mesh_to_scrip_contents inFile argv outFile Hrun)).
    - pose proof (latlon_to_scrip_inv self outFile Hrun) as Hinv. cbv zeta in Hinv.
      destruct (numpy.meshgrid (LatLonGridDescriptor.lon self)
                  (LatLonGridDescriptor.lat self)) as [Lon Lat].
      destruct (numpy.meshgrid (LatLonGridDescriptor.lonCorner self)
                  (LatLonGridDescriptor.latCorner self)) as [LonCorner LatCorner].
      destruct Hinv as (klat & klon & _ & _ & Hs & _). exact Hs.
    - destruct (projection_to_scrip_inv transform self outFile Hrun)
        as (Lon & Lat & LonC & LatC & klat & klon & _ & _ & _ & _ & Hs & _).
      exact Hs. }
  destruct Hs as [Hdims Hvars].
  split; [exact Hdims|]. split; [exact Hvars|].
  rewrite Hdims, !Hvars.
  destruct d as [inFile | self | self]; cbn [header_of cell_count];
    repeat split; vm_compute; reflexivity.
Qed.

Lemma export_schema_witness :
  (exists outFile,
      export example_pow toy_transform ["prog"] (Mesh two_cell_mesh) = Ok outFile /\
      dimensions outFile !! "grid_size" = Some 2 /\
      var_schema <$> variables outFile !! "grid_imask" =
        Some (i4, ["grid_size"], Some "unitless")) /\
  (exists outFile,
      export example_pow toy_transform ["prog"] (LatLon example_latlon) = Ok outFile /\
      dimensions outFile !! "grid_size" = Some 6 /\
      var_schema <$> variables outFile !! "grid_imask" =
        Some (i4, ["grid_size"], Some "unitless")) /\
  (exists outFile,
      export example_pow toy_transform ["prog"] (Projection example_projected) = Ok outFile /\
      dimensions outFile !! "grid_size" = Some 6 /\
      var_schema <$> variables outFile !! "grid_imask" =
        Some (i4, ["grid_size"], Some "unitless")).
Proof.
  split; [|split].
  - assert (Hrun : exists outFile,
               export example_pow toy_transform ["prog"] (Mesh two_cell_mesh) = Ok outFile)
      by (eexists; vm_compute; reflexivity).
    destruct Hrun as [outFile Hrun].
    destruct (export_schema example_pow toy_transform ["prog"] (Mesh two_cell_mesh) outFile
                ltac:(split; simpl; lia) Hrun) as (_ & _ & Hsize & Hmask & _).
    exists outFile. auto.
  - assert (Hrun : exists outFile,
               export example_pow toy_transform ["prog"] (LatLon example_latlon) = Ok outFile)
      by (eexists; vm_compute; reflexivity).
    destruct Hrun as [outFile Hrun].
    destruct (export_schema example_pow toy_transform ["prog"] (LatLon example_latlon) outFile
                ltac:(split; simpl; lia) Hrun) as (_ & _ & Hsize & Hmask & _).
    exists outFile. auto.
  - assert (Hrun : exists outFile,
               export example_pow toy_transform ["prog"] (Projection example_projected) =
                 Ok outFile)
      by (eexists; vm_compute; reflexivity).
    destruct Hrun as [outFile Hrun].
    destruct (export_schema example_pow toy_transform ["prog"] (Projection example_projected)
                outFile ltac:(split; simpl; lia) Hrun) as (_ & _ & Hsize & Hmask & _).
    exists outFile. auto.
Defined.

(** ** A source with a history *)

(** X11. When the source carries a history, the attribute written is that
    text, a newline, and the arguments joined by single spaces: for a mesh
    export, and for a lat-lon grid read from such a dataset and exported. *)
Theorem history_with_source_is_appended (pow : float -> float -> float)
    (argv : list string) (source : string) :
  (forall inFile outFile,
      MpasMeshDescriptor.history inFile = Some source ->
      MpasMeshDescriptor.to_scrip pow inFile argv = Ok outFile ->
      ncattrs outFile !! "history" =
        Some (AttrStr (String.append source (String.append newline (join " " argv))))) /\
  (forall ds latVarName lonVarName self outFile,
      xarray.attrs_history ds = Some source ->
      LatLonGridDescriptor.read ds latVarName lonVarName argv = Ok self ->
      LatLonGridDescriptor.to_scrip self = Ok outFile ->
      ncattrs outFile !! "history" =
        Some (AttrStr (String.append source (String.append newline (join " " argv))))).
Proof.
  split.
  - intros inFile outFile Hsrc Hrun.
    exact (mesh_history_appended inFile argv outFile source Hsrc Hrun).
  - intros ds latVarName lonVarName self outFile Hsrc Hread Hrun.
    apply latlon_read_inv in Hread
      as (latVar & lonVar & latUnits & latDim & lonDim & latDims & lonDims &
          _ & _ & _ & _ & _ & _ & _ & _ & _ & _ & _ & Hhist).
    pose proof (latlon_to_scrip_inv self outFile Hrun) as Hinv. cbv zeta in Hinv.
    destruct (numpy.meshgrid (LatLonGridDescriptor.lon self)
                (LatLonGridDescriptor.lat self)) as [Lon Lat].
    destruct (numpy.meshgrid (LatLonGridDescriptor.lonCorner self)
                (LatLonGridDescriptor.latCorner self)) as [LonCorner LatCorner].
    destruct Hinv as (klat & klon & _ & _ & _ & _ & _ & _ & _ & _ & Hattr).
    rewrite Hattr, Hhist, Hsrc. unfold join at 1. cbn [String.concat]. reflexivity.
Qed.

Lemma history_with_source_is_appended_witness :
  exists outFile,
    MpasMeshDescriptor.to_scrip example_pow no_edge_mesh ["prog"; "mesh.nc"] = Ok outFile /\
    ncattrs outFile !! "history" =
      Some (AttrStr (String.append "made by a mesh generator"
                       (String.append newline "prog mesh.nc"))).
Proof.
  assert (Hrun : exists outFile,
             MpasMeshDescriptor.to_scrip example_pow no_edge_mesh ["prog"; "mesh.nc"] = Ok outFile)
    by (eexists; vm_compute; reflexivity).
  destruct Hrun as [outFile Hrun]. exists outFile. split; [exact Hrun|].
  exact (proj1 (history_with_source_is_appended example_pow ["prog"; "mesh.nc"]
                  "made by a mesh generator")
           no_edge_mesh outFile eq_refl Hrun).
Defined.

(** ** Projected grids *)

Lemma example_projected_created :
  ProjectionGridDescriptor.create unit toy_transform tt tt example_x example_y ["prog"] =
    Ok example_projected.
Proof. vm_compute. reflexivity. Qed.

(** X12. A finished export of a projected grid has called the transform
    twice, on the grid of centers and on the grid of corners, and holds what
    it returned: of each returned pair the second array is the latitude and
    the first the longitude; the centers are written flattened and the
    corners unwrapped; grid_dims is [nx, ny]; the history is the
    descriptor's. *)
Theorem projection_export_contents {Proj : Type}
    (transform : Proj -> Proj -> ndarray2 float -> ndarray2 float ->
                 result (ndarray2 float * ndarray2 float))
    (self : ProjectionGridDescriptor.t Proj) (outFile : Dataset) :
  ProjectionGridDescriptor.to_scrip Proj transform self = Ok outFile ->
  let p := ProjectionGridDescriptor.projection Proj self in
  let q := ProjectionGridDescriptor.latLonProjection Proj self in
  let x := ProjectionGridDescriptor.x Proj self in
  let y := ProjectionGridDescriptor.y Proj self in
  let xCorner := ProjectionGridDescriptor.xCorner Proj self in
  let yCorner := ProjectionGridDescriptor.yCorner Proj self in
  exists Lon Lat LonCorner LatCorner corner_lat corner_lon,
    transform p q (fst (numpy.meshgrid x y)) (snd (numpy.meshgrid x y)) = Ok (Lon, Lat) /\
    transform p q (fst (numpy.meshgrid xCorner yCorner)) (snd (numpy.meshgrid xCorner yCorner)) =
      Ok (LonCorner, LatCorner) /\
    _unwrap_corners LatCorner = Ok corner_lat /\
    _unwrap_corners LonCorner = Ok corner_lon /\
    var_data <$> variables outFile !! "grid_center_lat" = Some (Floats (numpy.flat Lat)) /\
    var_data <$> variables outFile !! "grid_center_lon" = Some (Floats (numpy.flat Lon)) /\
    var_data <$> variables outFile !! "grid_dims" =
      Some (Ints [Z.of_nat (length x); Z.of_nat (length y)]) /\
    var_data <$> variables outFile !! "grid_corner_lat" = Some (Floats2 corner_lat) /\
    var_data <$> variables outFile !! "grid_corner_lon" = Some (Floats2 corner_lon) /\
    ncattrs outFile !! "history" = Some (ProjectionGridDescriptor.history Proj self).
Proof.
  intros Hrun. cbv zeta.
  destruct (projection_to_scrip_inv transform self outFile Hrun)
    as (Lon & Lat & LonC & LatC & klat & klon & H1 & H2 & H3 & H4 & _ & H5).
  exists Lon, Lat, LonC, LatC, klat, klon. auto.
Qed.

Lemma projection_export_contents_witness :
  exists outFile,
    ProjectionGridDescriptor.to_scrip unit toy_transform example_projected = Ok outFile /\
    var_data <$> variables outFile !! "grid_center_lat" =
      Some (Floats [0; 0; 1; 1; 2; 2]%float) /\
    var_data <$> variables outFile !! "grid_center_lon" =
      Some (Floats [0; 1; 0; 1; 0; 1]%float).
Proof.
  assert (Hrun : exists outFile,
             ProjectionGridDescriptor.to_scrip unit toy_transform example_projected =
               Ok outFile)
    by (eexists; vm_compute; reflexivity).
  destruct Hrun as [outFile Hrun]. exists outFile. split; [exact Hrun|].
  destruct (projection_export_contents toy_transform example_projected outFile Hrun)
    as (Lon & Lat & LonC & LatC & klat & klon & Ht & _ & _ & _ & Hlat & Hlon & _).
  vm_compute in Ht. injection Ht as <- <-. split; [exact Hlat | exact Hlon].
Defined.

(** X13. [ProjectionGridDescriptor.create] asks the projection first: when
    the transform raises on the grid of centers, [create] raises the same,
    whatever the axes; it succeeds exactly when the transform does and both
    axes hold at least two values. *)
Theorem projection_create_succeeds_iff {Proj : Type}
    (transform : Proj -> Proj -> ndarray2 float -> ndarray2 float ->
                 result (ndarray2 float * ndarray2 float))
    (latlong_WGS84 p : Proj) (x y : list float) (argv : list string) :
  ((exists self,
       ProjectionGridDescriptor.create Proj transform latlong_WGS84 p x y argv = Ok self) <->
   (exists Lon Lat,
       transform p latlong_WGS84 (fst (numpy.meshgrid x y)) (snd (numpy.meshgrid x y)) =
         Ok (Lon, Lat)) /\
   2 <= length x /\ 2 <= length y) /\
  (forall e,
      transform p latlong_WGS84 (fst (numpy.meshgrid x y)) (snd (numpy.meshgrid x y)) =
        Raise e ->
      ProjectionGridDescriptor.create Proj transform latlong_WGS84 p x y argv = Raise e).
Proof.
  split; [split|].
  - intros (self & Hrun).
    apply projection_create_inv in Hrun
      as ((Lon & Lat & Ht & _) & _ & _ & _ & _ & Hkx & Hky & _).
    apply interp_extrap_corner_Ok_inv in Hkx as [Hx _].
    apply interp_extrap_corner_Ok_inv in Hky as [Hy _].
    eauto.
  - intros ((Lon & Lat & Ht) & Hx & Hy).
    eapply projection_create_total; eassumption.
  - intros e. apply projection_create_transform_first.
Qed.

Lemma projection_create_succeeds_iff_witness :
  exists self,
    ProjectionGridDescriptor.create unit toy_transform tt tt example_x example_y ["prog"] =
      Ok self.
Proof.
  apply (proj2 (proj1 (projection_create_succeeds_iff toy_transform tt tt
                         example_x example_y ["prog"]))).
  split; [|split; simpl; lia].
  eexists. eexists. vm_compute. reflexivity.
Defined.

(** X14. The [coords] dictionary of a projected grid: its entries 'lat' and
    'lon' are always the two-dimensional fields the transform returned, in
    degrees, over the dimensions (xDimName, yDimName); the entry of the y
    axis is kept unless its name is 'lat' or 'lon', that of the x axis
    unless its name is 'lat', 'lon' or the name of the y axis; there is no
    other entry. *)
Theorem projection_coords_entries {Proj : Type}
    (transform : Proj -> Proj -> ndarray2 float -> ndarray2 float ->
                 result (ndarray2 float * ndarray2 float))
    (p q : Proj) (x y : list float) (xVarName yVarName xDimName yDimName : string)
    (coords : gmap string coord) (dims : list string) :
  ProjectionGridDescriptor._set_coords Proj transform p q x y
    xVarName yVarName xDimName yDimName = Ok (coords, dims) ->
  exists Lon Lat,
    transform p q (fst (numpy.meshgrid x y)) (snd (numpy.meshgrid x y)) = Ok (Lon, Lat) /\
    dims = [xDimName; yDimName] /\
    coords !! "lon" = Some (Coord [xDimName; yDimName] (Data2 Lon) "degrees") /\
    coords !! "lat" = Some (Coord [xDimName; yDimName] (Data2 Lat) "degrees") /\
    (yVarName <> "lat" -> yVarName <> "lon" ->
     coords !! yVarName = Some (Coord [yDimName] (Data1 y) "meters")) /\
    (xVarName <> "lat" -> xVarName <> "lon" -> xVarName <> yVarName ->
     coords !! xVarName = Some (Coord [xDimName] (Data1 x) "meters")) /\
    (forall name, name <> "lat" -> name <> "lon" -> name <> xVarName -> name <> yVarName ->
                  coords !! name = None).
Proof.
  intros H.
  apply projection_set_coords_inv in H as (Lon & Lat & Ht & -> & ->).
  exists Lon, Lat. split; [exact Ht|]. split; [reflexivity|].
  split; [apply lookup_insert_eq|].
  split; [rewrite lookup_insert_ne by discriminate; apply lookup_insert_eq|].
  split; [|split].
  - intros H1 H2. rewrite !lookup_insert_ne by congruence. apply lookup_insert_eq.
  - intros H1 H2 H3. rewrite !lookup_insert_ne by congruence. apply lookup_insert_eq.
  - intros name H1 H2 H3 H4. rewrite !lookup_insert_ne by congruence. apply lookup_empty.
Qed.

Lemma projection_coords_entries_witness :
  exists Lat,
    ProjectionGridDescriptor.coords unit example_projected !! "lat" =
      Some (Coord ["x"; "y"] (Data2 Lat) "degrees") /\
    ProjectionGridDescriptor.coords unit example_projected !! "x" =
      Some (Coord ["x"] (Data1 example_x) "meters").
Proof.
  destruct (projection_coords_entries toy_transform tt tt example_x example_y
              "x" "y" "x" "y"
              (ProjectionGridDescriptor.coords unit example_projected) ["x"; "y"]
              ltac:(vm_compute; reflexivity))
    as (Lon & Lat & _ & _ & _ & Hlat & _ & Hx & _).
  exists Lat. split; [exact Hlat|].
  apply Hx; discriminate.
Defined.

(** X15. With a transform that returns arrays of the shape of its arguments
    and accepts the centers and the corners of a projected grid whose corner
    axes are one longer than its center axes, the export ends; cell (r, c),
    entry r * nx + c, has as corners the transformed lattice points (r, c),
    (r, c+1), (r+1, c+1), (r+1, c), in that order. *)
Theorem projection_export_polygons {Proj : Type}
    (transform : Proj -> Proj -> ndarray2 float -> ndarray2 float ->
                 result (ndarray2 float * ndarray2 float))
    (self : ProjectionGridDescriptor.t Proj) (Lon Lat LonCorner LatCorner : ndarray2 float) :
  let p := ProjectionGridDescriptor.projection Proj self in
  let q := ProjectionGridDescriptor.latLonProjection Proj self in
  let x := ProjectionGridDescriptor.x Proj self in
  let y := ProjectionGridDescriptor.y Proj self in
  let xCorner := ProjectionGridDescriptor.xCorner Proj self in
  let yCorner := ProjectionGridDescriptor.yCorner Proj self in
  length xCorner = length x + 1 -> length yCorner = length y + 1 ->
  transform p q (fst (numpy.meshgrid x y)) (snd (numpy.meshgrid x y)) = Ok (Lon, Lat) ->
  transform p q (fst (numpy.meshgrid xCorner yCorner)) (snd (numpy.meshgrid xCorner yCorner)) =
    Ok (LonCorner, LatCorner) ->
  (rectangular Lon /\ shape0 Lon = length y /\ shape1 Lon = length x) ->
  (rectangular Lat /\ shape0 Lat = length y /\ shape1 Lat = length x) ->
  (rectangular LonCorner /\ shape0 LonCorner = length y + 1 /\
   shape1 LonCorner = length x + 1) ->
  (rectangular LatCorner /\ shape0 LatCorner = length y + 1 /\
   shape1 LatCorner = length x + 1) ->
  exists outFile corner_lat corner_lon,
    ProjectionGridDescriptor.to_scrip Proj transform self = Ok outFile /\
    var_data <$> variables outFile !! "grid_center_lat" = Some (Floats (numpy.flat Lat)) /\
    var_data <$> variables outFile !! "grid_center_lon" = Some (Floats (numpy.flat Lon)) /\
    var_data <$> variables outFile !! "grid_dims" =
      Some (Ints [Z.of_nat (length x); Z.of_nat (length y)]) /\
    var_data <$> variables outFile !! "grid_corner_lat" = Some (Floats2 corner_lat) /\
    var_data <$> variables outFile !! "grid_corner_lon" = Some (Floats2 corner_lon) /\
    forall r c, r < length y -> c < length x ->
      rows corner_lat !! (r * length x + c) =
        (a0 ← at2 LatCorner r c; a1 ← at2 LatCorner r (c + 1);
         a2 ← at2 LatCorner (r + 1) (c + 1); a3 ← at2 LatCorner (r + 1) c;
         Some [a0; a1; a2; a3]) /\
      rows corner_lon !! (r * length x + c) =
        (a0 ← at2 LonCorner r c; a1 ← at2 LonCorner r (c + 1);
         a2 ← at2 LonCorner (r + 1) (c + 1); a3 ← at2 LonCorner (r + 1) c;
         Some [a0; a1; a2; a3]).
Proof. exact (projection_to_scrip_spec transform self Lon Lat LonCorner LatCorner). Qed.

Lemma projection_export_polygons_witness :
  exists outFile corner_lat,
    ProjectionGridDescriptor.to_scrip unit toy_transform example_projected = Ok outFile /\
    var_data <$> variables outFile !! "grid_corner_lat" = Some (Floats2 corner_lat) /\
    rows corner_lat !! 3 = Some [0.5; 0.5; 1.5; 1.5]%float.
Proof.
  edestruct (projection_export_polygons toy_transform example_projected)
    as (outFile & klat & klon & Hrun & _ & _ & _ & Hklat & _ & Hall).
  - reflexivity.
  - reflexivity.
  - vm_compute. reflexivity.
  - vm_compute. reflexivity.
  - split; [repeat constructor | split; reflexivity].
  - split; [repeat constructor | split; reflexivity].
  - split; [repeat constructor | split; reflexivity].
  - split; [repeat constructor | split; reflexivity].
  - exists outFile, klat. split; [exact Hrun|]. split; [exact Hklat|].
    exact (proj1 (Hall 1 1 ltac:(simpl; lia) ltac:(simpl; lia))).
Defined.

(** Two runs that end alike: both raise the same, or both return files with
    the same dimensions and variables. *)
Lemma bind_same_file {A} (m : result A) (k k' : A -> result Dataset) :
  (forall a,
      match k a, k' a with
      | Ok o, Ok o' => dimensions o = dimensions o' /\ variables o = variables o'
      | Raise e, Raise e' => e = e'
      | _, _ => False
      end) ->
  match bind m k, bind m k' with
  | Ok o, Ok o' => dimensions o = dimensions o' /\ variables o = variables o'
  | Raise e, Raise e' => e = e'
  | _, _ => False
  end.
Proof. intros H. destruct m as [a|e]; cbn [bind]; [apply H | reflexivity]. Qed.

(** X19. A projected grid read from a dataset is, but for its history and
    the names in [coords], the grid [create] makes of the values of the two
    axis variables: [create] succeeds on them with the same axes and
    corners, and the two grids export alike, raising the same or writing the
    same dimensions and variables. *)
Theorem projection_read_as_create {Proj : Type}
    (transform : Proj -> Proj -> ndarray2 float -> ndarray2 float ->
                 result (ndarray2 float * ndarray2 float))
    (latlong_WGS84 p : Proj) (ds : xarray.Dataset) (xVarName yVarName : string)
    (argv : list string) (self : ProjectionGridDescriptor.t Proj) :
  ProjectionGridDescriptor.read Proj transform latlong_WGS84 p ds xVarName yVarName argv =
    Ok self ->
  exists xVar yVar created,
    xarray.data_vars ds !! xVarName = Some xVar /\
    xarray.data_vars ds !! yVarName = Some yVar /\
    ProjectionGridDescriptor.create Proj transform latlong_WGS84 p
      (xarray.values xVar) (xarray.values yVar) argv = Ok created /\
    ProjectionGridDescriptor.x Proj self = xarray.values xVar /\
    ProjectionGridDescriptor.y Proj self = xarray.values yVar /\
    ProjectionGridDescriptor.x Proj created = xarray.values xVar /\
    ProjectionGridDescriptor.y Proj created = xarray.values yVar /\
    ProjectionGridDescriptor.xCorner Proj created = ProjectionGridDescriptor.xCorner Proj self /\
    ProjectionGridDescriptor.yCorner Proj created = ProjectionGridDescriptor.yCorner Proj self /\
    match ProjectionGridDescriptor.to_scrip Proj transform self,
          ProjectionGridDescriptor.to_scrip Proj transform created with
    | Ok o, Ok o' => dimensions o = dimensions o' /\ variables o = variables o'
    | Raise e, Raise e' => e = e'
    | _, _ => False
    end.
Proof.
  unfold ProjectionGridDescriptor.read. intros H.
  apply bind_Ok in H as (xVar & Hx & H).
  apply bind_Ok in H as (yVar & Hy & H).
  apply bind_Ok in H as (xDimName & _ & H).
  apply bind_Ok in H as (yDimName & _ & H).
  apply bind_Ok in H as ([coords dims] & Hset & H).
  apply bind_Ok in H as (xCorner & Hxc & H).
  apply bind_Ok in H as (yCorner & Hyc & H).
  injection H as <-.
  apply projection_set_coords_inv in Hset as (Lon & Lat & Ht & _ & _).
  unfold xarray.getitem in Hx, Hy.
  destruct (xarray.data_vars ds !! xVarName) as [xv|] eqn:Ex; [|discriminate].
  destruct (xarray.data_vars ds !! yVarName) as [yv|] eqn:Ey; [|discriminate].
  injection Hx as ->. injection Hy as ->.
  exists xVar, yVar.
  eexists. split; [reflexivity|]. split; [reflexivity|]. split.
  { unfold ProjectionGridDescriptor.create, ProjectionGridDescriptor._set_coords,
      ProjectionGridDescriptor._project_to_lat_lon.
    destruct (numpy.meshgrid (xarray.values xVar) (xarray.values yVar)) as [X Y] eqn:Em.
    cbn [fst snd] in Ht. rewrite Ht. cbn [bind]. rewrite Hxc, Hyc. cbn [bind].
    reflexivity. }
  cbn [ProjectionGridDescriptor.x ProjectionGridDescriptor.y
       ProjectionGridDescriptor.xCorner ProjectionGridDescriptor.yCorner].
  repeat (split; [reflexivity|]).
  unfold ProjectionGridDescriptor.to_scrip.
  cbn [ProjectionGridDescriptor.x ProjectionGridDescriptor.y
       ProjectionGridDescriptor.xCorner ProjectionGridDescriptor.yCorner
       ProjectionGridDescriptor.projection ProjectionGridDescriptor.latLonProjection
       ProjectionGridDescriptor.history].
  apply bind_same_file. intros o0.
  destruct (numpy.meshgrid (xarray.values xVar) (xarray.values yVar)) as [X Y].
  destruct (numpy.meshgrid xCorner yCorner) as [XC YC].
  apply bind_same_file. intros [La Lo].
  apply bind_same_file. intros [LaC LoC].
  do 5 (apply bind_same_file; intros ?).
  apply bind_same_file. intros o6.
  apply bind_same_file. intros klon.
  apply bind_same_file. intros o8.
  rewrite !setncattr_variables. split; reflexivity.
Qed.

Lemma projection_read_as_create_witness :
  exists self created,
    ProjectionGridDescriptor.read unit toy_transform tt tt example_xy_dataset "x" "y" ["prog"] =
      Ok self /\
    ProjectionGridDescriptor.create unit toy_transform tt tt example_x example_y ["prog"] =
      Ok created /\
    ProjectionGridDescriptor.xCorner unit created = ProjectionGridDescriptor.xCorner unit self /\
    ProjectionGridDescriptor.yCorner unit created = ProjectionGridDescriptor.yCorner unit self.
Proof.
  assert (Hread : exists self,
             ProjectionGridDescriptor.read unit toy_transform tt tt example_xy_dataset
               "x" "y" ["prog"] = Ok self)
    by (eexists; vm_compute; reflexivity).
  destruct Hread as [self Hread]. exists self.
  destruct (projection_read_as_create toy_transform tt tt example_xy_dataset "x" "y"
              ["prog"] self Hread)
    as (xVar & yVar & created & Hx & Hy & Hc & _ & _ & _ & _ & Hxc & Hyc & _).
  vm_compute in Hx. injection Hx as <-. vm_compute in Hy. injection Hy as <-.
  exists created. split; [exact Hread|]. split; [exact Hc|]. split; assumption.
Defined.

(** * Paths from the configuration *)

Lemma isabs_append (a b : string) :
  utility.isabs a = true -> utility.isabs (a +:+ b) = true.
Proof.
  unfold utility.isabs. destruct a as [|c a]; [discriminate|].
  change (String c a +:+ b) with (String c (a +:+ b)).
  cbn [String.prefix]. destruct (Ascii.ascii_dec _ c); [|discriminate].
  intros _. destruct (a +:+ b); reflexivity.
Qed.

Lemma bindE_inr {E A B} (m : E + A) (k : A -> E + B) (b : B) :
  utility.bindE m k = inr b -> exists a, m = inr a /\ k a = inr b.
Proof. destruct m as [e|a]; [discriminate|]. intros H. exists a. auto. Qed.

(** X16. With a default path, what [build_config_full_path] returns is
    either the path it built, which then exists, or the default, and the
    default only when the built path does not exist; without a default it
    returns the built path unchecked. *)
Theorem build_config_full_path_default {E : Type} (config : utility.Config E)
    (exists_ : string -> bool) (section relativePathOption : string)
    (relativePathSection defaultPath : option string) (fullPath : string) :
  utility.build_config_full_path config exists_ section relativePathOption
    relativePathSection defaultPath = inr fullPath ->
  exists built,
    utility.build_config_full_path config exists_ section relativePathOption
      relativePathSection None = inr built /\
    match defaultPath with
    | None => fullPath = built
    | Some d =>
        (exists_ built = true /\ fullPath = built) \/
        (exists_ built = false /\ fullPath = d)
    end.
Proof.
  unfold utility.build_config_full_path. intros H.
  apply bindE_inr in H as (sub & -> & H). cbn [utility.bindE].
  apply bindE_inr in H as (built & -> & H). cbn [utility.bindE].
  exists built. split; [reflexivity|].
  destruct defaultPath as [d|]; [|congruence].
  destruct (exists_ built); cbn in H; [left | right]; split; congruence.
Qed.

Lemma build_config_full_path_default_witness :
  exists built,
    utility.build_config_full_path utility.example_config utility.example_exists
      "diagnostics" "sstSubdirectory" (Some "oceanObservations") None = inr built /\
    ((utility.example_exists built = true /\ "/fallback" = built) \/
     (utility.example_exists built = false /\ "/fallback" = "/fallback")).
Proof.
  apply (build_config_full_path_default utility.example_config utility.example_exists
           "diagnostics" "sstSubdirectory" (Some "oceanObservations")
           (Some "/fallback") "/fallback").
  reflexivity.
Defined.

(** X17. If the base directory of the section, whenever the configuration
    has one, is an absolute path, and so is the default path, whenever one
    is given, then every path [build_config_full_path] returns is
    absolute. *)
Theorem build_config_full_path_absolute {E : Type} (config : utility.Config E)
    (exists_ : string -> bool) (section relativePathOption : string)
    (relativePathSection defaultPath : option string) (fullPath : string) :
  (forall baseDirectory,
      config section "baseDirectory" = inr baseDirectory ->
      utility.isabs baseDirectory = true) ->
  (forall d, defaultPath = Some d -> utility.isabs d = true) ->
  utility.build_config_full_path config exists_ section relativePathOption
    relativePathSection defaultPath = inr fullPath ->
  utility.isabs fullPath = true.
Proof.
  intros Hbase Hdef H. unfold utility.build_config_full_path in H.
  apply bindE_inr in H as (sub & _ & H).
  apply bindE_inr in H as (built & Hbuilt & H).
  assert (Habs : utility.isabs built = true).
  { destruct (utility.isabs sub) eqn:Hsub.
    - congruence.
    - apply bindE_inr in Hbuilt as (b & Hb & Hbuilt).
      injection Hbuilt as <-. apply isabs_append. eauto. }
  destruct defaultPath as [d|]; [|congruence].
  destruct (negb (exists_ built)); injection H as <-; auto.
Qed.

Lemma build_config_full_path_absolute_witness :
  utility.isabs "/scratch/run/plots" = true.
Proof.
  apply (build_config_full_path_absolute utility.example_config utility.example_exists
           "output" "plotsSubdirectory" None (Some "/fallback")).
  - intros b Hb. vm_compute in Hb. injection Hb as <-. reflexivity.
  - intros d Hd. injection Hd as <-. reflexivity.
  - reflexivity.
Defined.

(** X18. If the base directory of the diagnostics, whenever the
    configuration has one, is an absolute path, every path [build_obs_path]
    returns is absolute, whichever of its three branches built it. *)
Theorem build_obs_path_absolute {E : Type} (config : utility.Config E)
    (component relativePathOption : string) (relativePathSection : option string)
    (fullPath : string) :
  (forall basePath,
      config "diagnostics" "baseDirectory" = inr basePath ->
      utility.isabs basePath = true) ->
  utility.build_obs_path config component relativePathOption relativePathSection =
    inr fullPath ->
  utility.isabs fullPath = true.
Proof.
  intros Hbase H. unfold utility.build_obs_path in H.
  apply bindE_inr in H as (rel & _ & H).
  destruct (utility.isabs rel) eqn:Hrel; [congruence|].
  apply bindE_inr in H as (obs & _ & H).
  destruct (utility.isabs obs) eqn:Hobs.
  - injection H as <-. apply isabs_append, Hobs.
  - apply bindE_inr in H as (b & Hb & H).
    injection H as <-. apply isabs_append. eauto.
Qed.

Lemma build_obs_path_absolute_witness :
  utility.build_obs_path utility.example_config "ocean" "sstSubdirectory" None =
    inr "/data/observations/Ocean/SST" /\
  utility.isabs "/data/observations/Ocean/SST" = true.
Proof.
  split; [reflexivity|].
  apply (build_obs_path_absolute utility.example_config "ocean" "sstSubdirectory" None).
  - intros b Hb. vm_compute in Hb. injection Hb as <-. reflexivity.
  - reflexivity.
Defined.

(** * The claims that depend on the libraries *)

(** ** The projection is not checked *)

Section Unchecked.
Context {Proj : Type}.
Variable transform :
  Proj -> Proj -> ndarray2 float -> ndarray2 float ->
  result (ndarray2 float * ndarray2 float).

Lemma project_to_lat_lon_eq p q X Y :
  ProjectionGridDescriptor._project_to_lat_lon Proj transform p q X Y =
    match transform p q X Y with
    | Ok (Lon, Lat) => Ok (Lat, Lon)
    | Raise e => Raise e
    end.
Proof.
  unfold ProjectionGridDescriptor._project_to_lat_lon.
  destruct (transform p q X Y) as [[Lon Lat]|e]; reflexivity.
Qed.

(** [to_scrip] raises what the transform raises, on the centers or, when
    those pass, on the corners. *)
Lemma projection_to_scrip_transform_raises (self : ProjectionGridDescriptor.t Proj) e :
  let p := ProjectionGridDescriptor.projection Proj self in
  let q := ProjectionGridDescriptor.latLonProjection Proj self in
  let x := ProjectionGridDescriptor.x Proj self in
  let y := ProjectionGridDescriptor.y Proj self in
  let xCorner := ProjectionGridDescriptor.xCorner Proj self in
  let yCorner := ProjectionGridDescriptor.yCorner Proj self in
  transform p q (fst (numpy.meshgrid x y)) (snd (numpy.meshgrid x y)) = Raise e \/
  ((exists Lon Lat,
       transform p q (fst (numpy.meshgrid x y)) (snd (numpy.meshgrid x y)) = Ok (Lon, Lat)) /\
   transform p q (fst (numpy.meshgrid xCorner yCorner)) (snd (numpy.meshgrid xCorner yCorner)) =
     Raise e) ->
  ProjectionGridDescriptor.to_scrip Proj transform self = Raise e.
Proof.
  cbv zeta. intros H.
  unfold ProjectionGridDescriptor.to_scrip. rewrite create_scrip_new. cbn [bind].
  destruct (numpy.meshgrid (ProjectionGridDescriptor.x Proj self)
              (ProjectionGridDescriptor.y Proj self)) as [X Y].
  destruct (numpy.meshgrid (ProjectionGridDescriptor.xCorner Proj self)
              (ProjectionGridDescriptor.yCorner Proj self)) as [XCorner YCorner].
  cbn [fst snd] in H. rewrite !project_to_lat_lon_eq.
  destruct H as [-> | [(Lon & Lat & ->) ->]]; reflexivity.
Qed.

End Unchecked.

(** C7 does not hold of the code. With a transform that does what
    [pyproj.transform] does when no error check is asked of it, a grid with
    centers outside the domain is created and exported: no error is raised,
    and the file holds [inf] as the longitude and latitude of the centers at
    x = 2000. *)
Lemma projection_out_of_domain_is_stored :
  toy_in_domain 2000 0 = false /\
  exists self outFile,
    ProjectionGridDescriptor.create unit toy_transform tt tt far_x far_y ["prog"] = Ok self /\
    ProjectionGridDescriptor.to_scrip unit toy_transform self = Ok outFile /\
    var_data <$> variables outFile !! "grid_center_lon" =
      Some (Floats [0; infinity; 0; infinity]%float) /\
    var_data <$> variables outFile !! "grid_center_lat" =
      Some (Floats [0; infinity; 0.5; infinity]%float).
Proof.
  split; [reflexivity|].
  eexists. eexists.
  split; [vm_compute; reflexivity|].
  split; [vm_compute; reflexivity|].
  split; vm_compute; reflexivity.
Qed.

(** C7, amended. The module asks [pyproj.transform] for no error check and
    makes none of its own. An exception of the transform is not caught: it
    leaves [_project_to_lat_lon], [create] and [to_scrip] as it is. What the
    transform returns is handed on unchanged, latitude first: whatever the
    values, [create] keeps them as the coordinates 'lat' and 'lon' of a grid
    with two or more centers on each axis, and a grid whose centers and
    corners come back in their shapes is exported, with those latitudes and
    longitudes as its centers. *)
Theorem projection_transform_unchecked {Proj : Type}
    (transform : Proj -> Proj -> ndarray2 float -> ndarray2 float ->
                 result (ndarray2 float * ndarray2 float))
    (latlong_WGS84 : Proj) :
  (forall p q X Y e,
      transform p q X Y = Raise e ->
      ProjectionGridDescriptor._project_to_lat_lon Proj transform p q X Y = Raise e) /\
  (forall p xs ys argv e,
      transform p latlong_WGS84 (fst (numpy.meshgrid xs ys)) (snd (numpy.meshgrid xs ys)) =
        Raise e ->
      ProjectionGridDescriptor.create Proj transform latlong_WGS84 p xs ys argv = Raise e) /\
  (forall (self : ProjectionGridDescriptor.t Proj) e,
      let p := ProjectionGridDescriptor.projection Proj self in
      let q := ProjectionGridDescriptor.latLonProjection Proj self in
      let x := ProjectionGridDescriptor.x Proj self in
      let y := ProjectionGridDescriptor.y Proj self in
      let xCorner := ProjectionGridDescriptor.xCorner Proj self in
      let yCorner := ProjectionGridDescriptor.yCorner Proj self in
      transform p q (fst (numpy.meshgrid x y)) (snd (numpy.meshgrid x y)) = Raise e \/
      ((exists Lon Lat,
           transform p q (fst (numpy.meshgrid x y)) (snd (numpy.meshgrid x y)) =
             Ok (Lon, Lat)) /\
       transform p q (fst (numpy.meshgrid xCorner yCorner))
                     (snd (numpy.meshgrid xCorner yCorner)) = Raise e) ->
      ProjectionGridDescriptor.to_scrip Proj transform self = Raise e) /\
  (forall p q X Y Lon Lat,
      transform p q X Y = Ok (Lon, Lat) ->
      ProjectionGridDescriptor._project_to_lat_lon Proj transform p q X Y = Ok (Lat, Lon)) /\
  (forall p xs ys argv Lon Lat,
      transform p latlong_WGS84 (fst (numpy.meshgrid xs ys)) (snd (numpy.meshgrid xs ys)) =
        Ok (Lon, Lat) ->
      2 <= length xs -> 2 <= length ys ->
      exists self,
        ProjectionGridDescriptor.create Proj transform latlong_WGS84 p xs ys argv = Ok self /\
        ProjectionGridDescriptor.coords Proj self !! "lat" =
          Some (Coord ["x"; "y"] (Data2 Lat) "degrees") /\
        ProjectionGridDescriptor.coords Proj self !! "lon" =
          Some (Coord ["x"; "y"] (Data2 Lon) "degrees")) /\
  (forall (self : ProjectionGridDescriptor.t Proj) Lon Lat LonCorner LatCorner,
      length (ProjectionGridDescriptor.xCorner Proj self) =
        length (ProjectionGridDescriptor.x Proj self) + 1 ->
      length (ProjectionGridDescriptor.yCorner Proj self) =
        length (ProjectionGridDescriptor.y Proj self) + 1 ->
      transform_keeps_shape transform self Lon Lat LonCorner LatCorner ->
      exists outFile,
        ProjectionGridDescriptor.to_scrip Proj transform self = Ok outFile /\
        var_data <$> variables outFile !! "grid_center_lat" = Some (Floats (numpy.flat Lat)) /\
        var_data <$> variables outFile !! "grid_center_lon" = Some (Floats (numpy.flat Lon))).
Proof.
  split; [|split; [|split; [|split; [|split]]]].
  - intros p q X Y e H. rewrite project_to_lat_lon_eq, H. reflexivity.
  - intros p xs ys argv e. apply projection_create_transform_first.
  - intros self e. apply projection_to_scrip_transform_raises.
  - intros p q X Y Lon Lat H. rewrite project_to_lat_lon_eq, H. reflexivity.
  - intros p xs ys argv Lon Lat Ht Hx Hy.
    destruct (projection_create_total transform latlong_WGS84 p xs ys argv Lon Lat Ht Hx Hy)
      as [self Hself].
    exists self. split; [exact Hself|].
    apply projection_create_inv in Hself as ((Lon' & Lat' & Ht' & ->) & _).
    rewrite Ht in Ht'. injection Ht' as <- <-.
    split; [rewrite lookup_insert_ne by discriminate|]; apply lookup_insert_eq.
  - intros self Lon Lat LonC LatC Hx Hy (Hc & Hk & HLon & HLat & HLonC & HLatC).
    destruct (projection_to_scrip_spec transform self Lon Lat LonC LatC
                Hx Hy Hc Hk HLon HLat HLonC HLatC)
      as (outFile & klat & klon & Hrun & Hlat & Hlon & _).
    exists outFile. auto.
Qed.

Lemma projection_transform_unchecked_witness :
  ProjectionGridDescriptor.create unit failing_transform tt tt example_x example_y ["prog"] =
    Raise (RuntimeError "pyproj: projection failed") /\
  ProjectionGridDescriptor.to_scrip unit failing_transform example_projected =
    Raise (RuntimeError "pyproj: projection failed") /\
  exists outFile,
    ProjectionGridDescriptor.to_scrip unit toy_transform example_projected = Ok outFile /\
    var_data <$> variables outFile !! "grid_center_lat" =
      Some (Floats [0; 0; 1; 1; 2; 2]%float).
Proof.
  destruct (projection_transform_unchecked failing_transform tt)
    as (_ & Hcreate & Hexport & _).
  destruct (projection_transform_unchecked toy_transform tt) as (_ & _ & _ & _ & _ & Hpass).
  split; [apply Hcreate; reflexivity|].
  split; [apply Hexport; left; reflexivity|].
  destruct (Hpass example_projected
              (Array2 2 [[0; 1]; [0; 1]; [0; 1]]%float)
              (Array2 2 [[0; 0]; [1; 1]; [2; 2]]%float)
              (Array2 3 [[-0.5; 0.5; 1.5]; [-0.5; 0.5; 1.5]; [-0.5; 0.5; 1.5];
                         [-0.5; 0.5; 1.5]]%float)
              (Array2 3 [[-0.5; -0.5; -0.5]; [0.5; 0.5; 0.5]; [1.5; 1.5; 1.5];
                         [2.5; 2.5; 2.5]]%float)
              eq_refl eq_refl)
    as (outFile & Hrun & Hlat & _).
  - split; [vm_compute; reflexivity|]. split; [vm_compute; reflexivity|].
    repeat split; repeat constructor.
  - exists outFile. split; [exact Hrun | exact Hlat].
Defined.

(** ** The area of a mesh cell *)





(** ** The mask and the units of every export *)

(** The exports end on the inputs [exportable] names. *)
Lemma export_total {Proj : Type} (pow : float -> float -> float)
    (transform : Proj -> Proj -> ndarray2 float -> ndarray2 float ->
                 result (ndarray2 float * ndarray2 float))
    (argv : list string) (d : descriptor Proj) :
  exportable pow transform d ->
  exists outFile, export pow transform argv d = Ok outFile.
Proof.
  destruct d as [inFile | self | self]; cbn [exportable export].
  - intros [Hidx _].
    destruct (mesh_export_indexable (pow:=pow) inFile argv Hidx) as (outFile & _ & _ & H & _).
    eauto.
  - intros Hc.
    destruct (latlon_to_scrip_spec self Hc) as (outFile & _ & _ & _ & _ & H & _).
    eauto.
  - intros (Hx & Hy & Lon & Lat & LonC & LatC & Hc & Hk & HLon & HLat & HLonC & HLatC).
    destruct (projection_to_scrip_spec transform self Lon Lat LonC LatC
                Hx Hy Hc Hk HLon HLat HLonC HLatC) as (outFile & _ & _ & H & _).
    eauto.
Qed.

(** C9. Whatever the descriptor (mesh, lat-lon or projected) of a grid with
    a cell: its export ends, on a mesh whose ids numpy accepts and whose
    squared radius is finite, on a lat-lon grid with its corners, and on a
    projected grid whose transform returns arrays of the shapes it is given;
    and every finished export holds a [grid_imask] of grid_size ones, and
    the four variables [grid_center_lat], [grid_center_lon],
    [grid_corner_lat], [grid_corner_lon] carry the unit of the grid:
    'radians' for a mesh, the descriptor's [units] for a lat-lon grid,
    'degrees' for a projected one. *)
Theorem export_mask_and_units {Proj : Type} (pow : float -> float -> float)
    (transform : Proj -> Proj -> ndarray2 float -> ndarray2 float ->
                 result (ndarray2 float * ndarray2 float))
    (argv : list string) (d : descriptor Proj) :
  nonempty d ->
  (exportable pow transform d ->
   exists outFile, export pow transform argv d = Ok outFile) /\
  (forall outFile,
      export pow transform argv d = Ok outFile ->
      var_data <$> variables outFile !! "grid_imask" =
        Some (Ints (replicate (cell_count d) 1%Z)) /\
      var_units <$> variables outFile !! "grid_center_lat" = Some (Some (native_units d)) /\
      var_units <$> variables outFile !! "grid_center_lon" = Some (Some (native_units d)) /\
      var_units <$> variables outFile !! "grid_corner_lat" = Some (Some (native_units d)) /\
      var_units <$> variables outFile !! "grid_corner_lon" = Some (Some (native_units d))).
Proof.
  intros _. split; [apply export_total|].
  intros outFile.
  destruct d as [inFile | self | self]; cbn [export cell_count native_units]; intros H.
  - apply mesh_to_scrip_inv in H. exact (proj1 H).
  - apply latlon_mask_and_units in H. exact H.
  - apply projection_mask_and_units in H. exact H.
Qed.

Lemma example_projected_exportable :
  exportable example_pow toy_transform (Projection example_projected).
Proof.
  split; [reflexivity|]. split; [reflexivity|].
  exists (Array2 2 [[0; 1]; [0; 1]; [0; 1]]%float),
         (Array2 2 [[0; 0]; [1; 1]; [2; 2]]%float),
         (Array2 3 [[-0.5; 0.5; 1.5]; [-0.5; 0.5; 1.5]; [-0.5; 0.5; 1.5];
                    [-0.5; 0.5; 1.5]]%float),
         (Array2 3 [[-0.5; -0.5; -0.5]; [0.5; 0.5; 0.5]; [1.5; 1.5; 1.5];
                    [2.5; 2.5; 2.5]]%float).
  split; [vm_compute; reflexivity|]. split; [vm_compute; reflexivity|].
  repeat split; repeat constructor.
Qed.

Lemma export_mask_and_units_witness :
  (exists outFile,
      export example_pow toy_transform ["prog"] (Mesh two_cell_mesh) = Ok outFile /\
      var_data <$> variables outFile !! "grid_imask" = Some (Ints [1; 1]%Z) /\
      var_units <$> variables outFile !! "grid_corner_lon" = Some (Some "radians")) /\
  (exists outFile,
      export example_pow toy_transform ["prog"] (LatLon example_latlon) = Ok outFile /\
      var_data <$> variables outFile !! "grid_imask" = Some (Ints [1; 1; 1; 1; 1; 1]%Z) /\
      var_units <$> variables outFile !! "grid_corner_lon" = Some (Some "degrees")) /\
  (exists outFile,
      export example_pow toy_transform ["prog"] (Projection example_projected) = Ok outFile /\
      var_data <$> variables outFile !! "grid_imask" = Some (Ints [1; 1; 1; 1; 1; 1]%Z) /\
      var_units <$> variables outFile !! "grid_corner_lon" = Some (Some "degrees")).
Proof.
  split; [|split].
  - destruct (export_mask_and_units example_pow toy_transform ["prog"] (Mesh two_cell_mesh))
      as [Htotal Hall]; [split; simpl; lia|].
    destruct (Htotal (conj eq_refl eq_refl)) as [outFile Hrun]. exists outFile.
    destruct (Hall outFile Hrun) as (Hmask & _ & _ & _ & Hu).
    split; [exact Hrun|]. split; [exact Hmask | exact Hu].
  - destruct (export_mask_and_units example_pow toy_transform ["prog"] (LatLon example_latlon))
      as [Htotal Hall]; [split; simpl; lia|].
    destruct (Htotal (conj eq_refl eq_refl)) as [outFile Hrun]. exists outFile.
    destruct (Hall outFile Hrun) as (Hmask & _ & _ & _ & Hu).
    split; [exact Hrun|]. split; [exact Hmask | exact Hu].
  - destruct (export_mask_and_units example_pow toy_transform ["prog"]
                (Projection example_projected))
      as [Htotal Hall]; [split; simpl; lia|].
    destruct (Htotal example_projected_exportable) as [outFile Hrun]. exists outFile.
    destruct (Hall outFile Hrun) as (Hmask & _ & _ & _ & Hu).
    split; [exact Hrun|]. split; [exact Hmask | exact Hu].
Defined.
